(** * FluentDrama-Japanese: usage metering, voice selection and the
    speech / dialogue services, embedded from the TypeScript sources.

  Layout: the definitions come first, one module per source file
  ([Js] for the JavaScript primitives the code relies on, [Storage] for
  server/storage.ts, [Tts] for server/services/openai-tts.ts, [Speech] for
  server/services/speech-recognition.ts, [Dialogue] for
  server/services/openai.ts, [Routes] for server/routes.ts and [Scene] for
  the drama-scene page of the client); the theorems follow. Further
  modules hold what the properties of the second part of the file need:
  [Metering] sequences of metered requests, [Billing] and [Middleware]
  the price tables and the JSON middleware of server/routes.ts,
  [TtsService] the speech service of server/services/openai-tts.ts,
  [Session] sequences of recordings on the page, [Opening] the setting of
  the scene on the page, [Translation] POST /api/translate-pronunciation
  and [QueryClient] client/src/lib/queryClient.ts.

  Modelling conventions.
  - Strings are byte strings (UTF-8). Characters outside ASCII are
    recognised by their encoding where the code looks at them: white space,
    the Japanese ranges of the language test, the fillers of the
    transcription filter.
  - A JavaScript number is a double. Those of this program are integers,
    infinities and NaN: an integer is kept in [Z], exactly up to 2^53 and
    rounded as a double beyond, in sums, in [parseInt] and in [String]
    (which goes to exponent notation from 10^21).
  - An object literal used as a lookup table is read with [Js.readProp]:
    a key finds the property the literal has under that name, or else
    what the literal inherits from Object.prototype under it, a method or
    the prototype itself.
  - The server reaches the AI provider with [fetch] in the routes and
    through the provider's client library in the services. The world logs
    a request of the first kind and a call of the second kind, once each;
    the client library may send more than one request for a call.
  - The file system is met once, for the temporary file of a recording:
    what it does is a parameter of [Speech.recognizeSpeech].
  - [new Date()] reads the clock of the world; a request is handled at one
    instant.
  - On the page, what runs on a timer (playing a line, the toast shown with
    it) is not part of the state. *)

From Stdlib Require Import ZArith String Ascii List Bool Lia QArith.
From stdpp Require Import base gmap strings list pretty.

Set Warnings "-register-all".

Open Scope string_scope.
Open Scope Z_scope.

(* ================================================================== *)
(** ** JavaScript primitives *)
(* ================================================================== *)

Module Js.

(** A number: a double. The numbers this program computes are integers,
    the infinities and NaN; [Num z] is the double whose value is the
    integer [z]. *)
Inductive jsnum := Num (z : Z) | NaN | Infinity (negative : bool).

(** Up to this magnitude every integer is a double. *)
Definition maxExact : Z := 2 ^ 53.

(** The double nearest to an integer: the integer itself up to 2^53,
    beyond it the nearest integer with a mantissa of 53 bits, the even
    one of two that are equally near, and an infinity from 2^1024 on. *)
Definition nearest (z : Z) : jsnum :=
  let a := Z.abs z in
  if a <=? maxExact then Num z
  else
    let e := Z.log2 a - 52 in
    let q := a / 2 ^ e in
    let r := a mod 2 ^ e in
    let half := 2 ^ (e - 1) in
    let q' := if (half <? r) || ((r =? half) && Z.odd q) then q + 1 else q in
    if 2 ^ 1024 <=? q' * 2 ^ e then Infinity (z <? 0)
    else Num (Z.sgn z * (q' * 2 ^ e)).

(** [a < b] on numbers: false as soon as one side is NaN. *)
Definition lt (a b : jsnum) : bool :=
  match a, b with
  | Num x, Num y => x <? y
  | Num _, Infinity negative => negb negative
  | Infinity negative, Num _ => negative
  | Infinity x, Infinity y => x && negb y
  | _, _ => false
  end.

(** [a >= b] on numbers: false as soon as one side is NaN. *)
Definition ge (a b : jsnum) : bool :=
  match a, b with
  | Num x, Num y => y <=? x
  | Num _, Infinity negative => negative
  | Infinity negative, Num _ => negb negative
  | Infinity x, Infinity y => negb x || y
  | _, _ => false
  end.

(** [a + b]: the exact sum, rounded to the nearest double. *)
Definition add (a b : jsnum) : jsnum :=
  match a, b with
  | Num x, Num y => nearest (x + y)
  | Infinity x, Infinity y => if Bool.eqb x y then Infinity x else NaN
  | Infinity x, Num _ | Num _, Infinity x => Infinity x
  | _, _ => NaN
  end.

(** Whether the decimal [v] denotes the double [a]. *)
Definition denotes (v a : Z) : bool :=
  match nearest v with
  | Num x => x =? a
  | _ => false
  end.

Definition digitCount (a : Z) : Z := Z.of_nat (String.length (pretty a)).

(** Among the decimals with [k] significant digits, the one that denotes
    the double [a] of [d] digits, if there is one: the nearer of the two
    that enclose [a], the even one when both are equally near. *)
Definition candidate (a d k : Z) : option Z :=
  let unit := 10 ^ (d - k) in
  let lo := a / unit * unit in
  let hi := lo + unit in
  match denotes lo a, denotes hi a with
  | true, true =>
      Some (if a - lo <? hi - a then lo
            else if hi - a <? a - lo then hi
            else if Z.even (lo / unit) then lo else hi)
  | true, false => Some lo
  | false, true => Some hi
  | false, false => None
  end.

(** The decimal with the fewest significant digits that denotes [a];
    seventeen digits always tell a double from its neighbours. *)
Fixpoint shortest (fuel : nat) (a d k : Z) : Z :=
  match fuel with
  | O => a
  | S fuel' =>
      match candidate a d k with
      | Some v => v
      | None => shortest fuel' a d (k + 1)
      end
  end.

Fixpoint withoutZeros (fuel : nat) (v : Z) : Z :=
  match fuel with
  | O => v
  | S fuel' =>
      if (v mod 10 =? 0) && negb (v =? 0) then withoutZeros fuel' (v / 10) else v
  end.

(** [String(a)] for a double [a] above 2^53: the shortest decimal that
    denotes it, with its zeros up to twenty-one digits and in exponent
    notation beyond. *)
Definition writtenLarge (a : Z) : string :=
  let v := shortest 17 a (digitCount a) 1 in
  let n := digitCount v in
  if n <=? 21 then pretty v
  else
    match pretty (withoutZeros 400 v) with
    | String c "" => String c "" ++ "e+" ++ pretty (n - 1)
    | String c r => String c ("." ++ r) ++ "e+" ++ pretty (n - 1)
    | "" => ""
    end.

(** [String(n)] and [n.toString()]. *)
Definition toString (a : jsnum) : string :=
  match a with
  | Num z =>
      if Z.abs z <=? maxExact then pretty z
      else (if z <? 0 then "-" else "") ++ writtenLarge (Z.abs z)
  | NaN => "NaN"
  | Infinity false => "Infinity"
  | Infinity true => "-Infinity"
  end.

(** [x || d] for a nullable string: null, undefined and the empty string
    are falsy. *)
Definition orStr (x : option string) (d : string) : string :=
  match x with
  | Some s => if String.eqb s "" then d else s
  | None => d
  end.

(** Truthiness of a nullable string. *)
Definition truthy (x : option string) : bool :=
  match x with
  | Some s => negb (String.eqb s "")
  | None => false
  end.

(** White space and line terminators, as [parseInt] and [trim] skip them,
    by their UTF-8 encodings: U+0009..U+000D and U+0020 in one byte,
    U+00A0 in two, and U+1680, U+2000..U+200A, U+2028, U+2029, U+202F,
    U+205F, U+3000 and U+FEFF in three. *)
Definition isWhite1 (c : ascii) : bool :=
  let n := nat_of_ascii c in
  ((9 <=? n) && (n <=? 13) || (n =? 32))%nat.

Definition isWhite2 (c1 c2 : ascii) : bool :=
  ((nat_of_ascii c1 =? 194) && (nat_of_ascii c2 =? 160))%nat.

Definition isWhite3 (c1 c2 c3 : ascii) : bool :=
  let a := nat_of_ascii c1 in
  let b := nat_of_ascii c2 in
  let c := nat_of_ascii c3 in
  ((a =? 225) && (b =? 154) && (c =? 128)
   || (a =? 226) && (b =? 128)
      && ((128 <=? c) && (c <=? 138) || (c =? 168) || (c =? 169) || (c =? 175))
   || (a =? 226) && (b =? 129) && (c =? 159)
   || (a =? 227) && (b =? 128) && (c =? 128)
   || (a =? 239) && (b =? 187) && (c =? 191))%nat.

Fixpoint trimStart (s : string) : string :=
  match s with
  | String c1 r1 =>
      if isWhite1 c1 then trimStart r1
      else match r1 with
           | String c2 r2 =>
               if isWhite2 c1 c2 then trimStart r2
               else match r2 with
                    | String c3 r3 =>
                        if isWhite3 c1 c2 c3 then trimStart r3 else s
                    | EmptyString => s
                    end
           | EmptyString => s
           end
  | EmptyString => s
  end.

(** The same on the reversed bytes, for the end of the string. *)
Fixpoint trimStartRev (s : string) : string :=
  match s with
  | String c1 r1 =>
      if isWhite1 c1 then trimStartRev r1
      else match r1 with
           | String c2 r2 =>
               if isWhite2 c2 c1 then trimStartRev r2
               else match r2 with
                    | String c3 r3 =>
                        if isWhite3 c3 c2 c1 then trimStartRev r3 else s
                    | EmptyString => s
                    end
           | EmptyString => s
           end
  | EmptyString => s
  end.

Definition trimEnd (s : string) : string :=
  String.rev (trimStartRev (String.rev s)).

(** [s.trim()] *)
Definition trim (s : string) : string := trimEnd (trimStart s).

(** [s.length]: the number of UTF-16 code units of the string. Every
    character counts once, a character encoded on four bytes twice. *)
Fixpoint utf16Length (s : string) : nat :=
  match s with
  | String c r =>
      let n := nat_of_ascii c in
      ((if (n <? 128) || (192 <=? n) then 1 else 0)
       + (if 240 <=? n then 1 else 0) + utf16Length r)%nat
  | EmptyString => 0%nat
  end.

(** [s.includes(t)] *)
Fixpoint includes (s t : string) : bool :=
  String.prefix t s
  || match s with
     | String _ r => includes r t
     | EmptyString => false
     end.

(** [/^[...]+$/.test(s)] for a class given by the encodings of its
    characters: [s] is a non-empty sequence of them. *)
Definition stripOne (class : list string) (s : string) : option string :=
  match filter (fun a => Is_true (String.prefix a s)) class with
  | a :: _ => Some (String.substring (String.length a)
                      (String.length s - String.length a) s)
  | [] => None
  end.

Fixpoint allOfClass (fuel : nat) (class : list string) (s : string) : bool :=
  match fuel with
  | O => false
  | S fuel' =>
      match stripOne class s with
      | Some r => String.eqb r "" || allOfClass fuel' class r
      | None => false
      end
  end.

Definition matchesClassPlus (class : list string) (s : string) : bool :=
  allOfClass (String.length s) class s.

(** Value of a digit in the given radix (10 or 16). *)
Definition digitVal (radix : Z) (c : ascii) : option Z :=
  let n := Z.of_nat (nat_of_ascii c) in
  let v :=
    if (48 <=? n) && (n <=? 57) then Some (n - 48)
    else if (97 <=? n) && (n <=? 102) then Some (n - 87)
    else if (65 <=? n) && (n <=? 70) then Some (n - 55)
    else None in
  match v with
  | Some d => if d <? radix then Some d else None
  | None => None
  end.

(** The longest prefix of digits, read in [radix]; [acc] is [None] until a
    first digit has been seen. *)
Fixpoint digits (radix : Z) (s : string) (acc : option Z) : option Z :=
  match s with
  | String c r =>
      match digitVal radix c with
      | Some d =>
          digits radix r
            (Some (match acc with Some a => a * radix + d | None => d end))
      | None => acc
      end
  | EmptyString => acc
  end.

(** [parseInt(s)] with no radix argument: the integer the digits spell,
    as the double nearest to it. *)
Definition parseInt (s : string) : jsnum :=
  let s1 := trimStart s in
  let '(sign, s2) :=
    match s1 with
    | String "-" r => (-1, r)
    | String "+" r => (1, r)
    | _ => (1, s1)
    end in
  let '(radix, s3) :=
    match s2 with
    | String "0" (String "x" r) => (16, r)
    | String "0" (String "X" r) => (16, r)
    | _ => (10, s2)
    end in
  match digits radix s3 None with
  | Some n => nearest (sign * n)
  | None => NaN
  end.

Definition lowerChar (c : ascii) : ascii :=
  let n := nat_of_ascii c in
  if ((65 <=? n) && (n <=? 90))%nat then ascii_of_nat (n + 32) else c.

(** [s.toLowerCase()]: bytes outside A-Z are kept; no character outside
    ASCII lowers to a string that equals one of the keys compared below. *)
Fixpoint toLowerCase (s : string) : string :=
  match s with
  | String c r => String (lowerChar c) (toLowerCase r)
  | EmptyString => EmptyString
  end.

(** [a.slice(-n)] on an array: the last [n] elements, all of them when the
    array is shorter. *)
Definition sliceLast {A : Type} (n : nat) (a : list A) : list A :=
  drop (length a - n)%nat a.

(** [a.join(sep)] on an array of strings. *)
Fixpoint join (sep : string) (a : list string) : string :=
  match a with
  | [] => ""
  | [x] => x
  | x :: r => x ++ sep ++ join sep r
  end.

(** Parsed JSON values. An object keeps its members as an association list
    with distinct keys. *)
Inductive json :=
| JNull
| JBool (b : bool)
| JNum (n : Z)        (* only its being zero or not is ever observed *)
| JStr (s : string)
| JArr (items : list json)
| JObj (members : list (string * json)).

Fixpoint assoc {A : Type} (k : string) (l : list (string * A)) : option A :=
  match l with
  | (k', v) :: r => if String.eqb k k' then Some v else assoc k r
  | [] => None
  end.

(** *** Reading an object literal by a computed key

    [table[key]] finds the properties the literal defines and, for a key
    it does not define, what every object inherits from Object.prototype:
    one of its methods, or the prototype itself for the key __proto__.
    What is inherited is truthy, so that [table[key] || fallback] does not
    fall back; it is no number, so that a comparison with a number is
    false; it has none of the properties this program reads; and
    [JSON.stringify] leaves a property that holds a method out and writes
    the prototype as an empty object. *)
Inductive inherited := Method (name : string) | Prototype.

Definition inheritedMethods : list string :=
  [ "constructor"; "hasOwnProperty"; "isPrototypeOf"; "propertyIsEnumerable";
    "toLocaleString"; "toString"; "valueOf";
    "__defineGetter__"; "__defineSetter__"; "__lookupGetter__"; "__lookupSetter__" ].

Definition inheritedOf (key : string) : option inherited :=
  if String.eqb key "__proto__" then Some Prototype
  else if existsb (String.eqb key) inheritedMethods then Some (Method key)
  else None.

(** What a read gives when it gives something: a property of the literal
    itself, or an inherited one. *)
Inductive entry (A : Type) := Own (a : A) | Inherited (i : inherited).
Arguments Own {A} a.
Arguments Inherited {A} i.

(** [table[key]]; [None] is [undefined]. *)
Definition readProp {A : Type} (key : string) (table : list (string * A))
    : option (entry A) :=
  match assoc key table with
  | Some a => Some (Own a)
  | None =>
      match inheritedOf key with
      | Some i => Some (Inherited i)
      | None => None
      end
  end.

(** [n < l] for a number [n] and what a table of numbers gave: an
    inherited method or the prototype converts to NaN. *)
Definition ltEntry (n : jsnum) (l : entry Z) : bool :=
  match l with
  | Own z => lt n (Num z)
  | Inherited _ => false
  end.

(** Result of a property read [v.k]: the value, [undefined], or the
    TypeError raised when [v] is null. Arrays, strings, numbers and
    booleans have no property named by the keys read in this program. *)
Inductive prop_read := Value (v : json) | Undefined | TypeError.

Definition getProp (v : json) (k : string) : prop_read :=
  match v with
  | JNull => TypeError
  | JObj ms => match assoc k ms with Some x => Value x | None => Undefined end
  | _ => Undefined
  end.

(** Truthiness of a JSON value: null, false, 0 and the empty string are falsy. *)
Definition truthyJson (v : json) : bool :=
  match v with
  | JNull => false
  | JBool b => b
  | JNum n => negb (n =? 0)
  | JStr s => negb (String.eqb s "")
  | JArr _ | JObj _ => true
  end.

(** Decoding of base64 text as [Buffer.from(s, 'base64')] performs it on
    well-formed input: four characters of the alphabet give three bytes,
    the padding ends the text. It instantiates the decoder of the runtime
    in the examples. *)
Definition sextet (c : ascii) : option Z :=
  let n := Z.of_nat (nat_of_ascii c) in
  if (65 <=? n) && (n <=? 90) then Some (n - 65)
  else if (97 <=? n) && (n <=? 122) then Some (n - 71)
  else if (48 <=? n) && (n <=? 57) then Some (n + 4)
  else if (n =? 43) || (n =? 45) then Some 62
  else if (n =? 47) || (n =? 95) then Some 63
  else None.

Fixpoint sextets (s : string) : list Z :=
  match s with
  | String c r =>
      match sextet c with
      | Some v => v :: sextets r
      | None => if (nat_of_ascii c =? 61)%nat then [] else sextets r
      end
  | EmptyString => []
  end.

Definition byteOf (z : Z) : ascii := ascii_of_nat (Z.to_nat (z mod 256)).

Fixpoint unsextets (l : list Z) : list ascii :=
  match l with
  | a :: b :: c :: d :: r =>
      byteOf (a * 4 + b / 16) :: byteOf (b * 16 + c / 4) :: byteOf (c * 64 + d)
      :: unsextets r
  | [a; b; c] => [byteOf (a * 4 + b / 16); byteOf (b * 16 + c / 4)]
  | [a; b] => [byteOf (a * 4 + b / 16)]
  | _ => []
  end.

Definition base64Decode (s : string) : list ascii := unsextets (sextets s).

End Js.

(* ================================================================== *)
(** ** The server's world and its effects *)
(* ================================================================== *)

Module Server.

(** Result of a computation that may throw. *)
Inductive outcome (A : Type) := Ok (a : A) | Throw (msg : string).
Arguments Ok {A} a.
Arguments Throw {A} msg.

(** Modelled from the spec: the row type [User] of @shared/schema is not
    among the sources. The columns are those the storage and route code
    reads and writes; the usage counters are nullable text columns, as
    their use with [parseInt] and [String] shows. The primary key [id] is
    the key of the table. *)
Record User := mkUser {
  email : option string;
  isAdmin : option bool;
  subscriptionTier : option string;
  conversationCount : option string;
  imageGenerationCount : option string;
  ttsUsageCount : option string;
  dailyUsageCount : option string;
  monthlyImageCount : option string;
  lastUsageReset : option Z;          (* milliseconds since the epoch *)
  updatedAt : option Z
}.

Record BackgroundPrompt := mkBackgroundPrompt {
  backgroundSetting : option string;
  appropriateOutfit : option string;
  characterPose : option string
}.

(** A row of the saved_characters table, as the routes insert it. *)
Record SavedCharacter := mkSavedCharacter {
  sc_userId : string;
  sc_name : string;
  sc_gender : string;
  sc_style : string;
  sc_imageUrl : string;
  sc_audience : string;
  sc_scenario : option string;
  sc_backgroundPrompt : option BackgroundPrompt
}.

(** Modelled from the spec: the connection [db] of ./db is not among the
    sources. It is a relational store reached over a connection; while the
    connection is down every query throws. *)
Record Db := mkDb {
  users : gmap string User;
  savedCharacters : list SavedCharacter;
  connected : bool
}.

Record Message := mkMessage { role : string; content : string }.

(** Body of POST /api/generate-image. *)
Record GenerateImageBody := mkGenerateImageBody {
  gi_name : string;
  gi_gender : string;
  gi_style : string;
  gi_audience : string;
  gi_scenario : option string;
  gi_customScenarioText : option string;
  gi_backgroundPrompt : option BackgroundPrompt
}.

Record Turn := mkTurn { speaker : string; text : string }.

(** The holes of the prompt template of [generateConversationResponse]. *)
Record ConversationPrompt := mkConversationPrompt {
  cp_characterName : string;
  cp_topic : string;
  cp_historyText : string;
  cp_userInput : string;
  cp_shouldConsiderEnding : bool
}.

(** Calls to the AI provider: a request the code sends itself with
    [fetch], or one call of the provider's client library
    ([openai.chat.completions.create] and the like). A prompt that is a
    fixed template is recorded by the values that fill it. In
    [AudioSpeechCreate], the call of the client library for speech, the
    input and the speed are what a lookup in an object literal has given. *)
Inductive Call :=
| ImagesGenerations (body : GenerateImageBody)
| ChatCompletions (messages : list Message)
| ChatDialogue (audience characterName characterStyle scenarioText : string)
| ChatConversation (prompt : ConversationPrompt)
| AudioSpeech (input voice : string) (speed : Q)
| AudioSpeechCreate (input : Js.entry string) (voice : string) (speed : Js.entry Q)
| AudioTranscriptions (file : list ascii) (language : string).

(** What a call settles with. [Chat content parsed] carries the message
    content and what [JSON.parse] makes of it ([None]: a SyntaxError). *)
Inductive Reply :=
| HttpError (status : Z)
| Image (url : string)
| Chat (content : option string) (parsed : option Js.json)
| Audio (base64 : string)
| Transcription (text : string).

(** The world a request handler runs in: the database, the clock, the
    environment, the calls to the provider made so far, what the next
    calls will settle with, and the next value of
    [Math.floor(Math.random() * 20)]. *)
Record World := mkWorld {
  db : Db;
  now : Z;
  openaiApiKey : option string;
  calls : list Call;
  replies : list Reply;
  random20 : Z
}.

Definition setDb (d : Db) (w : World) : World :=
  mkWorld d (now w) (openaiApiKey w) (calls w) (replies w) (random20 w).

Definition setNow (t : Z) (w : World) : World :=
  mkWorld (db w) t (openaiApiKey w) (calls w) (replies w) (random20 w).

(** State and exception monad; the state survives a throw. *)
Definition M (S A : Type) : Type := S -> outcome A * S.

Definition ret {S A} (a : A) : M S A := fun s => (Ok a, s).

Definition bind {S A B} (m : M S A) (k : A -> M S B) : M S B :=
  fun s => match m s with
           | (Ok a, s') => k a s'
           | (Throw e, s') => (Throw e, s')
           end.

Definition throw {S A} (msg : string) : M S A := fun s => (Throw msg, s).

(** [try { m } catch (error) { h error.message }] *)
Definition tryCatch {S A} (m : M S A) (h : string -> M S A) : M S A :=
  fun s => match m s with
           | (Ok a, s') => (Ok a, s')
           | (Throw e, s') => h e s'
           end.

Declare Scope js_scope.
Delimit Scope js_scope with js.
Notation "'let*' x := c 'in' k" := (bind c (fun x => k))
  (at level 10, x name, c at level 100, k at level 200) : js_scope.
Notation "c ;;; k" := (bind c (fun _ => k))
  (at level 100, k at level 200, right associativity) : js_scope.
Open Scope js_scope.

(** [new Date()] *)
Definition newDate : M World Z := fun w => (Ok (now w), w).

(** An outcome known beforehand, as a step. *)
Definition lift {S A} (o : outcome A) : M S A := fun s => (o, s).

(** A request to the provider sent with [fetch]: logged, then answered
    from the tape. With no answer left the request fails as a network
    error. *)
Definition fetch (c : Call) : M World Reply :=
  fun w =>
    match replies w with
    | r :: rest =>
        (Ok r, mkWorld (db w) (now w) (openaiApiKey w) (calls w ++ [c]) rest (random20 w))
    | [] =>
        (Throw "fetch failed",
         mkWorld (db w) (now w) (openaiApiKey w) (calls w ++ [c]) [] (random20 w))
    end.

(** One call of the provider's client library,
    [await openai. ... .create(...)]. The library sends the request and,
    when that fails, may send it again before the call settles. The log
    keeps the call, once, however many requests the library has sent for
    it, and the tape holds what the call settles with. *)
Definition create (c : Call) : M World Reply := fetch c.

End Server.

(* ================================================================== *)
(** ** server/storage.ts *)
(* ================================================================== *)

Module Storage.
Import Server.

(** One column assignment of an [update(users).set({...})]. *)
Inductive Assign :=
| SetSubscriptionTier (v : option string)
| SetConversationCount (v : option string)
| SetImageGenerationCount (v : option string)
| SetTtsUsageCount (v : option string)
| SetDailyUsageCount (v : option string)
| SetMonthlyImageCount (v : option string)
| SetLastUsageReset (t : option Z)
| SetUpdatedAt (t : option Z).

Definition assign (u : User) (a : Assign) : User :=
  match a with
  | SetSubscriptionTier v =>
      mkUser (email u) (isAdmin u) v (conversationCount u) (imageGenerationCount u)
        (ttsUsageCount u) (dailyUsageCount u) (monthlyImageCount u)
        (lastUsageReset u) (updatedAt u)
  | SetConversationCount v =>
      mkUser (email u) (isAdmin u) (subscriptionTier u) v (imageGenerationCount u)
        (ttsUsageCount u) (dailyUsageCount u) (monthlyImageCount u)
        (lastUsageReset u) (updatedAt u)
  | SetImageGenerationCount v =>
      mkUser (email u) (isAdmin u) (subscriptionTier u) (conversationCount u) v
        (ttsUsageCount u) (dailyUsageCount u) (monthlyImageCount u)
        (lastUsageReset u) (updatedAt u)
  | SetTtsUsageCount v =>
      mkUser (email u) (isAdmin u) (subscriptionTier u) (conversationCount u)
        (imageGenerationCount u) v (dailyUsageCount u) (monthlyImageCount u)
        (lastUsageReset u) (updatedAt u)
  | SetDailyUsageCount v =>
      mkUser (email u) (isAdmin u) (subscriptionTier u) (conversationCount u)
        (imageGenerationCount u) (ttsUsageCount u) v (monthlyImageCount u)
        (lastUsageReset u) (updatedAt u)
  | SetMonthlyImageCount v =>
      mkUser (email u) (isAdmin u) (subscriptionTier u) (conversationCount u)
        (imageGenerationCount u) (ttsUsageCount u) (dailyUsageCount u) v
        (lastUsageReset u) (updatedAt u)
  | SetLastUsageReset t =>
      mkUser (email u) (isAdmin u) (subscriptionTier u) (conversationCount u)
        (imageGenerationCount u) (ttsUsageCount u) (dailyUsageCount u)
        (monthlyImageCount u) t (updatedAt u)
  | SetUpdatedAt t =>
      mkUser (email u) (isAdmin u) (subscriptionTier u) (conversationCount u)
        (imageGenerationCount u) (ttsUsageCount u) (dailyUsageCount u)
        (monthlyImageCount u) (lastUsageReset u) t
  end.

(** [db.select().from(users).where(eq(users.id, id))], destructured as
    [[user]]; throws while the connection is down. *)
Definition getUser (id : string) : M World (option User) :=
  fun w =>
    if connected (db w) then (Ok (users (db w) !! id), w)
    else (Throw "database connection failed", w).

(** [db.update(users).set(sets).where(eq(users.id, id)).returning()],
    destructured as [[user]]. *)
Definition updateUsers (id : string) (sets : list Assign) : M World (option User) :=
  fun w =>
    if connected (db w) then
      match users (db w) !! id with
      | Some u =>
          let u' := foldl assign u sets in
          (Ok (Some u'),
           setDb (mkDb (<[id := u']> (users (db w))) (savedCharacters (db w)) true) w)
      | None => (Ok None, w)
      end
    else (Throw "database connection failed", w).

Definition updateUserSubscription (userId : string) (subscriptionData : list Assign)
    : M World (option User) :=
  let* t := newDate in
  updateUsers userId (subscriptionData ++ [SetUpdatedAt (Some t)]).

Definition resetUserUsage (userId : string) : M World (option User) :=
  let* t := newDate in
  updateUsers userId
    [ SetConversationCount (Some "0");
      SetImageGenerationCount (Some "0");
      SetTtsUsageCount (Some "0");
      SetDailyUsageCount (Some "0");
      SetMonthlyImageCount (Some "0");
      SetLastUsageReset (Some t);
      SetUpdatedAt (Some t) ].

Inductive UsageType := conversation | imageGeneration | tts.

(** [String(parseInt(c || '0') + 1)] *)
Definition bump (c : option string) : option string :=
  Some (Js.toString (Js.add (Js.parseInt (Js.orStr c "0")) (Js.Num 1))).

Definition incrementUsage (userId : string) (type : UsageType) : M World unit :=
  let* user := getUser userId in
  match user with
  | None => ret tt
  | Some user =>
      let* t := newDate in
      let updates :=
        SetUpdatedAt (Some t) ::
        match type with
        | conversation => [SetConversationCount (bump (conversationCount user))]
        | imageGeneration => [SetImageGenerationCount (bump (imageGenerationCount user))]
        | tts => [SetTtsUsageCount (bump (ttsUsageCount user))]
        end in
      let* _ := updateUsers userId updates in
      ret tt
  end.

(** [db.insert(savedCharacters).values(characterData).returning()] *)
Definition saveCharacter (characterData : SavedCharacter) : M World SavedCharacter :=
  fun w =>
    if connected (db w) then
      (Ok characterData,
       setDb (mkDb (users (db w)) (savedCharacters (db w) ++ [characterData]) true) w)
    else (Throw "database connection failed", w).

End Storage.

(* ================================================================== *)
(** ** server/services/openai-tts.ts *)
(* ================================================================== *)

Module Tts.

Inductive Voice := alloy | echo | fable | onyx | nova | shimmer.

Definition voiceName (v : Voice) : string :=
  match v with
  | alloy => "alloy" | echo => "echo" | fable => "fable"
  | onyx => "onyx" | nova => "nova" | shimmer => "shimmer"
  end.

(** The object literal [roleVoices], built for the given gender. *)
Definition roleVoices (gender : string) : list (string * Voice) :=
  let pick (f m : Voice) := if String.eqb gender "female" then f else m in
  [ ("Professional Server", pick nova onyx);
    ("Flight Attendant", pick nova onyx);
    ("Friendly Barista", pick alloy fable);
    ("Senior Executive", pick nova onyx);
    ("Concierge", pick nova onyx);
    ("Check-in Staff", pick nova onyx) ].

(** What [getOpenAIVoiceForCharacter] does once the role has given
    nothing: the voice of the gender and the style. *)
Definition voiceOfStyle (style gender : string) : Voice :=
  let g := Js.toLowerCase gender in
  let s := Js.toLowerCase style in
  if String.eqb g "female" then
    if String.eqb s "professional" || String.eqb s "strict" then nova
    else if String.eqb s "cheerful" || String.eqb s "friendly" then shimmer
    else if String.eqb s "calm" then alloy
    else nova
  else if String.eqb g "male" then
    if String.eqb s "professional" || String.eqb s "strict" then onyx
    else if String.eqb s "cheerful" || String.eqb s "friendly" then echo
    else if String.eqb s "calm" then fable
    else onyx
  else nova.

(** [getOpenAIVoiceForCharacter(style, gender, role = '')]; a caller that
    passes no role passes the empty string. [roleVoices[role]] is returned
    as soon as it is truthy: a voice of the table, or what the table
    inherits under that name, which is no voice. *)
Definition getOpenAIVoiceForCharacter (style gender role : string)
    : Js.entry Voice :=
  match (if Js.truthy (Some role) then Js.readProp role (roleVoices gender)
         else None) with
  | Some found => found
  | None => Js.Own (voiceOfStyle style gender)
  end.

(** *** The lookup order in the words of the specification

    Three tables consulted in order: the role table, the table of
    (gender, style) pairs, the default of the gender. *)

Definition roleTable : list (string * (Voice * Voice)) :=
  [ ("Professional Server", (nova, onyx));
    ("Flight Attendant", (nova, onyx));
    ("Friendly Barista", (alloy, fable));
    ("Senior Executive", (nova, onyx));
    ("Concierge", (nova, onyx));
    ("Check-in Staff", (nova, onyx)) ].

Definition roleLookup (role gender : string) : option Voice :=
  if String.eqb role "" then None
  else match Js.assoc role roleTable with
       | Some (f, m) => Some (if String.eqb gender "female" then f else m)
       | None => None
       end.

Definition pairTable : list ((string * string) * Voice) :=
  [ (("female", "professional"), nova); (("female", "strict"), nova);
    (("female", "cheerful"), shimmer); (("female", "friendly"), shimmer);
    (("female", "calm"), alloy);
    (("male", "professional"), onyx); (("male", "strict"), onyx);
    (("male", "cheerful"), echo); (("male", "friendly"), echo);
    (("male", "calm"), fable) ].

Fixpoint pairLookup (g s : string) (t : list ((string * string) * Voice))
    : option Voice :=
  match t with
  | ((g', s'), v) :: r =>
      if String.eqb g g' && String.eqb s s' then Some v else pairLookup g s r
  | [] => None
  end.

Definition genderDefault (g : string) : Voice :=
  if String.eqb g "female" then nova
  else if String.eqb g "male" then onyx
  else nova.

Definition selectVoice_spec (gender style role : string) : Voice :=
  match roleLookup role gender with
  | Some v => v
  | None =>
      let g := Js.toLowerCase gender in
      match pairLookup g (Js.toLowerCase style) pairTable with
      | Some v => v
      | None => genderDefault g
      end
  end.

End Tts.

(* ================================================================== *)
(** ** server/services/speech-recognition.ts *)
(* ================================================================== *)

Module Speech.
Import Server.

Definition nl : string := String "010"%char "".

Record SpeechRecognitionRequest := mkSpeechRequest {
  audioBlob : string;      (* base64 text *)
  language : string
}.

Record SpeechResult := mkSpeechResult {
  sr_text : string;
  sr_confidence : Q
}.

(** The size under which a recording is taken for silence or a click. *)
Definition minAudioBytes : nat := 1000.

Definition commonHallucinations : list string :=
  [ "ふぅ"; "ん"; "あ"; "え"; "う"; "お"; "うん";
    "おしまい"; "ご視聴ありがとう"; "ありがとうございました";
    "Thank you for watching"; "Thanks for watching";
    "시청해주셔서 감사합니다"; "감사합니다" ].

(** The character class of [/^[あいうえおんふぅ]+$/]. *)
Definition fillerClass : list string :=
  [ "あ"; "い"; "う"; "え"; "お"; "ん"; "ふ"; "ぅ" ].

Definition isHallucination (resultText : string) : bool :=
  String.eqb resultText ""
  || (Js.utf16Length resultText <? 2)%nat
  || existsb (fun hall => Js.includes resultText hall) commonHallucinations
  || Js.matchesClassPlus fillerClass resultText.

(** The language sent to the transcription model. *)
Definition whisperLanguage (language : string) : string :=
  if String.eqb language "ja" then "ja"
  else if String.eqb language "en" then "en" else "ko".

(** What the file system does with the temporary file of a recording,
    each step done or failed with the message of the error it throws.
    [written]: [fs.mkdirSync] when the directory is missing, then
    [fs.writeFileSync] and [fs.createReadStream]. [removed]:
    [fs.unlinkSync], once the transcription has come. *)
Record TempFile := mkTempFile {
  written : outcome unit;
  removed : outcome unit
}.

Section WithBuffer.

(** [Buffer.from(s, 'base64')], the decoder of the runtime. *)
Variable bufferFromBase64 : string -> list ascii.

(** The file system under the temporary directory. *)
Variable files : TempFile.

(** [recognizeSpeech(request)] *)
Definition recognizeSpeech (request : SpeechRecognitionRequest)
    : M World SpeechResult :=
  fun w =>
    if negb (Js.truthy (openaiApiKey w)) then
      throw "OpenAI API key not configured" w
    else
      tryCatch
        (let audioBuffer := bufferFromBase64 (audioBlob request) in
         if (length audioBuffer <? minAudioBytes)%nat then
           throw "Audio too short or silent"
         else
           let* _ := lift (written files) in
           let* transcription :=
             create (AudioTranscriptions audioBuffer
                       (whisperLanguage (language request))) in
           match transcription with
           | Transcription text =>
               let* _ := lift (removed files) in
               let resultText := Js.trim text in
               if isHallucination resultText then
                 throw "Speech recognition detected silence or noise"
               else
                 ret (mkSpeechResult resultText 0.9%Q)
           | HttpError status => throw ("status " ++ pretty status)
           | _ => throw "unexpected response"
           end)
        (fun message => throw ("Speech recognition failed: " ++ message))
        w.

End WithBuffer.

Record ConversationCharacter := mkConversationCharacter {
  cc_name : string;
  cc_style : string
}.

Record ConversationResult := mkConversationResult {
  cr_response : Js.json;
  cr_feedback : Js.prop_read;
  cr_shouldEndConversation : Js.json;
  cr_endingMessage : Js.prop_read
}.

(** The context handed to the model: the last six turns, one per line. *)
Definition historyText (conversationHistory : list Turn) : string :=
  Js.join nl
    (map (fun turn => speaker turn ++ ": " ++ text turn)
         (Js.sliceLast 6 conversationHistory)).

Definition defaultResponse : string :=
  "すみません、よくわかりませんでした。他の言い方で話してみてください。".

(** [v || d] on a property read. *)
Definition orJson (r : Js.prop_read) (d : Js.json) : Js.json :=
  match r with
  | Js.Value v => if Js.truthyJson v then v else d
  | _ => d
  end.

(** [generateConversationResponse(userInput, conversationHistory,
    character, topic)] *)
Definition generateConversationResponse (userInput : string)
    (conversationHistory : list Turn) (character : ConversationCharacter)
    (topic : string) : M World ConversationResult :=
  fun w =>
    if negb (Js.truthy (openaiApiKey w)) then
      throw "OpenAI API key not configured" w
    else
      tryCatch
        (let conversationLength := length conversationHistory in
         let shouldConsiderEnding := (10 <=? conversationLength)%nat in
         let prompt :=
           mkConversationPrompt (cc_name character) topic
             (historyText conversationHistory) userInput shouldConsiderEnding in
         let* completion := create (ChatConversation prompt) in
         match completion with
         | Chat content parsed =>
             (* JSON.parse(content || '{}') *)
             let result :=
               if Js.truthy content then parsed else Some (Js.JObj []) in
             match result with
             | None => throw "Unexpected token in JSON"
             | Some Js.JNull => throw "Cannot read properties of null"
             | Some result =>
                 ret (mkConversationResult
                        (orJson (Js.getProp result "response") (Js.JStr defaultResponse))
                        (Js.getProp result "feedback")
                        (orJson (Js.getProp result "shouldEndConversation") (Js.JBool false))
                        (Js.getProp result "endingMessage"))
             end
         | HttpError status => throw ("status " ++ pretty status)
         | _ => throw "unexpected response"
         end)
        (fun message => throw ("Conversation generation failed: " ++ message))
        w.

End Speech.

(* ================================================================== *)
(** ** server/services/openai.ts *)
(* ================================================================== *)

Module Dialogue.
Import Server.

Record DialogueCharacter := mkDialogueCharacter {
  dc_name : string;
  dc_gender : option string;
  dc_style : string
}.

Record DialogueScenario := mkDialogueScenario {
  presetKey : option string;
  freeText : option string
}.

Record GenerateDialogueRequest := mkDialogueRequest {
  audience : string;
  character : option DialogueCharacter;
  scenario : option DialogueScenario
}.

Record DialogueResult := mkDialogueResult {
  lines : list Js.json;
  focus_phrases : list Js.json
}.

(** The keys of [audienceConfig]. *)
Definition audienceLevels : list (string * string) :=
  [ ("student", "N5-N4"); ("general", "N4-N3"); ("business", "N3-N2") ].

(** The check on one field of the provider's answer: present and truthy,
    an array, of length three. *)
Definition validTriple (field : Js.prop_read) : option (list Js.json) :=
  match field with
  | Js.Value v =>
      if negb (Js.truthyJson v) then None
      else match v with
           | Js.JArr items => if (length items =? 3)%nat then Some items else None
           | _ => None
           end
  | _ => None
  end.

(** The part of [generateDialogue] that follows [JSON.parse]. *)
Definition validate (result : Js.json) : outcome DialogueResult :=
  match result with
  | Js.JNull => Throw "Cannot read properties of null (reading 'lines')"
  | _ =>
      match validTriple (Js.getProp result "lines") with
      | None => Throw "Invalid lines format in OpenAI response"
      | Some ls =>
          match validTriple (Js.getProp result "focus_phrases") with
          | None => Throw "Invalid focus_phrases format in OpenAI response"
          | Some fs => Ok (mkDialogueResult ls fs)
          end
      end
  end.

(** [generateDialogue(request)]. The two prompts are templates filled with
    the audience, the character and the scenario text; building them reads
    [config.level], [character.name] and [scenario.freeText], which throws
    on a missing value before the [try] is entered. [config] is
    [audienceConfig[audience]]: missing for an audience the table neither
    has nor inherits, and for an inherited name a value whose [level] is
    undefined, which is written into the prompt and does not throw. *)
Definition generateDialogue (request : GenerateDialogueRequest)
    : M World DialogueResult :=
  match scenario request, character request,
        Js.readProp (audience request) audienceLevels with
  | None, _, _ => throw "Cannot read properties of undefined (reading 'freeText')"
  | _, None, _ => throw "Cannot read properties of undefined (reading 'name')"
  | _, _, None => throw "Cannot read properties of undefined (reading 'level')"
  | Some scenario, Some character, Some _ =>
      let scenarioText :=
        if Js.truthy (freeText scenario) then Js.orStr (freeText scenario) ""
        else Js.orStr (presetKey scenario) "general conversation" in
      tryCatch
        (let* response :=
           create (ChatDialogue (audience request) (dc_name character)
                     (dc_style character) scenarioText) in
         match response with
         | Chat content parsed =>
             if negb (Js.truthy content) then
               throw "No content returned from OpenAI"
             else
               match parsed with
               | None => throw "Unexpected token in JSON"
               | Some result => lift (validate result)
               end
         | HttpError status => throw ("status " ++ pretty status)
         | _ => throw "unexpected response"
         end)
        (fun message => throw ("Dialogue generation failed: " ++ message))
  end.

(** A field as the specification wants it: an array of three items. *)
Definition wellFormedTriple (field : Js.prop_read) : Prop :=
  exists items, field = Js.Value (Js.JArr items) /\ length items = 3%nat.

End Dialogue.

(* ================================================================== *)
(** ** server/routes.ts *)
(* ================================================================== *)

Module Routes.
Import Server.

(** *** The two quota checks *)

Record UsageCheck := mkUsageCheck {
  canUse : bool;
  currentUsage : Js.jsnum;
  limit : Js.entry Z
}.

Definition adminEmail : string := "mainstop3@gmail.com".

(** [user.email === 'mainstop3@gmail.com' || user.isAdmin === true] *)
Definition hasAdminBypass (user : User) : bool :=
  match email user with
  | Some e => String.eqb e adminEmail
  | None => false
  end
  || match isAdmin user with
     | Some true => true
     | _ => false
     end.

Definition conversationLimits : list (string * Z) :=
  [ ("free", 30); ("starter", 300); ("pro", 1000); ("premium", 5000) ].

Definition imageLimits : list (string * Z) :=
  [ ("free", 1); ("starter", 15); ("pro", 25); ("premium", 60) ].

(** [table[tier] || fallback] *)
Definition limitOr (table : list (string * Z)) (tier : string) (fallback : Z)
    : Js.entry Z :=
  match Js.readProp tier table with
  | Some (Js.Own l) => Js.Own (if l =? 0 then fallback else l)
  | Some (Js.Inherited i) => Js.Inherited i
  | None => Js.Own fallback
  end.

Definition denied : UsageCheck := mkUsageCheck false (Js.Num 0) (Js.Own 0).

Definition unlimited : UsageCheck := mkUsageCheck true (Js.Num 0) (Js.Own 999999).

Definition checkUsageLimit (userId : string) : M World UsageCheck :=
  tryCatch
    (let* user := Storage.getUser userId in
     match user with
     | None => ret denied
     | Some user =>
         if hasAdminBypass user then ret unlimited
         else
           let tier := Js.orStr (subscriptionTier user) "free" in
           let limit := limitOr conversationLimits tier 30 in
           let currentUsage := Js.parseInt (Js.orStr (conversationCount user) "0") in
           ret (mkUsageCheck (Js.ltEntry currentUsage limit) currentUsage limit)
     end)
    (fun _ => ret denied).

Definition checkImageUsageLimit (userId : string) : M World UsageCheck :=
  tryCatch
    (let* user := Storage.getUser userId in
     match user with
     | None => ret denied
     | Some user =>
         if hasAdminBypass user then ret unlimited
         else
           let tier := Js.orStr (subscriptionTier user) "free" in
           let limit := limitOr imageLimits tier 1 in
           let currentUsage := Js.parseInt (Js.orStr (imageGenerationCount user) "0") in
           ret (mkUsageCheck (Js.ltEntry currentUsage limit) currentUsage limit)
     end)
    (fun _ => ret denied).

(** The check that guards the endpoints charging a usage type:
    generate-image runs [checkImageUsageLimit] and charges
    [imageGeneration]; generate-dialogue and conversation-response run
    [checkUsageLimit] and charge [conversation]; tts runs
    [checkUsageLimit] and charges [tts]. *)
Definition quotaCheck (type : Storage.UsageType) : string -> M World UsageCheck :=
  match type with
  | Storage.imageGeneration => checkImageUsageLimit
  | Storage.conversation | Storage.tts => checkUsageLimit
  end.

(** The column [Storage.incrementUsage] charges for a usage type. *)
Definition counterOf (type : Storage.UsageType) (user : User) : option string :=
  match type with
  | Storage.conversation => conversationCount user
  | Storage.imageGeneration => imageGenerationCount user
  | Storage.tts => ttsUsageCount user
  end.

(** *** Requests and responses

    A response is kept as the object passed to [res.json]; writing it,
    [JSON.stringify] leaves out a limit that is undefined or an inherited
    method. *)

(** A request: the user of the session when [req.isAuthenticated()], and
    the parsed body. *)
Record Request (B : Type) := mkRequest {
  sessionUser : option string;
  body : B
}.
Arguments mkRequest {B} sessionUser body.
Arguments sessionUser {B} r.
Arguments body {B} r.

Inductive Body :=
| BMessage (message : string)
| BError (message error : string)
| BLimit (message : string) (currentUsage : Js.jsnum) (limit : Js.entry Z)
         (type : option string)
| BUsage (canUse : bool) (currentUsage : Js.jsnum) (limit : option Z)
         (tier : option string) (daysUntilReset : Z)
| BIncrement (success : bool) (newUsage : Js.jsnum)
| BUser (user : option User)
| BImage (imageUrl name gender style message : string)
| BDialogue (lines focus_phrases : list Js.json) (character message : string)
| BAudio (audioUrl message : string)
| BConversation (response : option string) (accuracy : Z) (message : string)
| BSpeech (text : string) (confidence : Q) (message : string).

Record Response := mkResponse { status : Z; payload : Body }.

(** The member [limit] of a body as [JSON.stringify] writes it: the
    number; nothing for a function, which is left out; an empty object for
    the prototype. *)
Definition writtenLimit (limit : Js.entry Z) : option Js.json :=
  match limit with
  | Js.Own l => Some (Js.JNum l)
  | Js.Inherited (Js.Method _) => None
  | Js.Inherited Js.Prototype => Some (Js.JObj [])
  end.

Definition json (b : Body) : M World Response := ret (mkResponse 200 b).

Definition unauthorized : M World Response :=
  ret (mkResponse 401 (BMessage "Unauthorized")).

Definition limitMessage : string :=
  "사용 한도에 도달했습니다. 구독을 업그레이드해주세요.".

Definition imageLimitMessage : string :=
  "이미지 생성 한도에 도달했습니다. 기존 캐릭터를 재사용하거나 구독을 업그레이드해주세요.".

(** *** POST /api/check-usage and POST /api/increment-usage *)

Definition msPerDay : Z := 1000 * 60 * 60 * 24.

(** The table [limits] of the check-usage handler: conversations and
    images per tier. *)
Definition reportLimits : list (string * (Z * Z)) :=
  [ ("free", (30, 1)); ("starter", (300, 15));
    ("pro", (600, 25)); ("premium", (1200, 60)) ].

(** [limits[user.subscriptionTier] || limits.free]; a tier that is null
    is read as the key null, which no object has. *)
Definition reportLimit (tier : option string) : Js.entry (Z * Z) :=
  match tier with
  | Some t => match Js.readProp t reportLimits with
              | Some e => e
              | None => Js.Own (30, 1)
              end
  | None => Js.Own (30, 1)
  end.

(** [userLimit.conversations]: undefined on what is inherited. *)
Definition conversations (userLimit : Js.entry (Z * Z)) : option Z :=
  match userLimit with
  | Js.Own l => Some (fst l)
  | Js.Inherited _ => None
  end.

(** [n < l] where [l] may be undefined. *)
Definition below (n : Js.jsnum) (l : option Z) : bool :=
  match l with
  | Some z => Js.lt n (Js.Num z)
  | None => false
  end.

Definition checkUsage (req : Request unit) : M World Response :=
  match sessionUser req with
  | None => unauthorized
  | Some userId =>
      tryCatch
        (let* user := Storage.getUser userId in
         match user with
         | None => ret (mkResponse 404 (BMessage "User not found"))
         | Some user =>
             let* now := newDate in
             let* lastReset :=
               match lastUsageReset user with
               | Some t => ret t
               | None => newDate
               end in
             let daysSinceReset := (now - lastReset) / msPerDay in
             let parsed := Js.parseInt (Js.orStr (dailyUsageCount user) "0") in
             let* currentUsage :=
               if 30 <=? daysSinceReset then
                 let* _ :=
                   Storage.updateUserSubscription userId
                     [ Storage.SetDailyUsageCount (Some "0");
                       Storage.SetLastUsageReset (Some now) ] in
                 ret (Js.Num 0)
               else ret parsed in
             let userLimit := reportLimit (subscriptionTier user) in
             let canUse := below currentUsage (conversations userLimit) in
             json (BUsage canUse currentUsage (conversations userLimit)
                     (subscriptionTier user) (30 - daysSinceReset))
         end)
        (fun _ => ret (mkResponse 500 (BMessage "Failed to check usage")))
  end.

(** The time the check-usage handler takes for the last reset, read at
    time [t]. *)
Definition lastResetAt (u : User) (t : Z) : Z :=
  match lastUsageReset u with Some r => r | None => t end.

(** The row the reset branch of the check-usage handler writes at time [t]. *)
Definition resetRow (u : User) (t : Z) : User :=
  foldl Storage.assign u
    [ Storage.SetDailyUsageCount (Some "0");
      Storage.SetLastUsageReset (Some t);
      Storage.SetUpdatedAt (Some t) ].

Definition incrementUsageRoute (req : Request unit) : M World Response :=
  match sessionUser req with
  | None => unauthorized
  | Some userId =>
      tryCatch
        (let* user := Storage.getUser userId in
         match user with
         | None => ret (mkResponse 404 (BMessage "User not found"))
         | Some user =>
             let newUsage :=
               Js.add (Js.parseInt (Js.orStr (dailyUsageCount user) "0")) (Js.Num 1) in
             let* _ :=
               Storage.updateUserSubscription userId
                 [ Storage.SetDailyUsageCount (Some (Js.toString newUsage)) ] in
             json (BIncrement true newUsage)
         end)
        (fun _ => ret (mkResponse 500 (BMessage "Failed to increment usage")))
  end.

(** *** PUT /api/admin/user/:id/reset-usage, behind the [isAdmin] guard *)

Definition adminResetUsage (id : string) : M World Response :=
  tryCatch
    (let* user := Storage.resetUserUsage id in
     json (BUser user))
    (fun _ => ret (mkResponse 500 (BMessage "Failed to reset usage"))).

(** *** POST /api/generate-image *)

Definition generateImage (req : Request GenerateImageBody) : M World Response :=
  match sessionUser req with
  | None => unauthorized
  | Some userId =>
      tryCatch
        (let b := body req in
         let* imageUsageCheck := checkImageUsageLimit userId in
         if negb (canUse imageUsageCheck) then
           ret (mkResponse 429
                  (BLimit imageLimitMessage (currentUsage imageUsageCheck)
                     (limit imageUsageCheck) (Some "image_limit_exceeded")))
         else
           let* openaiResponse := fetch (ImagesGenerations b) in
           match openaiResponse with
           | Image imageUrl =>
               let* _ := Storage.incrementUsage userId Storage.imageGeneration in
               let characterData :=
                 mkSavedCharacter userId (gi_name b) (gi_gender b) (gi_style b)
                   imageUrl (gi_audience b)
                   (if Js.truthy (gi_scenario b) then gi_scenario b else None)
                   (gi_backgroundPrompt b) in
               let* _ :=
                 tryCatch
                   (let* _ := Storage.saveCharacter characterData in ret tt)
                   (fun _ => ret tt) in
               json (BImage imageUrl (gi_name b) (gi_gender b) (gi_style b)
                       "캐릭터 이미지가 생성되고 저장되었습니다!")
           | HttpError status => throw ("OpenAI API error: " ++ pretty status)
           | _ => throw "Cannot read properties of undefined"
           end)
        (fun error =>
           ret (mkResponse 500 (BError "이미지 생성 중 오류가 발생했습니다." error)))
  end.

(** *** POST /api/generate-dialogue *)

Record GenerateDialogueBody := mkGenerateDialogueBody {
  gd_character : option Dialogue.DialogueCharacter;
  gd_scenario : option Dialogue.DialogueScenario;
  gd_audience : option string
}.

Definition generateDialogueRoute (req : Request GenerateDialogueBody)
    : M World Response :=
  match sessionUser req with
  | None => unauthorized
  | Some userId =>
      tryCatch
        (let b := body req in
         let* usageCheck := checkUsageLimit userId in
         if negb (canUse usageCheck) then
           ret (mkResponse 429
                  (BLimit limitMessage (currentUsage usageCheck)
                     (limit usageCheck) None))
         else
           let* dialogueResult :=
             Dialogue.generateDialogue
               (Dialogue.mkDialogueRequest (Js.orStr (gd_audience b) "general")
                  (gd_character b) (gd_scenario b)) in
           let* _ := Storage.incrementUsage userId Storage.conversation in
           match gd_character b with
           | Some character =>
               json (BDialogue (Dialogue.lines dialogueResult)
                       (Dialogue.focus_phrases dialogueResult)
                       (Dialogue.dc_name character) "대화가 생성되었습니다!")
           | None => throw "Cannot read properties of undefined (reading 'name')"
           end)
        (fun error =>
           ret (mkResponse 500 (BError "대화 생성 중 오류가 발생했습니다." error)))
  end.

(** *** POST /api/tts *)

Record TtsCharacter := mkTtsCharacter {
  tc_style : option string;
  tc_gender : option string
}.

Record TtsBody := mkTtsBody {
  tts_text : string;
  tts_character : option TtsCharacter
}.

(** [/[぀-ゟ゠-ヿ一-龯]/.test(text)]: some
    character of the text, all of them encoded on three bytes, lies in one
    of the three ranges. *)
Definition japaneseCodePoint (c1 c2 c3 : ascii) : bool :=
  let a := Z.of_nat (nat_of_ascii c1) in
  let b := Z.of_nat (nat_of_ascii c2) in
  let c := Z.of_nat (nat_of_ascii c3) in
  let cp := (a - 224) * 4096 + (b - 128) * 64 + (c - 128) in
  (224 <=? a) && (a <=? 239) && (128 <=? b) && (b <=? 191)
  && (128 <=? c) && (c <=? 191)
  && ((12352 <=? cp) && (cp <=? 12447)
      || (12448 <=? cp) && (cp <=? 12543)
      || (19968 <=? cp) && (cp <=? 40879)).

Fixpoint isJapanese (text : string) : bool :=
  match text with
  | String c1 r =>
      match r with
      | String c2 (String c3 _) => japaneseCodePoint c1 c2 c3
      | _ => false
      end
      || isJapanese r
  | EmptyString => false
  end.

Definition styleIs (character : option TtsCharacter) (s : string) : bool :=
  match character with
  | Some c => match tc_style c with Some x => String.eqb x s | None => false end
  | None => false
  end.

Definition genderIs (character : option TtsCharacter) (g : string) : bool :=
  match character with
  | Some c => match tc_gender c with Some x => String.eqb x g | None => false end
  | None => false
  end.

(** The voice of the Japanese branch. *)
Definition japaneseVoices (character : option TtsCharacter) : Tts.Voice :=
  if genderIs character "female" then
    if styleIs character "cheerful" then Tts.nova
    else if styleIs character "calm" then Tts.nova
    else if styleIs character "strict" then Tts.nova
    else Tts.nova
  else
    if styleIs character "cheerful" then Tts.onyx
    else if styleIs character "calm" then Tts.onyx
    else if styleIs character "strict" then Tts.onyx
    else Tts.onyx.

(** The voice of the other branch:
    [getOpenAIVoiceForCharacter(character?.style || 'cheerful',
                                character?.gender || 'female')].
    The call passes no role: the role is the empty string, the table of
    roles is not read and the voice is that of the style and the gender. *)
Definition englishVoice (character : option TtsCharacter) : Tts.Voice :=
  Tts.voiceOfStyle
    (Js.orStr (match character with Some c => tc_style c | None => None end) "cheerful")
    (Js.orStr (match character with Some c => tc_gender c | None => None end) "female").

Definition ttsRoute (req : Request TtsBody) : M World Response :=
  match sessionUser req with
  | None => unauthorized
  | Some userId =>
      tryCatch
        (let b := body req in
         let* usageCheck := checkUsageLimit userId in
         if negb (canUse usageCheck) then
           ret (mkResponse 429
                  (BLimit limitMessage (currentUsage usageCheck)
                     (limit usageCheck) None))
         else
           let japanese := isJapanese (tts_text b) in
           let voice :=
             if japanese then japaneseVoices (tts_character b)
             else englishVoice (tts_character b) in
           let speed := if japanese then 0.8%Q else 0.9%Q in
           let* openaiResponse :=
             fetch (AudioSpeech (tts_text b) (Tts.voiceName voice) speed) in
           match openaiResponse with
           | Audio audioBase64 =>
               let* _ := Storage.incrementUsage userId Storage.tts in
               json (BAudio ("data:audio/mp3;base64," ++ audioBase64)
                       (if japanese then "日本語音声が生成されました！"
                        else "음성이 생성되었습니다!"))
           | HttpError status => throw ("OpenAI TTS API error: " ++ pretty status)
           | _ => throw "unexpected response"
           end)
        (fun error =>
           ret (mkResponse 500 (BError "음성 생성 중 오류가 발생했습니다." error)))
  end.

(** *** POST /api/conversation-response *)

Record ConversationBody := mkConversationBody {
  cb_userInput : string;
  cb_conversationHistory : list Turn;
  cb_character : Speech.ConversationCharacter;
  cb_topic : string
}.

Definition tutorPrompt (character : Speech.ConversationCharacter) : string :=
  "You are " ++ Speech.cc_name character ++ ", a " ++ Speech.cc_style character
  ++ " Japanese tutor. You are helping students practice Japanese conversation.
        
CRITICAL INSTRUCTIONS:
- You must respond ONLY in Japanese
- Use natural, conversational Japanese appropriate for the student's level
- Be encouraging and helpful
- Provide gentle corrections when needed
- Keep responses natural and friendly

Respond naturally to the user's input in Japanese only.".

(** The messages sent to the chat model: the system prompt, every entry of
    the history received, then the user's input. *)
Definition conversationMessages (b : ConversationBody) : list Message :=
  [mkMessage "system" (tutorPrompt (cb_character b))]
  ++ map (fun msg =>
            mkMessage (if String.eqb (speaker msg) "user" then "user" else "assistant")
                      (text msg))
         (cb_conversationHistory b)
  ++ [mkMessage "user" (cb_userInput b)].

Definition conversationResponse (req : Request ConversationBody)
    : M World Response :=
  match sessionUser req with
  | None => unauthorized
  | Some userId =>
      tryCatch
        (let b := body req in
         let* usageCheck := checkUsageLimit userId in
         if negb (canUse usageCheck) then
           ret (mkResponse 429
                  (BLimit limitMessage (currentUsage usageCheck)
                     (limit usageCheck) None))
         else
           let* openaiResponse := fetch (ChatCompletions (conversationMessages b)) in
           match openaiResponse with
           | Chat response _ =>
               let* _ := Storage.incrementUsage userId Storage.conversation in
               fun w =>
                 json (BConversation response (random20 w + 80)
                         "대화가 생성되었습니다!") w
           | HttpError status => throw ("OpenAI API error: " ++ pretty status)
           | _ => throw "Cannot read properties of undefined"
           end)
        (fun error =>
           ret (mkResponse 500 (BError "대화 생성 중 오류가 발생했습니다." error)))
  end.

(** *** POST /api/speech-recognition *)

Record SpeechBody := mkSpeechBody {
  sb_audioBlob : option string;
  sb_language : option string
}.

Definition speechRecognition (bufferFromBase64 : string -> list ascii)
    (files : Speech.TempFile) (req : Request SpeechBody) : M World Response :=
  match sessionUser req with
  | None => unauthorized
  | Some _ =>
      tryCatch
        (let b := body req in
         if negb (Js.truthy (sb_audioBlob b)) then
           ret (mkResponse 400 (BMessage "Audio data is required"))
         else
           let* result :=
             Speech.recognizeSpeech bufferFromBase64 files
               (Speech.mkSpeechRequest (Js.orStr (sb_audioBlob b) "")
                  (Js.orStr (sb_language b) "ja")) in
           json (BSpeech (Speech.sr_text result) (Speech.sr_confidence result)
                   "음성 인식이 완료되었습니다!"))
        (fun error =>
           ret (mkResponse 500 (BError "음성 인식 중 오류가 발생했습니다." error)))
  end.

End Routes.

(* ================================================================== *)
(** ** The drama-scene page of the client *)
(* ================================================================== *)

Module Scene.
Import Server.

Record Feedback := mkFeedback {
  accuracy : Z;
  needsCorrection : bool;
  koreanExplanation : option string;
  betterExpression : option string
}.

Record DialogueTurn := mkDialogueTurn {
  dt_speaker : string;
  dt_text : string;
  dt_audioUrl : option string;
  dt_koreanTranslation : option string;
  dt_pronunciation : option string;
  dt_feedback : option Feedback;
  dt_emotion : option string
}.

(** Requests of the page to the server. *)
Inductive ApiCall :=
| PostSpeechRecognition (audio : list ascii) (language : string)
| PostConversationResponse (userInput : string) (conversationHistory : list Turn)
| PostTts (text voiceId : string)
| PostTranslatePronunciation (text : string).

(** Bodies of the answers, once parsed. *)
Inductive ApiReply :=
| SpeechReply (text : option string)
| ConversationReply (response : option string) (feedback : option Feedback)
                    (shouldEndConversation : bool)
| TtsReply (audioUrl : option string)
| TranslationReply (koreanTranslation pronunciation : option string).

(** The state of the page: the React state of the component, the character
    of the store, the requests sent and the answers to come. [apiRequest]
    followed by [safeJsonParse] throws on a status that is not 2xx and on a
    body that is not JSON. *)
Record Page := mkPage {
  characterName : string;
  characterGender : string;
  characterStyle : string;
  dialogueHistory : list DialogueTurn;
  sceneProgress : Z;
  isProcessing : bool;
  awaitingRetry : bool;
  conversationEnded : bool;
  recordedConversation : list string;
  toasts : list string;
  requests : list ApiCall;
  responses : list (outcome ApiReply)
}.

Definition setHistory (h : list DialogueTurn) (p : Page) : Page :=
  mkPage (characterName p) (characterGender p) (characterStyle p) h
    (sceneProgress p) (isProcessing p) (awaitingRetry p) (conversationEnded p)
    (recordedConversation p) (toasts p) (requests p) (responses p).

Definition setSceneProgress (f : Z -> Z) : M Page unit :=
  fun p =>
    (Ok tt,
     mkPage (characterName p) (characterGender p) (characterStyle p)
       (dialogueHistory p) (f (sceneProgress p)) (isProcessing p) (awaitingRetry p)
       (conversationEnded p) (recordedConversation p) (toasts p) (requests p)
       (responses p)).

Definition setIsProcessing (b : bool) : M Page unit :=
  fun p =>
    (Ok tt,
     mkPage (characterName p) (characterGender p) (characterStyle p)
       (dialogueHistory p) (sceneProgress p) b (awaitingRetry p)
       (conversationEnded p) (recordedConversation p) (toasts p) (requests p)
       (responses p)).

Definition setAwaitingRetry (b : bool) : M Page unit :=
  fun p =>
    (Ok tt,
     mkPage (characterName p) (characterGender p) (characterStyle p)
       (dialogueHistory p) (sceneProgress p) (isProcessing p) b
       (conversationEnded p) (recordedConversation p) (toasts p) (requests p)
       (responses p)).

Definition setConversationEnded (b : bool) : M Page unit :=
  fun p =>
    (Ok tt,
     mkPage (characterName p) (characterGender p) (characterStyle p)
       (dialogueHistory p) (sceneProgress p) (isProcessing p) (awaitingRetry p)
       b (recordedConversation p) (toasts p) (requests p) (responses p)).

(** [setDialogueHistory(prev => [...prev, turn])] *)
Definition appendTurn (turn : DialogueTurn) : M Page unit :=
  fun p => (Ok tt, setHistory (dialogueHistory p ++ [turn]) p).

Definition record (line : string) : M Page unit :=
  fun p =>
    (Ok tt,
     mkPage (characterName p) (characterGender p) (characterStyle p)
       (dialogueHistory p) (sceneProgress p) (isProcessing p) (awaitingRetry p)
       (conversationEnded p) (recordedConversation p ++ [line]) (toasts p)
       (requests p) (responses p)).

Definition toast (title : string) : M Page unit :=
  fun p =>
    (Ok tt,
     mkPage (characterName p) (characterGender p) (characterStyle p)
       (dialogueHistory p) (sceneProgress p) (isProcessing p) (awaitingRetry p)
       (conversationEnded p) (recordedConversation p) (toasts p ++ [title])
       (requests p) (responses p)).

(** [apiRequest] then [safeJsonParse]. *)
Definition apiRequest (c : ApiCall) : M Page ApiReply :=
  fun p =>
    let log rest :=
      mkPage (characterName p) (characterGender p) (characterStyle p)
        (dialogueHistory p) (sceneProgress p) (isProcessing p) (awaitingRetry p)
        (conversationEnded p) (recordedConversation p) (toasts p)
        (requests p ++ [c]) rest in
    match responses p with
    | r :: rest => (r, log rest)
    | [] => (Throw "Failed to fetch", log [])
    end.

Definition getVoiceForCharacter (gender style : string) : string :=
  if String.eqb gender "female" then
    if String.eqb style "cheerful" then "shimmer"
    else if String.eqb style "calm" then "alloy"
    else if String.eqb style "strict" then "nova"
    else "alloy"
  else
    if String.eqb style "cheerful" then "echo"
    else if String.eqb style "calm" then "fable"
    else if String.eqb style "strict" then "onyx"
    else "fable".

Record Contextual := mkContextual {
  cx_text : string;
  cx_feedback : Feedback;
  cx_emotion : string;
  cx_shouldEndConversation : bool
}.

(** [generateContextualResponse(userInput)]; [history] is the dialogue
    history of the render the handler belongs to. *)
Definition generateContextualResponse (history : list DialogueTurn)
    (userInput : string) : M Page Contextual :=
  tryCatch
    (let* response :=
       apiRequest
         (PostConversationResponse userInput
            (map (fun turn => mkTurn (dt_speaker turn) (dt_text turn)) history)) in
     match response with
     | ConversationReply response feedback shouldEnd =>
         ret (mkContextual
                (Js.orStr response "That's interesting! Please continue.")
                (match feedback with
                 | Some f => f
                 | None => mkFeedback 80 false None None
                 end)
                "professional" shouldEnd)
     | _ => ret (mkContextual "That's interesting! Please continue."
                   (mkFeedback 80 false None None) "professional" false)
     end)
    (fun _ =>
       ret (mkContextual "I see! Please tell me more about that."
              (mkFeedback 75 false None None) "neutral" false)).

(** The size under which the page drops a recording. *)
Definition minBlobBytes : nat := 1000.

(** [v || d], both nullable strings read from a parsed body. *)
Definition orElse (v : option string) (d : string) : string := Js.orStr v d.

(** The handler run when the reader has loaded the recording. *)
Definition onloadend (history : list DialogueTurn) (audio : list ascii)
    : M Page unit :=
  tryCatch
    (let* speechResponse := apiRequest (PostSpeechRecognition audio "ja") in
     let userText :=
       match speechResponse with
       | SpeechReply (Some t) => Js.trim t
       | _ => ""
       end in
     if String.eqb userText "" then
       let* _ := toast "Didn't catch that" in
       setIsProcessing false
     else
       let* _ := appendTurn (mkDialogueTurn "user" userText None None None None None) in
       let* _ := record ("You: " ++ userText) in
       let* contextualResponse := generateContextualResponse history userText in
       if needsCorrection (cx_feedback contextualResponse) then
         let* _ := setAwaitingRetry true in
         let* _ := toast "💬 표현 교정" in
         setIsProcessing false
       else
         fun p =>
           (let* _ := record (characterName p ++ ": " ++ cx_text contextualResponse) in
            let* _ :=
              if cx_shouldEndConversation contextualResponse then
                let* _ := setConversationEnded true in
                toast "🎬 시나리오 완료"
              else ret tt in
            let voiceId := getVoiceForCharacter (characterGender p) (characterStyle p) in
            let* ttsResponse := apiRequest (PostTts (cx_text contextualResponse) voiceId) in
            let* annotation :=
              tryCatch
                (let* translationResponse :=
                   apiRequest (PostTranslatePronunciation (cx_text contextualResponse)) in
                 match translationResponse with
                 | TranslationReply k pr =>
                     ret (orElse k "❌ 대화 API에서 빈 번역", orElse pr "❌ 대화 API에서 빈 발음")
                 | _ => ret ("❌ 대화 API에서 빈 번역", "❌ 대화 API에서 빈 발음")
                 end)
                (fun _ => ret ("❌ 번역 실패", "❌ 발음 실패")) in
            let characterResponse :=
              mkDialogueTurn "character" (cx_text contextualResponse)
                (match ttsResponse with TtsReply a => a | _ => None end)
                (Some (fst annotation)) (Some (snd annotation))
                (Some (cx_feedback contextualResponse))
                (Some (cx_emotion contextualResponse)) in
            let* _ := appendTurn characterResponse in
            let* _ := setSceneProgress (fun prev => Z.min (prev + 15) 100) in
            let* _ :=
              if Js.truthy (betterExpression (cx_feedback contextualResponse)) then
                toast "💡 더 자연스러운 표현"
              else if 90 <=? accuracy (cx_feedback contextualResponse) then
                toast "✨ 완벽해요!"
              else ret tt in
            setAwaitingRetry false) p)
    (fun _ => toast "Scene Error").

(** [processUserResponse()], run when the recorder stops; [audio] is the
    content of the recorded chunks. Playback of the answer is not part of
    the state. *)
Definition processUserResponse (audio : list ascii) : M Page unit :=
  fun p =>
    let history := dialogueHistory p in
    (let* _ := setIsProcessing true in
     if (length audio <? minBlobBytes)%nat then
       setIsProcessing false
     else
       let* _ := setIsProcessing false in
       onloadend history audio) p.

End Scene.

(* ================================================================== *)
(** ** Sample worlds *)
(* ================================================================== *)

Module Samples.
Import Server.

(** A user of the given tier with the given counters, reset at [lastReset]. *)
Definition user (tier conv img tts daily : string) (lastReset : Z) : User :=
  mkUser (Some "learner@example.com") (Some false) (Some tier)
    (Some conv) (Some img) (Some tts) (Some daily) (Some "0")
    (Some lastReset) None.

(** A world holding that user under the id u1, at time [t], with the given
    answers of the provider to come. *)
Definition world (u : User) (t : Z) (answers : list Reply) : World :=
  mkWorld (mkDb {[ "u1" := u ]} [] true) t (Some "sk-test") [] answers 7.

Definition day : Z := 86400000.

(** A new user of the free tier who asks thirty times for the synthesis of
    a line, the provider answering each time. *)
Definition line : Routes.TtsBody :=
  Routes.mkTtsBody "いらっしゃいませ"
    (Some (Routes.mkTtsCharacter (Some "cheerful") (Some "female"))).

Definition synthesize (w : World) : World :=
  snd (Routes.ttsRoute (Routes.mkRequest (Some "u1") line) w).

Definition ttsHeavy : World :=
  Nat.iter 30 synthesize
    (world (user "free" "0" "0" "0" "0" 0) day (repeat (Audio "SUQz") 30)).

(** All quotas used up, last reset 31 days ago. *)
Definition exhausted : User := user "free" "30" "1" "5" "30" 0.
Definition afterAMonth : World := world exhausted (31 * day) [].

(** A pro user with 700 conversations on both counters. *)
Definition proUser : User := user "pro" "700" "0" "0" "700" 0.
Definition proWorld : World := world proUser day [].

(** A free user at the conversation limit. *)
Definition atLimit : World := world (user "free" "30" "0" "0" "0" 0) day [].

(** A user who has used nothing, whose tier is stored as constructor. *)
Definition inheritedTier : World :=
  world (user "constructor" "0" "0" "0" "0" 0) day [].

Definition turns (n : nat) : list Turn :=
  map (fun i => mkTurn (if Nat.odd i then "character" else "user")
                  ("line " ++ pretty i))
      (seq 1 n).

Definition yuki : Speech.ConversationCharacter :=
  Speech.mkConversationCharacter "Yuki" "cheerful".

(** A free user who has used nothing yet, with the provider's answers. *)
Definition fresh (answers : list Reply) : World :=
  world (user "free" "0" "0" "0" "0" 0) day answers.

(** A conversation of seven turns, one more than the window of six. *)
Definition seventhTurn : Routes.ConversationBody :=
  Routes.mkConversationBody "コーヒーをください" (turns 7) yuki "cafe".

(** Base64 text of [3 * n] bytes. *)
Fixpoint base64Text (n : nat) : string :=
  match n with
  | O => ""
  | S k => "QUJD" ++ base64Text k
  end.

(** A recording of 500 bytes and one of 1002 bytes, as base64 text. *)
Definition click : string := base64Text 166 ++ "QUI=".
Definition utterance : string := base64Text 334.

(** A file system that writes and removes the temporary file, and one
    with no room left for it. *)
Definition disk : Speech.TempFile := Speech.mkTempFile (Ok tt) (Ok tt).
Definition fullDisk : Speech.TempFile :=
  Speech.mkTempFile (Throw "ENOSPC: no space left on device, write") (Ok tt).

(** Answers of the dialogue model: three lines and three phrases; two
    lines only; a text where an array is expected. *)
Definition three (a b c : string) : Js.json :=
  Js.JArr [Js.JStr a; Js.JStr b; Js.JStr c].

Definition goodDialogue : Js.json :=
  Js.JObj [ ("lines", three "いらっしゃいませ" "ご注文は？" "少々お待ちください");
            ("focus_phrases", three "ください" "お願いします" "いくらですか") ].

Definition twoLines : Js.json :=
  Js.JObj [ ("lines", Js.JArr [Js.JStr "いらっしゃいませ"; Js.JStr "ご注文は？"]);
            ("focus_phrases", three "ください" "お願いします" "いくらですか") ].

Definition dialogueRequest : Dialogue.GenerateDialogueRequest :=
  Dialogue.mkDialogueRequest "general"
    (Some (Dialogue.mkDialogueCharacter "Yuki" (Some "female") "cheerful"))
    (Some (Dialogue.mkDialogueScenario (Some "cafeteria") None)).

(** The scene page after the opening line of the character. *)
Definition openedScene : Scene.Page :=
  Scene.mkPage "Yuki" "female" "cheerful"
    [ Scene.mkDialogueTurn "system" "Scene: cafeteria" None None None None None;
      Scene.mkDialogueTurn "character" "いらっしゃいませ" None None None None
        (Some "professional") ]
    10 false false false [] [] [] [].

End Samples.

(* ================================================================== *)
(** ** Charging a request, and handling requests in sequence *)
(* ================================================================== *)

Module Metering.
Import Server.

(** A character of a decimal numeral. *)
Definition isDigit (c : ascii) : Prop :=
  exists m, (m < 10)%N /\ c = pretty_N_char m.

(** The row [Storage.incrementUsage] writes for a usage type at time [t]. *)
Definition charged (type : Storage.UsageType) (u : User) (t : Z) : User :=
  foldl Storage.assign u
    (Storage.SetUpdatedAt (Some t) ::
     match type with
     | Storage.conversation =>
         [Storage.SetConversationCount (Storage.bump (conversationCount u))]
     | Storage.imageGeneration =>
         [Storage.SetImageGenerationCount (Storage.bump (imageGenerationCount u))]
     | Storage.tts =>
         [Storage.SetTtsUsageCount (Storage.bump (ttsUsageCount u))]
     end).

(** The row [Storage.resetUserUsage] writes at time [t]. *)
Definition resetAll (u : User) (t : Z) : User :=
  foldl Storage.assign u
    [ Storage.SetConversationCount (Some "0");
      Storage.SetImageGenerationCount (Some "0");
      Storage.SetTtsUsageCount (Some "0");
      Storage.SetDailyUsageCount (Some "0");
      Storage.SetMonthlyImageCount (Some "0");
      Storage.SetLastUsageReset (Some t);
      Storage.SetUpdatedAt (Some t) ].

(** The row POST /api/increment-usage writes at time [t]. *)
Definition dailyCharged (u : User) (t : Z) : User :=
  foldl Storage.assign u
    [ Storage.SetDailyUsageCount (Storage.bump (dailyUsageCount u));
      Storage.SetUpdatedAt (Some t) ].

(** The number a counter column holds, as the checks read it. *)
Definition reading (c : option string) : Js.jsnum := Js.parseInt (Js.orStr c "0").

(** The conversation limit and the image limit of a user's tier. *)
Definition conversationLimit (u : User) : Js.entry Z :=
  Routes.limitOr Routes.conversationLimits (Js.orStr (subscriptionTier u) "free") 30.

Definition imageLimit (u : User) : Js.entry Z :=
  Routes.limitOr Routes.imageLimits (Js.orStr (subscriptionTier u) "free") 1.

(** What [checkUsageLimit] and [checkImageUsageLimit] decide for a user
    that is found. *)
Definition conversationAllowed (u : User) : bool :=
  Routes.hasAdminBypass u
  || Js.ltEntry (reading (conversationCount u)) (conversationLimit u).

Definition imageAllowed (u : User) : bool :=
  Routes.hasAdminBypass u
  || Js.ltEntry (reading (imageGenerationCount u)) (imageLimit u).

(** A tier the tables of limits do not inherit: any string but the names
    every object literal has from [Object.prototype]. *)
Definition plainTier (u : User) : Prop :=
  Js.inheritedOf (Js.orStr (subscriptionTier u) "free") = None.

(** An answer of the chat model, as the tape holds it. *)
Definition chat (a : option string * option Js.json) : Reply := Chat (fst a) (snd a).

(** The answer of a handler, which never throws. *)
Definition answer (x : outcome Routes.Response * World) : Routes.Response :=
  match fst x with
  | Ok r => r
  | Throw e => Routes.mkResponse 500 (Routes.BError "uncaught" e)
  end.

(** What the metered handlers have in common: they answer, and unless the
    answer is 200 the database is as it was. *)
Definition settles (x : outcome Routes.Response * World) (w : World) : Prop :=
  (exists r, fst x = Ok r)
  /\ (Routes.status (answer x) = 200 \/ db (snd x) = db w).

(** Requests handled one after the other, each in the world the previous
    one left. *)
Fixpoint handleAll {B : Type} (handler : Routes.Request B -> M World Routes.Response)
    (reqs : list (Routes.Request B)) (w : World) : list Routes.Response * World :=
  match reqs with
  | [] => ([], w)
  | req :: rest =>
      let x := handler req w in
      let y := handleAll handler rest (snd x) in
      (answer x :: fst y, snd y)
  end.

End Metering.


(* ================================================================== *)
(** ** Further sample requests *)
(* ================================================================== *)

Module Cases.
Import Server.

Definition newcomer : User := Samples.user "free" "0" "0" "0" "0" 0.

Definition hello (s : string) : Routes.ConversationBody :=
  Routes.mkConversationBody s (Samples.turns 2) Samples.yuki "cafe".

Definition portrait : GenerateImageBody :=
  mkGenerateImageBody "Yuki" "female" "cheerful" "general" (Some "coffee_shop")
    None None.

End Cases.

(* ================================================================== *)
(** ** server/routes.ts: prices, and the JSON middleware *)
(* ================================================================== *)

Module Billing.
Import Server.

(** [getTierPrice(tier)], in won. *)
Definition getTierPrice (tier : string) : Z :=
  if String.eqb tier "starter" then 4900
  else if String.eqb tier "pro" then 9900
  else if String.eqb tier "premium" then 19900
  else 0.

(** [getPaddlePriceId(tier)] *)
Definition getPaddlePriceId (tier : string) : outcome string :=
  if String.eqb tier "starter" then Ok "pri_01k3xqqv4bp4xdjxn2b0p0f0n4"
  else if String.eqb tier "pro" then Ok "pri_01k3xqt841ry893jwdbjybyp2q"
  else if String.eqb tier "premium" then Ok "pri_01k3xqw6mges1rt7kmkv57xpb0"
  else Throw ("Invalid tier: " ++ tier).

End Billing.

Module Middleware.

(** What a handler hands to [res.send]: a string, or something else (a
    buffer, an object). *)
Inductive Payload := Text (s : string) | Binary (bytes : list ascii).

Definition quote : string := String (ascii_of_nat 34) "".

Section WithStringify.

(** [JSON.stringify] on a string: the quoted, escaped text. *)
Variable stringify : string -> string.

(** [JSON.stringify({ message: data })] *)
Definition boxed (data : string) : string :=
  "{" ++ quote ++ "message" ++ quote ++ ":" ++ stringify data ++ "}".

(** What reaches the original [res.send] once [ensureJsonResponse] has run
    for a request with the given path ([None]: no path). *)
Definition send (path : option string) (data : Payload) : Payload :=
  match path with
  | Some p =>
      if negb (String.eqb p "") && String.prefix "/api" p then
        match data with
        | Text s =>
            if negb (String.prefix "{" s) && negb (String.prefix "[" s)
            then Text (boxed s)
            else Text s
        | Binary b => Binary b
        end
      else data
  | None => data
  end.

End WithStringify.

End Middleware.

(* ================================================================== *)
(** ** server/services/openai-tts.ts: the speech service *)
(* ================================================================== *)

Module TtsService.
Import Server.

(** The object literal [emotionSpeeds]. *)
Definition emotionSpeeds : list (string * Q) :=
  [ ("excited", 1.1%Q); ("happy", 1.05%Q); ("neutral", 1.0%Q);
    ("professional", 0.95%Q); ("concerned", 0.9%Q); ("calm", 0.85%Q) ].

(** [emotionSpeeds[emotion] || speed]: a speed of the table, the speed
    given, or what the table inherits under the name of the emotion. *)
Definition adjustedSpeed (emotion : string) (speed : Q) : Js.entry Q :=
  match Js.readProp emotion emotionSpeeds with
  | Some (Js.Own s) => Js.Own (if Qeq_bool s 0 then speed else s)
  | Some (Js.Inherited i) => Js.Inherited i
  | None => Js.Own speed
  end.

(** The object literal [emotionalPrefixes], built for the given text. *)
Definition emotionalPrefixes (text : string) : list (string * string) :=
  [ ("excited", "*말하는 사람이 흥분하고 활기찬 톤으로* " ++ text);
    ("happy", "*말하는 사람이 기쁘고 밝은 톤으로* " ++ text);
    ("neutral", text);
    ("professional", "*말하는 사람이 정중하고 전문적인 톤으로* " ++ text);
    ("concerned", "*말하는 사람이 걱정스럽고 조심스러운 톤으로* " ++ text);
    ("calm", "*말하는 사람이 차분하고 부드러운 톤으로* " ++ text) ].

(** [addEmotionalContext(text, emotion)], which returns
    [emotionalPrefixes[emotion] || text]. *)
Definition addEmotionalContext (text emotion : string) : Js.entry string :=
  match Js.readProp emotion (emotionalPrefixes text) with
  | Some (Js.Own s) => Js.Own (if String.eqb s "" then text else s)
  | Some (Js.Inherited i) => Js.Inherited i
  | None => Js.Own text
  end.

(** A parameter with a default value; [None] is an argument left out. *)
Definition orDefault {A} (x : option A) (d : A) : A :=
  match x with Some a => a | None => d end.

(** [generateOpenAITTS(text, voice = 'nova', emotion = 'neutral',
    speed = 1.0)] *)
Definition generateOpenAITTS (text : string) (voice emotion : option string)
    (speed : option Q) : M World string :=
  let voice := orDefault voice "nova" in
  let emotion := orDefault emotion "neutral" in
  let speed := orDefault speed 1.0%Q in
  tryCatch
    (let adjustedSpeed := adjustedSpeed emotion speed in
     let emotionalText := addEmotionalContext text emotion in
     let* response := create (AudioSpeechCreate emotionalText voice adjustedSpeed) in
     match response with
     | Audio base64Audio => ret ("data:audio/mp3;base64," ++ base64Audio)
     | HttpError status => throw ("status " ++ pretty status)
     | _ => throw "unexpected response"
     end)
    (fun message => throw ("OpenAI TTS generation failed: " ++ message)).

(** The emotions of the signature. *)
Definition emotions : list string :=
  [ "neutral"; "happy"; "concerned"; "professional"; "excited"; "calm" ].

End TtsService.

(* ================================================================== *)
(** ** client/src/pages/DramaScene.tsx: a session of recordings *)
(* ================================================================== *)

Module Session.
Import Server Scene.

(** The recordings of a session, each processed on the page the one
    before has left. *)
Fixpoint session (recordings : list (list ascii)) (p : Page) : Page :=
  match recordings with
  | [] => p
  | audio :: rest => session rest (snd (processUserResponse audio p))
  end.

Definition spokenBy (who : string) (turn : DialogueTurn) : bool :=
  String.eqb (dt_speaker turn) who.

(** The turns of the character in a history. *)
Definition characterTurns (history : list DialogueTurn) : nat :=
  length (List.filter (spokenBy "character") history).

(** The turn that records what the user said. *)
Definition userTurn (userText : string) : DialogueTurn :=
  mkDialogueTurn "user" userText None None None None None.

(** The part of the page that the scene shows: everything but the
    transcript, the toasts and the traffic with the server. *)
Record Core := mkCore {
  co_name : string;
  co_gender : string;
  co_style : string;
  co_history : list DialogueTurn;
  co_progress : Z;
  co_busy : bool;
  co_retry : bool;
  co_ended : bool
}.

Definition core (p : Page) : Core :=
  mkCore (characterName p) (characterGender p) (characterStyle p)
    (dialogueHistory p) (sceneProgress p) (isProcessing p) (awaitingRetry p)
    (conversationEnded p).

(** What one recording makes of the scene: nothing was heard; the user's
    turn was added and the character did not answer; the user's turn and
    the character's answer were added. *)
Inductive Heard (before after : Core) : Prop :=
| Nothing :
    co_history after = co_history before ->
    co_progress after = co_progress before ->
    co_ended after = co_ended before ->
    Heard before after
| Unanswered (userText : string) :
    userText <> "" ->
    co_history after = (co_history before ++ [userTurn userText])%list ->
    co_progress after = co_progress before ->
    Heard before after
| Answered (userText : string) (answer : DialogueTurn) :
    userText <> "" ->
    dt_speaker answer = "character" ->
    co_history after = (co_history before ++ [userTurn userText; answer])%list ->
    co_progress after = Z.min (co_progress before + 15) 100 ->
    co_retry after = false ->
    Heard before after.

End Session.

(* ================================================================== *)
(** ** The drama-scene page: setting the scene *)
(* ================================================================== *)

Module Opening.
Import Server.

Record ScenarioConfig := mkScenarioConfig {
  background : string;
  situation : string;
  userRole : string;
  characterRole : string;
  objective : string;
  expressions : list string
}.

(** The table [SCENARIOS]. *)
Definition SCENARIOS : list (string * ScenarioConfig) :=
  [ ("restaurant",
     mkScenarioConfig
       "linear-gradient(135deg, #8B4513 0%, #D2691E 50%, #CD853F 100%)"
       "You're at an upscale restaurant" "Customer" "Restaurant Staff"
       "Have a natural dining experience" []);
    ("airport",
     mkScenarioConfig
       "linear-gradient(135deg, #87CEEB 0%, #4682B4 50%, #2F4F4F 100%)"
       "You're checking in for an international business class flight"
       "Business Traveler" "Flight Attendant"
       "Complete check-in and receive premium service guidance"
       [ "Welcome aboard, may I see your boarding pass?";
         "Would you like champagne or orange juice?";
         "Our meal service begins shortly";
         "Please let me know if you need anything" ]);
    ("coffee_shop",
     mkScenarioConfig
       "linear-gradient(135deg, #8B4513 0%, #D2691E 50%, #654321 100%)"
       "You're at a trendy local coffee shop meeting a friend"
       "Customer" "Friendly Barista"
       "Order specialty coffee and engage in casual conversation"
       [ "Hey there! What can I craft for you today?";
         "That's our signature blend";
         "Would you like to try our new seasonal latte?";
         "Are you meeting someone special today?" ]);
    ("business_meeting",
     mkScenarioConfig
       "linear-gradient(135deg, #2F4F4F 0%, #708090 50%, #B0C4DE 100%)"
       "You're in a corporate meeting discussing a new project"
       "Project Manager" "Senior Executive"
       "Present ideas professionally and negotiate terms"
       [ "Thank you for joining today's meeting";
         "What's your take on the market analysis?";
         "I'd like to propose an alternative approach";
         "When can we expect the deliverables?" ]);
    ("hotel",
     mkScenarioConfig
       "linear-gradient(135deg, #DAA520 0%, #B8860B 50%, #8B7355 100%)"
       "You're checking into a luxury hotel" "Hotel Guest" "Concierge"
       "Get personalized recommendations and luxury service"
       [ "Welcome to our hotel, how was your journey?";
         "I'd be happy to arrange restaurant reservations";
         "Our spa services are highly recommended";
         "Is there anything special we can arrange for your stay?" ]);
    ("cafeteria",
     mkScenarioConfig
       "linear-gradient(135deg, #87CEEB 0%, #98FB98 50%, #F0E68C 100%)"
       "You're in the school cafeteria ordering lunch" "Student" "Cafeteria Staff"
       "Order lunch and practice casual conversation"
       [ "What would you like for lunch today?";
         "Would you like fries with that?";
         "Here's your meal, enjoy!";
         "Have a great day!" ]);
    ("club",
     mkScenarioConfig
       "linear-gradient(135deg, #FFB6C1 0%, #98FB98 50%, #87CEEB 100%)"
       "You're joining a school club activity" "New Member" "Club Leader"
       "Introduce yourself and learn about club activities"
       [ "Welcome to our club!";
         "What are you interested in?";
         "We meet every Tuesday";
         "Looking forward to working with you!" ]) ].

(** The keys of [SCENARIO_PRESETS] in constants/presets.ts, by audience. *)
Definition SCENARIO_PRESETS : list (string * list string) :=
  [ ("student",
     [ "cafeteria"; "club"; "homework"; "school_trip"; "new_friend";
       "confidence_talk" ]);
    ("general",
     [ "travel"; "cafe_order"; "job_interview"; "roommate_chat"; "hobby_club";
       "presentation_basics" ]);
    ("business",
     [ "email_etiquette"; "meeting_opener"; "negotiation_basics"; "small_talk";
       "deadline_followup"; "presentation_qa" ]) ].

Definition presetKeys : list string :=
  concat (map snd SCENARIO_PRESETS).

Definition customScenario (situation : string) : ScenarioConfig :=
  mkScenarioConfig
    "linear-gradient(135deg, #4F46E5 0%, #7C3AED 50%, #EC4899 100%)"
    situation "User" "AI Tutor"
    "Practice Japanese conversation in this custom scenario" [].

Definition fallbackScenario : ScenarioConfig :=
  mkScenarioConfig
    "linear-gradient(135deg, #6B7280 0%, #9CA3AF 50%, #D1D5DB 100%)"
    "일반 일본어 회화 연습" "학습자" "일본어 튜터" "자연스러운 일본어 대화 연습" [].

(** [scenario.freeText?.trim()] *)
Definition trimmed (freeText : option string) : option string :=
  match freeText with
  | Some t => Some (Js.trim t)
  | None => None
  end.

(** The scenario [initializeScene] settles on for the scenario of the
    store: [SCENARIOS[scenario.presetKey]] as soon as it is truthy, which
    is a scenario of the catalogue or what the catalogue inherits under
    that name. *)
Definition scenarioConfigOf (scenario : Dialogue.DialogueScenario)
    : Js.entry ScenarioConfig :=
  match (if Js.truthy (Dialogue.presetKey scenario)
         then Js.readProp (Js.orStr (Dialogue.presetKey scenario) "") SCENARIOS
         else None) with
  | Some found => found
  | None =>
      Js.Own
        (if Js.truthy (trimmed (Dialogue.freeText scenario))
         then customScenario (Js.orStr (trimmed (Dialogue.freeText scenario)) "")
         else fallbackScenario)
  end.

(** A field of the scenario settled on; what the catalogue inherits has
    none of the fields. *)
Definition field {A : Type} (f : ScenarioConfig -> A)
    (config : Js.entry ScenarioConfig) : option A :=
  match config with
  | Js.Own c => Some (f c)
  | Js.Inherited _ => None
  end.

(** A preset key under which the catalogue inherits nothing. *)
Definition plainKey (scenario : Dialogue.DialogueScenario) : Prop :=
  Js.inheritedOf (Js.orStr (Dialogue.presetKey scenario) "") = None.

(** Requests of the page while the scene is set. *)
Inductive ApiCall :=
| PostGenerateDialogue (request : Dialogue.GenerateDialogueRequest)
| PostTts (text voiceId style gender : string) (role : option string)
          (emotion : string)
| PostTranslatePronunciation (text : string).

(** Bodies of the answers, once parsed; [firstLine] is
    [dialogueResponse.lines?.[0]]. *)
Inductive ApiReply :=
| DialogueReply (firstLine : option string)
| TtsReply (audioUrl : option string)
| TranslationReply (koreanTranslation pronunciation : option string).

(** The character and the scenario of the store, and the state of the page
    that setting the scene touches. [currentScenario] is what
    [setCurrentScenario] was last called with, which React makes the
    state when it is a scenario. *)
Record Stage := mkStage {
  characterName : string;
  characterGender : string;
  characterStyle : string;
  scenario : Dialogue.DialogueScenario;
  currentScenario : option (Js.entry ScenarioConfig);
  dialogueHistory : list Scene.DialogueTurn;
  sceneProgress : Z;
  toasts : list string;
  requests : list ApiCall;
  responses : list (outcome ApiReply)
}.

Definition apiRequest (c : ApiCall) : M Stage ApiReply :=
  fun s =>
    let log rest :=
      mkStage (characterName s) (characterGender s) (characterStyle s) (scenario s)
        (currentScenario s) (dialogueHistory s) (sceneProgress s) (toasts s)
        (requests s ++ [c]) rest in
    match responses s with
    | r :: rest => (r, log rest)
    | [] => (Throw "Failed to fetch", log [])
    end.

Definition setCurrentScenario (config : Js.entry ScenarioConfig) : M Stage unit :=
  fun s =>
    (Ok tt,
     mkStage (characterName s) (characterGender s) (characterStyle s) (scenario s)
       (Some config) (dialogueHistory s) (sceneProgress s) (toasts s)
       (requests s) (responses s)).

Definition setDialogueHistory (h : list Scene.DialogueTurn) : M Stage unit :=
  fun s =>
    (Ok tt,
     mkStage (characterName s) (characterGender s) (characterStyle s) (scenario s)
       (currentScenario s) h (sceneProgress s) (toasts s) (requests s)
       (responses s)).

Definition setSceneProgress (n : Z) : M Stage unit :=
  fun s =>
    (Ok tt,
     mkStage (characterName s) (characterGender s) (characterStyle s) (scenario s)
       (currentScenario s) (dialogueHistory s) n (toasts s) (requests s)
       (responses s)).

Definition toast (title : string) : M Stage unit :=
  fun s =>
    (Ok tt,
     mkStage (characterName s) (characterGender s) (characterStyle s) (scenario s)
       (currentScenario s) (dialogueHistory s) (sceneProgress s)
       (toasts s ++ [title]) (requests s) (responses s)).

Definition fallbackOpeningLine : string := "こんにちは！今日はよろしくお願いします。".

(** [a || d] on strings. *)
Definition orText (a d : string) : string := Js.orStr (Some a) d.

(** The turn that describes the scene. *)
Definition systemTurn (name : string) (config : Js.entry ScenarioConfig)
    : Scene.DialogueTurn :=
  Scene.mkDialogueTurn "system"
    ("🎬 Scene: " ++ Js.orStr (field situation config) "English practice" ++ Speech.nl
     ++ "Your role: " ++ Js.orStr (field userRole config) "Student" ++ Speech.nl
     ++ name ++ "'s role: " ++ Js.orStr (field characterRole config) "Teacher")
    None None None None None.

(** [a || b] where either may be undefined. *)
Definition orElse (a b : option string) : option string :=
  if Js.truthy a then a else b.

(** The body the page posts to /api/generate-dialogue. *)
Definition dialogueRequest (s : Stage) (config : Js.entry ScenarioConfig)
    : Dialogue.GenerateDialogueRequest :=
  Dialogue.mkDialogueRequest "general"
    (Some (Dialogue.mkDialogueCharacter (characterName s)
             (Some (characterGender s)) (characterStyle s)))
    (Some (Dialogue.mkDialogueScenario
             (Dialogue.presetKey (scenario s))
             (orElse (Dialogue.freeText (scenario s)) (field situation config)))).

(** [startScenario(scenarioConfig)]. The character, the scenario and the
    handlers are those of the render the call belongs to; playing the
    opening line and the toast shown with it run on a timer and are not
    part of the state. *)
Definition startScenario (config : Js.entry ScenarioConfig) : M Stage unit :=
  fun s0 =>
    tryCatch
      (let* dialogueResponse :=
         apiRequest (PostGenerateDialogue (dialogueRequest s0 config)) in
       let openingLine :=
         match dialogueResponse with
         | DialogueReply firstLine => Js.orStr firstLine fallbackOpeningLine
         | _ => fallbackOpeningLine
         end in
       let voiceId :=
         Scene.getVoiceForCharacter (characterGender s0) (characterStyle s0) in
       let* ttsResponse :=
         apiRequest (PostTts openingLine voiceId (characterStyle s0)
                       (characterGender s0) (field characterRole config)
                       "friendly") in
       let* annotation :=
         tryCatch
           (let* translationResponse :=
              apiRequest (PostTranslatePronunciation openingLine) in
            match translationResponse with
            | TranslationReply k pr =>
                ret (Js.orStr k "❌ API에서 빈 번역", Js.orStr pr "❌ API에서 빈 발음")
            | _ => ret ("❌ API에서 빈 번역", "❌ API에서 빈 발음")
            end)
           (fun _ => ret ("❌ 첫 번째 번역 실패", "❌ 첫 번째 발음 실패")) in
       let openingTurn :=
         Scene.mkDialogueTurn "character" openingLine
           (match ttsResponse with TtsReply a => a | _ => None end)
           (Some (orText (fst annotation) "🔥 강제 번역 텍스트"))
           (Some (orText (snd annotation) "🔥 강제 발음 텍스트"))
           None (Some "professional") in
       let* _ :=
         setDialogueHistory [systemTurn (characterName s0) config; openingTurn] in
       setSceneProgress 10)
      (fun _ =>
         let* _ := toast "Scene Setup Error" in
         let openingTurn :=
           Scene.mkDialogueTurn "character" fallbackOpeningLine None None None None
             (Some "professional") in
         let* _ :=
           setDialogueHistory [systemTurn (characterName s0) config; openingTurn] in
         setSceneProgress 10)
      s0.

(** [initializeScene()] *)
Definition initializeScene : M Stage unit :=
  fun s =>
    let scenarioConfig := scenarioConfigOf (scenario s) in
    (let* _ := setCurrentScenario scenarioConfig in
     startScenario scenarioConfig) s.

(** The effect that starts the scene: it runs [initializeScene] when the
    character has a name, the scenario a preset key or a free text, and the
    history is empty. *)
Definition sceneEffect : M Stage unit :=
  fun s =>
    if Js.truthy (Some (characterName s))
       && (Js.truthy (Dialogue.presetKey (scenario s))
           || Js.truthy (trimmed (Dialogue.freeText (scenario s))))
       && (length (dialogueHistory s) =? 0)%nat
    then initializeScene s
    else (Ok tt, s).

End Opening.

(* ================================================================== *)
(** ** server/routes.ts: POST /api/translate-pronunciation *)
(* ================================================================== *)

Module Translation.
Import Server.






Definition message (m : string) : Js.json := Js.JObj [("message", Js.JStr m)].


End Translation.

(* ================================================================== *)
(** ** client/src/lib/queryClient.ts *)
(* ================================================================== *)

Module QueryClient.
Import Server.

(** A response of [fetch], as far as the client reads it: [text()] gives
    the body, or rejects when the body cannot be read; [json()] gives the
    parsed body, or rejects, with the SyntaxError of the parser for
    instance. *)
Record FetchResponse := mkFetchResponse {
  ok : bool;
  status : Z;
  statusText : string;
  contentType : option string;    (* headers.get('content-type') *)
  bodyText : outcome string;      (* text() *)
  bodyJson : outcome Js.json      (* json() *)
}.

Section WithDisplay.

(** The text a template literal makes of a value that is not a string. *)
Variable display : Js.json -> string.

Definition shown (v : Js.json) : string :=
  match v with
  | Js.JStr s => s
  | _ => display v
  end.

(** [throwIfResNotOk(res)] *)
Definition throwIfResNotOk (res : FetchResponse) : outcome unit :=
  if negb (ok res) then
    let prefix := pretty (status res) ++ ": " in
    match bodyJson res with
    | Ok errorData =>
        match errorData with
        | Js.JStr s => Throw (prefix ++ s)
        | Js.JNull => Throw "Cannot read properties of null (reading 'message')"
        | _ =>
            match Js.getProp errorData "message" with
            | Js.Value m =>
                if Js.truthyJson m then Throw (prefix ++ shown m)
                else Throw (prefix ++ "Unknown error")
            | _ => Throw (prefix ++ "Unknown error")
            end
        end
    | Throw _ =>
        match bodyText res with
        | Ok text => Throw (prefix ++ Js.orStr (Some text) (statusText res))
        | Throw e => Throw e
        end
    end
  else Ok tt.

(** [apiRequest(method, url, data)], given what [fetch] settles with. *)
Definition apiRequest (settled : outcome FetchResponse) : outcome FetchResponse :=
  match settled with
  | Ok res =>
      match throwIfResNotOk res with
      | Ok _ => Ok res
      | Throw e => Throw e
      end
  | Throw e => Throw e
  end.

Definition errorPage : string :=
  "서버에서 오류 페이지를 반환했습니다. 잠시 후 다시 시도해주세요.".
Definition unexpectedFormat (contentType : option string) : string :=
  "서버에서 예상하지 못한 응답 형식을 받았습니다: " ++ Js.orStr contentType "unknown".
Definition unprocessable : string :=
  "서버 응답을 처리할 수 없습니다. 네트워크 연결을 확인해주세요.".
Definition unreadable : string := "서버 응답을 읽을 수 없습니다.".

Definition isJsonType (contentType : option string) : bool :=
  match contentType with
  | Some t => negb (String.eqb t "") && Js.includes t "application/json"
  | None => false
  end.

(** The [catch] of [safeJsonParse]. *)
Definition rethrow (message : string) : string :=
  let errorMessage := Js.orStr (Some message) "알 수 없는 오류" in
  if Js.includes errorMessage "already used" || Js.includes errorMessage "서버에서"
  then message
  else unprocessable.

(** [safeJsonParse(response)] *)
Definition safeJsonParse (response : FetchResponse) : outcome Js.json :=
  let attempt : outcome Js.json :=
    if negb (isJsonType (contentType response)) then
      match bodyText response with
      | Throw _ => Throw unreadable
      | Ok responseText =>
          if Js.includes responseText "<!DOCTYPE" || Js.includes responseText "<html"
          then Throw errorPage
          else Throw (unexpectedFormat (contentType response))
      end
    else bodyJson response in
  match attempt with
  | Ok v => Ok v
  | Throw message => Throw (rethrow message)
  end.

(** [getQueryFn({ on401 })] applied to what [fetch] settles with; [None]
    is the [null] returned for a 401. *)
Definition getQueryFn (returnNull : bool) (settled : outcome FetchResponse)
    : outcome (option Js.json) :=
  match settled with
  | Ok res =>
      if returnNull && (status res =? 401) then Ok None
      else
        match throwIfResNotOk res with
        | Ok _ =>
            match bodyJson res with
            | Ok v => Ok (Some v)
            | Throw e => Throw e
            end
        | Throw e => Throw e
        end
  | Throw e => Throw e
  end.

End WithDisplay.

End QueryClient.

(* ================================================================== *)
(** * Properties *)
(* ================================================================== *)

Import Server.

(** ** The quota checks *)

Section QuotaChecks.
Import Routes.

Lemma checkUsageLimit_pure userId w : snd (checkUsageLimit userId w) = w.
Proof.
  unfold checkUsageLimit, tryCatch, bind, Storage.getUser, ret.
  destruct (connected (db w)); [|reflexivity].
  destruct (users (db w) !! userId) as [u|]; [|reflexivity].
  destruct (hasAdminBypass u); reflexivity.
Qed.

Lemma checkImageUsageLimit_pure userId w : snd (checkImageUsageLimit userId w) = w.
Proof.
  unfold checkImageUsageLimit, tryCatch, bind, Storage.getUser, ret.
  destruct (connected (db w)); [|reflexivity].
  destruct (users (db w) !! userId) as [u|]; [|reflexivity].
  destruct (hasAdminBypass u); reflexivity.
Qed.

Lemma checkUsageLimit_found w userId u :
  connected (db w) = true -> users (db w) !! userId = Some u ->
  fst (checkUsageLimit userId w) =
  Ok (if hasAdminBypass u then unlimited
      else
        let limit := limitOr conversationLimits (Js.orStr (subscriptionTier u) "free") 30 in
        let currentUsage := Js.parseInt (Js.orStr (conversationCount u) "0") in
        mkUsageCheck (Js.ltEntry currentUsage limit) currentUsage limit).
Proof.
  intros Hc Hu.
  unfold checkUsageLimit, tryCatch, bind, Storage.getUser, ret.
  rewrite Hc, Hu. destruct (hasAdminBypass u); reflexivity.
Qed.

Lemma checkImageUsageLimit_found w userId u :
  connected (db w) = true -> users (db w) !! userId = Some u ->
  fst (checkImageUsageLimit userId w) =
  Ok (if hasAdminBypass u then unlimited
      else
        let limit := limitOr imageLimits (Js.orStr (subscriptionTier u) "free") 1 in
        let currentUsage := Js.parseInt (Js.orStr (imageGenerationCount u) "0") in
        mkUsageCheck (Js.ltEntry currentUsage limit) currentUsage limit).
Proof.
  intros Hc Hu.
  unfold checkImageUsageLimit, tryCatch, bind, Storage.getUser, ret.
  rewrite Hc, Hu. destruct (hasAdminBypass u); reflexivity.
Qed.

Lemma checkUsageLimit_closed w userId :
  connected (db w) = false \/ users (db w) !! userId = None ->
  fst (checkUsageLimit userId w) = Ok denied
  /\ fst (checkImageUsageLimit userId w) = Ok denied.
Proof.
  intros H.
  unfold checkUsageLimit, checkImageUsageLimit, tryCatch, bind, Storage.getUser, ret.
  destruct (connected (db w)); [|split; reflexivity].
  destruct H as [H|H]; [discriminate|]. rewrite H. split; reflexivity.
Qed.

Lemma ltb_verdict (n l : Z) :
  ((n <? l) = false <-> l <= n) /\ ((n <? l) = true <-> n < l).
Proof. split; [apply Z.ltb_ge | apply Z.ltb_lt]. Qed.

(** Under a name that is not inherited, a table gives what it holds. *)
Lemma readProp_plain {A} (key : string) (table : list (string * A)) :
  Js.inheritedOf key = None ->
  Js.readProp key table
  = match Js.assoc key table with Some a => Some (Js.Own a) | None => None end.
Proof. intros H. unfold Js.readProp. rewrite H. reflexivity. Qed.

(** Under an inherited name, a table that has no such key of its own gives
    what it inherits. *)
Lemma readProp_inherited {A} (key : string) (table : list (string * A)) i :
  Js.inheritedOf key = Some i -> Js.assoc key table = None ->
  Js.readProp key table = Some (Js.Inherited i).
Proof. intros H E. unfold Js.readProp. rewrite E, H. reflexivity. Qed.

(** The limit of a tier whose name is not inherited is a number: that of
    the table, or the fallback. *)
Lemma limitOr_plain table tier fallback :
  Js.inheritedOf tier = None ->
  exists l, limitOr table tier fallback = Js.Own l.
Proof.
  intros H. unfold limitOr. rewrite (readProp_plain _ _ H).
  destruct (Js.assoc tier table); eexists; reflexivity.
Qed.

Lemma run_check {A} (check : M World UsageCheck) (k : UsageCheck -> M World A)
    (h : string -> M World A) (w : World) (r : UsageCheck) :
  fst (check w) = Ok r -> snd (check w) = w ->
  tryCatch (bind check k) h w = tryCatch (k r) h w.
Proof.
  unfold tryCatch, bind. destruct (check w) as [o w']. cbn.
  intros -> ->. reflexivity.
Qed.

(** The tts endpoint, once [checkUsageLimit] has allowed the request and
    the provider has answered with audio: 200, and [ttsUsageCount] charged. *)
Lemma ttsRoute_charges w userId u r b audio rest :
  connected (db w) = true -> users (db w) !! userId = Some u ->
  fst (checkUsageLimit userId w) = Ok r -> canUse r = true ->
  replies w = Audio audio :: rest ->
  exists body t,
    fst (ttsRoute (mkRequest (Some userId) b) w) = Ok (mkResponse 200 body)
    /\ users (db (snd (ttsRoute (mkRequest (Some userId) b) w))) !! userId
       = Some (foldl Storage.assign u
                 [ Storage.SetUpdatedAt (Some t);
                   Storage.SetTtsUsageCount (Storage.bump (ttsUsageCount u)) ]).
Proof.
  intros Hc Hu Hr Hcan Hrep.
  unfold ttsRoute. cbn [sessionUser].
  rewrite (run_check _ _ _ w r Hr (checkUsageLimit_pure userId w)).
  rewrite Hcan. cbn [negb].
  unfold tryCatch, bind, create, fetch. rewrite Hrep.
  unfold Storage.incrementUsage, Storage.updateUsers, bind, Storage.getUser,
    json, ret, newDate.
  cbn [db connected users]. rewrite Hc, Hu. cbn beta iota.
  cbn [db connected users]. rewrite Hc, Hu.
  cbn [fst snd db users setDb]. rewrite lookup_insert_eq.
  eexists _, _. split; reflexivity.
Qed.

End QuotaChecks.

(** C1 (as amended): what the two quota checks decide. With the database
  down or no row for the user, both checks deny with [canUse = false]. For
  a user that is found, the administrative identity (the reserved e-mail
  address, or [isAdmin = true]) is allowed with limit 999999 whatever the
  counters hold. For any other user whose tier is not a name that the
  tables of limits inherit, the limit is a number, that of the tier (30,
  300, 1000 and 5000 conversations, 1, 15, 25 and 60 images) or else that
  of the free tier; [checkUsageLimit] denies exactly when the number in
  [conversationCount] has reached the conversation limit,
  [checkImageUsageLimit] exactly when the number in [imageGenerationCount]
  has reached the image limit, and both allow strictly below.
  [ttsUsageCount] has no influence on either check, and the tts endpoint
  is gated by [conversationCount]: it answers 429 once that counter has
  reached the conversation limit, and below it a request the provider
  answers is served and charged on [ttsUsageCount], whatever that counter
  holds, [conversationCount] staying as it is. *)
Theorem quota_check_decision :
  forall (w : World) (userId : string),
    (connected (db w) = false \/ users (db w) !! userId = None ->
       fst (Routes.checkUsageLimit userId w) = Ok Routes.denied
       /\ fst (Routes.checkImageUsageLimit userId w) = Ok Routes.denied
       /\ Routes.canUse Routes.denied = false)
    /\ map (fun tier => Routes.limitOr Routes.conversationLimits tier 30)
           ["free"; "starter"; "pro"; "premium"; "gold"]
       = map Js.Own [30; 300; 1000; 5000; 30]
    /\ map (fun tier => Routes.limitOr Routes.imageLimits tier 1)
           ["free"; "starter"; "pro"; "premium"; "gold"]
       = map Js.Own [1; 15; 25; 60; 1]
    /\ (forall u : User,
          connected (db w) = true -> users (db w) !! userId = Some u ->
          (Routes.hasAdminBypass u = true ->
             fst (Routes.checkUsageLimit userId w) = Ok Routes.unlimited
             /\ fst (Routes.checkImageUsageLimit userId w) = Ok Routes.unlimited
             /\ Routes.canUse Routes.unlimited = true
             /\ Routes.limit Routes.unlimited = Js.Own 999999)
          /\ (Routes.hasAdminBypass u = false -> Metering.plainTier u ->
                (forall n : Z,
                   Js.parseInt (Js.orStr (conversationCount u) "0") = Js.Num n ->
                   exists r l,
                     fst (Routes.checkUsageLimit userId w) = Ok r
                     /\ Routes.currentUsage r = Js.Num n
                     /\ Routes.limit r = Js.Own l
                     /\ Routes.limitOr Routes.conversationLimits
                          (Js.orStr (subscriptionTier u) "free") 30 = Js.Own l
                     /\ (Routes.canUse r = false <-> l <= n)
                     /\ (Routes.canUse r = true <-> n < l)
                     /\ (l <= n ->
                         forall b,
                           Routes.ttsRoute (Routes.mkRequest (Some userId) b) w
                           = (Ok (Routes.mkResponse 429
                                    (Routes.BLimit Routes.limitMessage (Js.Num n)
                                       (Js.Own l) None)), w))
                     /\ (n < l ->
                         forall b audio rest,
                           replies w = Audio audio :: rest ->
                           exists body u',
                             fst (Routes.ttsRoute (Routes.mkRequest (Some userId) b) w)
                             = Ok (Routes.mkResponse 200 body)
                             /\ users (db (snd (Routes.ttsRoute
                                                  (Routes.mkRequest (Some userId) b) w)))
                                  !! userId = Some u'
                             /\ ttsUsageCount u' = Storage.bump (ttsUsageCount u)
                             /\ conversationCount u' = conversationCount u))
                /\ (forall n : Z,
                      Js.parseInt (Js.orStr (imageGenerationCount u) "0") = Js.Num n ->
                      exists r l,
                        fst (Routes.checkImageUsageLimit userId w) = Ok r
                        /\ Routes.currentUsage r = Js.Num n
                        /\ Routes.limit r = Js.Own l
                        /\ Routes.limitOr Routes.imageLimits
                             (Js.orStr (subscriptionTier u) "free") 1 = Js.Own l
                        /\ (Routes.canUse r = false <-> l <= n)
                        /\ (Routes.canUse r = true <-> n < l))
                /\ (forall (c : option string) (w' : World),
                      connected (db w') = true ->
                      users (db w') !! userId =
                        Some (Storage.assign u (Storage.SetTtsUsageCount c)) ->
                      fst (Routes.checkUsageLimit userId w')
                        = fst (Routes.checkUsageLimit userId w)
                      /\ fst (Routes.checkImageUsageLimit userId w')
                           = fst (Routes.checkImageUsageLimit userId w)))).
Proof.
  intros w userId. split; [|split; [reflexivity|split; [reflexivity|]]].
  - intros H. destruct (checkUsageLimit_closed w userId H) as [H1 H2]. auto.
  - intros u Hc Hu.
    pose proof (checkUsageLimit_found w userId u Hc Hu) as Hconv.
    pose proof (checkImageUsageLimit_found w userId u Hc Hu) as Himg.
    split.
    + intros Ha. rewrite Ha in Hconv, Himg. auto.
    + intros Ha Hplain. rewrite Ha in Hconv, Himg. cbv zeta in Hconv, Himg.
      split; [|split].
      * intros n Hn. rewrite Hn in Hconv.
        destruct (limitOr_plain Routes.conversationLimits _ 30 Hplain) as [l Hl].
        rewrite Hl in Hconv. cbn [Js.ltEntry Js.lt] in Hconv.
        eexists _, l. split; [exact Hconv|].
        cbn [Routes.currentUsage Routes.limit Routes.canUse].
        do 2 (split; [reflexivity|]). split; [exact Hl|].
        split; [apply ltb_verdict|]. split; [apply ltb_verdict|].
        split.
        -- intros Hge b. unfold Routes.ttsRoute. cbn [Routes.sessionUser].
           rewrite (run_check _ _ _ w _ Hconv (checkUsageLimit_pure userId w)).
           cbn [Routes.canUse Routes.currentUsage Routes.limit].
           replace (n <? l) with false by (symmetry; apply Z.ltb_ge; exact Hge).
           reflexivity.
        -- intros Hlt b audio rest Hrep.
           destruct (ttsRoute_charges w userId u _ b audio rest Hc Hu Hconv
                       ltac:(apply Z.ltb_lt; exact Hlt) Hrep)
             as (body & t & Hok & Hrow).
           eexists body, _. split; [exact Hok|]. split; [exact Hrow|].
           destruct u; split; reflexivity.
      * intros n Hn. rewrite Hn in Himg.
        destruct (limitOr_plain Routes.imageLimits _ 1 Hplain) as [l Hl].
        rewrite Hl in Himg. cbn [Js.ltEntry Js.lt] in Himg.
        eexists _, l. split; [exact Himg|].
        cbn [Routes.currentUsage Routes.limit Routes.canUse].
        do 2 (split; [reflexivity|]). split; [exact Hl|].
        split; apply ltb_verdict.
      * intros c w' Hc' Hu'. split.
        -- rewrite (checkUsageLimit_found w' userId _ Hc' Hu'), Hconv.
           replace (Routes.hasAdminBypass (Storage.assign u (Storage.SetTtsUsageCount c)))
             with (Routes.hasAdminBypass u) by (destruct u; reflexivity).
           rewrite Ha. destruct u; reflexivity.
        -- rewrite (checkImageUsageLimit_found w' userId _ Hc' Hu'), Himg.
           replace (Routes.hasAdminBypass (Storage.assign u (Storage.SetTtsUsageCount c)))
             with (Routes.hasAdminBypass u) by (destruct u; reflexivity).
           rewrite Ha. destruct u; reflexivity.
Qed.

Lemma quota_check_decision_witness :
  exists r, fst (Routes.checkUsageLimit "u1" Samples.atLimit) = Ok r
            /\ Routes.canUse r = false.
Proof.
  destruct (quota_check_decision Samples.atLimit "u1") as (_ & _ & _ & H).
  destruct (H (Samples.user "free" "30" "0" "0" "0" 0)
              ltac:(reflexivity) ltac:(vm_compute; reflexivity)) as [_ H2].
  destruct (H2 ltac:(reflexivity) ltac:(reflexivity)) as [Hc _].
  destruct (Hc 30 ltac:(vm_compute; reflexivity))
    as (r & l & Hr & _ & _ & Hl & Hf & _).
  exists r. split; [exact Hr|]. apply Hf.
  assert (E : l = 30) by (vm_compute in Hl; congruence).
  rewrite E. lia.
Defined.

(** C1 as stated fails for the speech-synthesis metric. A new free user
    has thirty lines synthesised; each request is served and charged on
    [ttsUsageCount], which then holds 30, the limit the check reports. The
    check run by the tts endpoint still allows the next request: it reads
    [conversationCount], which holds 0. *)
Lemma tts_counter_is_not_compared :
  exists (u : User) (r : Routes.UsageCheck),
    users (db Samples.ttsHeavy) !! "u1" = Some u
    /\ Routes.hasAdminBypass u = false
    /\ Routes.counterOf Storage.tts u = Some "30"
    /\ conversationCount u = Some "0"
    /\ fst (Routes.quotaCheck Storage.tts "u1" Samples.ttsHeavy) = Ok r
    /\ Routes.limit r = Js.Own 30
    /\ Js.ge (Js.parseInt (Js.orStr (Routes.counterOf Storage.tts u) "0"))
             (Js.Num 30) = true
    /\ Routes.canUse r = true.
Proof.
  eexists. exists (Routes.mkUsageCheck true (Js.Num 0) (Js.Own 30)).
  split; [vm_compute; reflexivity|].
  repeat split; vm_compute; reflexivity.
Qed.

(** ** Denied requests *)

(** C3, evaluated where the code departs from it. A user whose tier is
  stored as constructor, a name every object literal inherits, has used
  nothing. [limits[tier] || 30] finds the inherited function instead of
  falling back as it does for any other unknown tier, no number is below
  a function, and both checks deny. The four metered endpoints answer 429
  and leave the world as it was, but the limit they hand to [res.json] is
  that function, which [JSON.stringify] leaves out: the body holds
  [currentUsage] and no [limit]. *)
Theorem quota_denial_without_limit :
  Routes.limitOr Routes.conversationLimits "gold" 30 = Js.Own 30
  /\ Routes.checkUsageLimit "u1" Samples.inheritedTier
     = (Ok (Routes.mkUsageCheck false (Js.Num 0)
              (Js.Inherited (Js.Method "constructor"))),
        Samples.inheritedTier)
  /\ Routes.checkImageUsageLimit "u1" Samples.inheritedTier
     = (Ok (Routes.mkUsageCheck false (Js.Num 0)
              (Js.Inherited (Js.Method "constructor"))),
        Samples.inheritedTier)
  /\ (forall b,
        Routes.generateImage (Routes.mkRequest (Some "u1") b) Samples.inheritedTier
        = (Ok (Routes.mkResponse 429
                 (Routes.BLimit Routes.imageLimitMessage (Js.Num 0)
                    (Js.Inherited (Js.Method "constructor"))
                    (Some "image_limit_exceeded"))),
           Samples.inheritedTier))
  /\ (forall b,
        Routes.generateDialogueRoute (Routes.mkRequest (Some "u1") b)
          Samples.inheritedTier
        = (Ok (Routes.mkResponse 429
                 (Routes.BLimit Routes.limitMessage (Js.Num 0)
                    (Js.Inherited (Js.Method "constructor")) None)),
           Samples.inheritedTier))
  /\ (forall b,
        Routes.ttsRoute (Routes.mkRequest (Some "u1") b) Samples.inheritedTier
        = (Ok (Routes.mkResponse 429
                 (Routes.BLimit Routes.limitMessage (Js.Num 0)
                    (Js.Inherited (Js.Method "constructor")) None)),
           Samples.inheritedTier))
  /\ (forall b,
        Routes.conversationResponse (Routes.mkRequest (Some "u1") b)
          Samples.inheritedTier
        = (Ok (Routes.mkResponse 429
                 (Routes.BLimit Routes.limitMessage (Js.Num 0)
                    (Js.Inherited (Js.Method "constructor")) None)),
           Samples.inheritedTier))
  /\ Routes.writtenLimit (Js.Inherited (Js.Method "constructor")) = None.
Proof.
  split; [reflexivity|].
  split; [vm_compute; reflexivity|].
  split; [vm_compute; reflexivity|].
  repeat split; intros b; vm_compute; reflexivity.
Qed.

(** X28: a request of an authenticated user to a metered endpoint whose
  quota check answers [canUse = false] is answered 429 with the
  [currentUsage] and the [limit] of the check handed to [res.json] (and
  the type image_limit_exceeded for image generation); the world is left
  as it was: no call reaches the provider and no row of the database
  changes. *)
Theorem quota_denial_is_429 :
  forall (w : World) (userId : string),
    (forall r, fst (Routes.checkImageUsageLimit userId w) = Ok r ->
               Routes.canUse r = false ->
       forall b,
         Routes.generateImage (Routes.mkRequest (Some userId) b) w =
         (Ok (Routes.mkResponse 429
                (Routes.BLimit Routes.imageLimitMessage (Routes.currentUsage r)
                   (Routes.limit r) (Some "image_limit_exceeded"))), w))
    /\ (forall r, fst (Routes.checkUsageLimit userId w) = Ok r ->
                  Routes.canUse r = false ->
          (forall b,
             Routes.generateDialogueRoute (Routes.mkRequest (Some userId) b) w =
             (Ok (Routes.mkResponse 429
                    (Routes.BLimit Routes.limitMessage (Routes.currentUsage r)
                       (Routes.limit r) None)), w))
          /\ (forall b,
                Routes.ttsRoute (Routes.mkRequest (Some userId) b) w =
                (Ok (Routes.mkResponse 429
                       (Routes.BLimit Routes.limitMessage (Routes.currentUsage r)
                          (Routes.limit r) None)), w))
          /\ (forall b,
                Routes.conversationResponse (Routes.mkRequest (Some userId) b) w =
                (Ok (Routes.mkResponse 429
                       (Routes.BLimit Routes.limitMessage (Routes.currentUsage r)
                          (Routes.limit r) None)), w))).
Proof.
  intros w userId. split.
  - intros r Hr Hdeny b. unfold Routes.generateImage. cbn [Routes.sessionUser].
    rewrite (run_check _ _ _ w r Hr (checkImageUsageLimit_pure userId w)).
    rewrite Hdeny. reflexivity.
  - intros r Hr Hdeny. repeat split; intros b.
    + unfold Routes.generateDialogueRoute. cbn [Routes.sessionUser].
      rewrite (run_check _ _ _ w r Hr (checkUsageLimit_pure userId w)).
      rewrite Hdeny. reflexivity.
    + unfold Routes.ttsRoute. cbn [Routes.sessionUser].
      rewrite (run_check _ _ _ w r Hr (checkUsageLimit_pure userId w)).
      rewrite Hdeny. reflexivity.
    + unfold Routes.conversationResponse. cbn [Routes.sessionUser].
      rewrite (run_check _ _ _ w r Hr (checkUsageLimit_pure userId w)).
      rewrite Hdeny. reflexivity.
Qed.

Lemma quota_denial_is_429_witness :
  Routes.conversationResponse
    (Routes.mkRequest (Some "u1")
       (Routes.mkConversationBody "こんにちは" (Samples.turns 2) Samples.yuki "cafe"))
    Samples.atLimit
  = (Ok (Routes.mkResponse 429
           (Routes.BLimit Routes.limitMessage (Js.Num 30) (Js.Own 30) None)),
     Samples.atLimit).
Proof.
  destruct (quota_denial_is_429 Samples.atLimit "u1") as [_ H].
  destruct (H (Routes.mkUsageCheck false (Js.Num 30) (Js.Own 30))
              ltac:(vm_compute; reflexivity) ltac:(reflexivity)) as (_ & _ & Hc).
  apply Hc.
Defined.

(** ** The monthly reset of POST /api/check-usage *)

Section MonthlyReset.
Import Routes.

Lemma checkUsage_no_reset w userId u :
  connected (db w) = true -> users (db w) !! userId = Some u ->
  (now w - lastResetAt u (now w)) / msPerDay < 30 ->
  checkUsage (mkRequest (Some userId) tt) w =
  (Ok (mkResponse 200
         (BUsage
            (below (Js.parseInt (Js.orStr (dailyUsageCount u) "0"))
                   (conversations (reportLimit (subscriptionTier u))))
            (Js.parseInt (Js.orStr (dailyUsageCount u) "0"))
            (conversations (reportLimit (subscriptionTier u)))
            (subscriptionTier u)
            (30 - (now w - lastResetAt u (now w)) / msPerDay))), w).
Proof.
  intros Hc Hu Hd. unfold lastResetAt in *.
  unfold checkUsage, tryCatch, bind, Storage.getUser, newDate, ret, json.
  cbn [sessionUser]. rewrite Hc, Hu.
  destruct (lastUsageReset u) as [t|];
    match goal with
    | |- context [30 <=? ?d] => destruct (Z.leb_spec 30 d); [lia|reflexivity]
    end.
Qed.

Lemma checkUsage_reset w userId u :
  connected (db w) = true -> users (db w) !! userId = Some u ->
  30 <= (now w - lastResetAt u (now w)) / msPerDay ->
  checkUsage (mkRequest (Some userId) tt) w =
  (Ok (mkResponse 200
         (BUsage (below (Js.Num 0) (conversations (reportLimit (subscriptionTier u))))
            (Js.Num 0)
            (conversations (reportLimit (subscriptionTier u)))
            (subscriptionTier u)
            (30 - (now w - lastResetAt u (now w)) / msPerDay))),
   setDb (mkDb (<[userId := resetRow u (now w)]> (users (db w)))
               (savedCharacters (db w)) true) w).
Proof.
  intros Hc Hu Hd. unfold lastResetAt in *.
  unfold checkUsage, tryCatch, bind, Storage.getUser, newDate, ret, json,
    Storage.updateUserSubscription, Storage.updateUsers.
  cbn [sessionUser]. rewrite Hc, Hu.
  destruct (lastUsageReset u) as [t|];
    match goal with
    | |- context [30 <=? ?d] => destruct (Z.leb_spec 30 d); [|lia]
    end;
    unfold bind, newDate; rewrite Hc, Hu; reflexivity.
Qed.

Lemma within_window (t1 t2 : Z) :
  t2 - t1 < 30 * msPerDay -> (t2 - t1) / msPerDay < 30.
Proof.
  intros H. apply Z.div_lt_upper_bound; unfold msPerDay in *; lia.
Qed.

Lemma resetRow_fields u t :
  dailyUsageCount (resetRow u t) = Some "0"
  /\ lastUsageReset (resetRow u t) = Some t
  /\ conversationCount (resetRow u t) = conversationCount u
  /\ imageGenerationCount (resetRow u t) = imageGenerationCount u
  /\ ttsUsageCount (resetRow u t) = ttsUsageCount u.
Proof. destruct u; cbn. auto. Qed.

(** What [resetUserUsage] writes. *)
Lemma resetUserUsage_world w id u :
  connected (db w) = true -> users (db w) !! id = Some u ->
  Storage.resetUserUsage id w
  = (Ok (Some (Metering.resetAll u (now w))),
     setDb (mkDb (<[id := Metering.resetAll u (now w)]> (users (db w)))
                 (savedCharacters (db w)) true) w).
Proof.
  intros Hc Hu.
  unfold Storage.resetUserUsage, Storage.updateUsers, bind, newDate.
  rewrite Hc, Hu. reflexivity.
Qed.

Lemma resetAll_fields u t :
  conversationCount (Metering.resetAll u t) = Some "0"
  /\ imageGenerationCount (Metering.resetAll u t) = Some "0"
  /\ ttsUsageCount (Metering.resetAll u t) = Some "0"
  /\ dailyUsageCount (Metering.resetAll u t) = Some "0"
  /\ monthlyImageCount (Metering.resetAll u t) = Some "0"
  /\ lastUsageReset (Metering.resetAll u t) = Some t
  /\ updatedAt (Metering.resetAll u t) = Some t
  /\ subscriptionTier (Metering.resetAll u t) = subscriptionTier u
  /\ email (Metering.resetAll u t) = email u
  /\ isAdmin (Metering.resetAll u t) = isAdmin u.
Proof. destruct u; cbn. repeat split. Qed.

Lemma adminResetUsage_row w id u :
  connected (db w) = true -> users (db w) !! id = Some u ->
  exists u',
    snd (adminResetUsage id w) =
      setDb (mkDb (<[id := u']> (users (db w))) (savedCharacters (db w)) true) w
    /\ conversationCount u' = Some "0"
    /\ imageGenerationCount u' = Some "0"
    /\ ttsUsageCount u' = Some "0"
    /\ lastUsageReset u' = Some (now w).
Proof.
  intros Hc Hu.
  unfold adminResetUsage, Storage.resetUserUsage, Storage.updateUsers,
    tryCatch, bind, json, ret, newDate.
  rewrite Hc, Hu. eexists. split; [reflexivity|].
  destruct u; cbn. auto.
Qed.

End MonthlyReset.

(** C9 (as amended): the reset of the check-usage handler is idempotent
  inside a window. Once a call at time [now w] has reset the user (thirty
  days or more had passed), a further call at any time [t2] less than
  thirty days later changes nothing: the world, and with it every counter
  and the time of the last reset, is the one the first call left. The same
  holds for a call of the handler after the administrator's
  [resetUserUsage]. [resetUserUsage] itself looks at no window: run a
  second time at [t2] it leaves the five counters at 0, as they were, and
  stamps the time of the last reset and of the update with [t2]. *)
Theorem usage_reset_idempotent :
  forall (w : World) (userId : string) (u : User) (t2 : Z),
    connected (db w) = true ->
    users (db w) !! userId = Some u ->
    t2 - now w < 30 * Routes.msPerDay ->
    (30 <= (now w - Routes.lastResetAt u (now w)) / Routes.msPerDay ->
       let w1 := snd (Routes.checkUsage (Routes.mkRequest (Some userId) tt) w) in
       (exists u1, users (db w1) !! userId = Some u1
                   /\ dailyUsageCount u1 = Some "0"
                   /\ lastUsageReset u1 = Some (now w))
       /\ snd (Routes.checkUsage (Routes.mkRequest (Some userId) tt) (setNow t2 w1))
            = setNow t2 w1)
    /\ (let w1 := snd (Routes.adminResetUsage userId w) in
         snd (Routes.checkUsage (Routes.mkRequest (Some userId) tt) (setNow t2 w1))
         = setNow t2 w1)
    /\ (let w1 := snd (Storage.resetUserUsage userId w) in
        let w2 := snd (Storage.resetUserUsage userId (setNow t2 w1)) in
        exists u1 u2,
          users (db w1) !! userId = Some u1
          /\ users (db w2) !! userId = Some u2
          /\ lastUsageReset u1 = Some (now w) /\ updatedAt u1 = Some (now w)
          /\ lastUsageReset u2 = Some t2 /\ updatedAt u2 = Some t2
          /\ Forall (fun counter => counter u1 = Some "0" /\ counter u2 = Some "0")
               [ conversationCount; imageGenerationCount; ttsUsageCount;
                 dailyUsageCount; monthlyImageCount ]
          /\ (forall id, id <> userId -> users (db w2) !! id = users (db w) !! id)).
Proof.
  intros w userId u t2 Hc Hu Ht. split; [|split].
  - intros Hdue. rewrite (checkUsage_reset w userId u Hc Hu Hdue). cbn [snd].
    destruct (resetRow_fields u (now w)) as (Hd & Hl & _).
    split.
    + exists (Routes.resetRow u (now w)). cbn. rewrite lookup_insert_eq. auto.
    + rewrite (checkUsage_no_reset _ userId (Routes.resetRow u (now w))).
      * reflexivity.
      * reflexivity.
      * cbn. apply lookup_insert_eq.
      * unfold Routes.lastResetAt. rewrite Hl. cbn. apply within_window. exact Ht.
  - destruct (adminResetUsage_row w userId u Hc Hu) as (u' & Hw & _ & _ & _ & Hl).
    cbn zeta. rewrite Hw.
    rewrite (checkUsage_no_reset _ userId u').
    + reflexivity.
    + reflexivity.
    + cbn. apply lookup_insert_eq.
    + unfold Routes.lastResetAt. rewrite Hl. cbn. apply within_window. exact Ht.
  - cbn zeta. rewrite (resetUserUsage_world w userId u Hc Hu). cbn [snd].
    rewrite (resetUserUsage_world _ userId (Metering.resetAll u (now w)));
      [|reflexivity|cbn; apply lookup_insert_eq].
    cbn [snd setNow setDb db users now].
    exists (Metering.resetAll u (now w)),
           (Metering.resetAll (Metering.resetAll u (now w)) t2).
    rewrite !lookup_insert_eq.
    destruct (resetAll_fields u (now w))
      as (H1 & H2 & H3 & H4 & H5 & H6 & H7 & _).
    destruct (resetAll_fields (Metering.resetAll u (now w)) t2)
      as (K1 & K2 & K3 & K4 & K5 & K6 & K7 & _).
    do 6 (split; [first [reflexivity|assumption]|]).
    split; [repeat constructor; assumption|].
    intros id Hid. rewrite !lookup_insert_ne by congruence. reflexivity.
Qed.

Lemma usage_reset_idempotent_witness :
  snd (Routes.checkUsage (Routes.mkRequest (Some "u1") tt)
         (setNow (45 * Samples.day)
            (snd (Routes.checkUsage (Routes.mkRequest (Some "u1") tt)
                    Samples.afterAMonth))))
  = setNow (45 * Samples.day)
      (snd (Routes.checkUsage (Routes.mkRequest (Some "u1") tt) Samples.afterAMonth)).
Proof.
  destruct (usage_reset_idempotent Samples.afterAMonth "u1" Samples.exhausted
              (45 * Samples.day)
              ltac:(reflexivity) ltac:(vm_compute; reflexivity)
              ltac:(vm_compute; reflexivity)) as [H _].
  destruct (H ltac:(vm_compute; discriminate)) as [_ H2]. exact H2.
Defined.

(** C9 as stated fails for [resetUserUsage]. The administrator resets a
  user at day 31 and again at day 45, inside the window the first reset
  opened: the second run is no no-op, the time of the last reset moves
  from day 31 to day 45 and the world is not the one the first run left
  at that time. *)
Lemma second_reset_restamps :
  let w1 := snd (Storage.resetUserUsage "u1" Samples.afterAMonth) in
  let w2 := snd (Storage.resetUserUsage "u1" (setNow (45 * Samples.day) w1)) in
  (exists u1, users (db w1) !! "u1" = Some u1
              /\ lastUsageReset u1 = Some (31 * Samples.day)
              /\ conversationCount u1 = Some "0")
  /\ (exists u2, users (db w2) !! "u1" = Some u2
                 /\ lastUsageReset u2 = Some (45 * Samples.day)
                 /\ conversationCount u2 = Some "0")
  /\ w2 <> setNow (45 * Samples.day) w1.
Proof.
  cbn zeta. split; [|split].
  - eexists. split; [vm_compute; reflexivity|]. split; reflexivity.
  - eexists. split; [vm_compute; reflexivity|]. split; reflexivity.
  - intros H.
    assert (E : users (db (snd (Storage.resetUserUsage "u1"
                   (setNow (45 * Samples.day)
                      (snd (Storage.resetUserUsage "u1" Samples.afterAMonth))))))
                  !! "u1"
                = users (db (setNow (45 * Samples.day)
                      (snd (Storage.resetUserUsage "u1" Samples.afterAMonth))))
                  !! "u1") by (rewrite H; reflexivity).
    vm_compute in E. discriminate E.
Qed.

(** ** The counters of the metered endpoints under the monthly reset *)

Section MeteredCounters.
Import Routes.

(** Whatever the check-usage handler does, the three counters charged by
    the metered endpoints are as they were. *)
Lemma checkUsage_keeps_metered_counters w userId id u' :
  users (db (snd (checkUsage (mkRequest (Some userId) tt) w))) !! id = Some u' ->
  exists u, users (db w) !! id = Some u
            /\ conversationCount u' = conversationCount u
            /\ imageGenerationCount u' = imageGenerationCount u
            /\ ttsUsageCount u' = ttsUsageCount u.
Proof.
  destruct (connected (db w)) eqn:Hc.
  - destruct (users (db w) !! userId) as [u|] eqn:Hu.
    + destruct (Z.le_gt_cases 30 ((now w - lastResetAt u (now w)) / msPerDay)) as [Hd|Hd].
      * rewrite (checkUsage_reset w userId u Hc Hu Hd). cbn.
        destruct (decide (userId = id)) as [->|Hne].
        -- rewrite lookup_insert_eq. intros [= <-]. exists u.
           destruct (resetRow_fields u (now w)) as (_ & _ & H1 & H2 & H3). auto.
        -- rewrite lookup_insert_ne by exact Hne. intros H. exists u'. auto.
      * rewrite (checkUsage_no_reset w userId u Hc Hu) by lia. cbn.
        intros H. exists u'. auto.
    + unfold checkUsage, tryCatch, bind, Storage.getUser, ret. cbn [sessionUser].
      rewrite Hc, Hu. cbn. intros H. exists u'. auto.
  - unfold checkUsage, tryCatch, bind, Storage.getUser, ret. cbn [sessionUser].
    rewrite Hc. cbn. intros H. exists u'. auto.
Qed.

End MeteredCounters.

(** C2, evaluated where the code departs from it. A free user has used up
  every quota and was last reset 31 days ago. The check-usage handler
  resets: it reports usage 0, zeroes [dailyUsageCount] and stamps the time
  of the reset; the three counters of the metered endpoints keep their
  values, and both quota checks still deny afterwards. Run on the same
  world without the handler, [checkUsageLimit] denies as well and leaves
  the world untouched: it applies no reset before it reads the counter. *)
Theorem monthly_reset_skips_metered_counters :
  fst (Routes.checkUsage (Routes.mkRequest (Some "u1") tt) Samples.afterAMonth)
    = Ok (Routes.mkResponse 200 (Routes.BUsage true (Js.Num 0) (Some 30) (Some "free") (-1)))
  /\ (exists u1,
        users (db (snd (Routes.checkUsage (Routes.mkRequest (Some "u1") tt)
                          Samples.afterAMonth))) !! "u1" = Some u1
        /\ dailyUsageCount u1 = Some "0"
        /\ lastUsageReset u1 = Some (31 * Samples.day)
        /\ conversationCount u1 = Some "30"
        /\ imageGenerationCount u1 = Some "1"
        /\ ttsUsageCount u1 = Some "5")
  /\ fst (Routes.checkUsageLimit "u1"
            (snd (Routes.checkUsage (Routes.mkRequest (Some "u1") tt)
                    Samples.afterAMonth)))
       = Ok (Routes.mkUsageCheck false (Js.Num 30) (Js.Own 30))
  /\ fst (Routes.checkImageUsageLimit "u1"
            (snd (Routes.checkUsage (Routes.mkRequest (Some "u1") tt)
                    Samples.afterAMonth)))
       = Ok (Routes.mkUsageCheck false (Js.Num 1) (Js.Own 1))
  /\ Routes.checkUsageLimit "u1" Samples.afterAMonth
       = (Ok (Routes.mkUsageCheck false (Js.Num 30) (Js.Own 30)), Samples.afterAMonth).
Proof.
  split; [vm_compute; reflexivity|].
  split.
  - exists (Routes.resetRow Samples.exhausted (31 * Samples.day)).
    repeat split; vm_compute; reflexivity.
  - split; [vm_compute; reflexivity|].
    split; [vm_compute; reflexivity|].
    rewrite (surjective_pairing (Routes.checkUsageLimit "u1" Samples.afterAMonth)).
    rewrite checkUsageLimit_pure. f_equal; try (vm_compute; reflexivity).
Qed.

(** ** The reported decision and the enforced one *)

Section ReportAndEnforcement.
Import Routes.

(** The two limit tables give the same conversation limit except for the
    tiers pro and premium, and for the names they inherit. *)
Lemma conversation_limits_agree (t : option string) :
  t <> Some "pro" -> t <> Some "premium" ->
  Js.inheritedOf (Js.orStr t "free") = None ->
  exists l, conversations (reportLimit t) = Some l
            /\ limitOr conversationLimits (Js.orStr t "free") 30 = Js.Own l.
Proof.
  intros Hpro Hprem. destruct t as [t|]; [|intros _; exists 30; split; reflexivity].
  unfold Js.orStr. destruct (String.eqb_spec t "") as [->|_];
    [intros _; exists 30; split; reflexivity|].
  intros Hplain.
  unfold reportLimit, limitOr, Js.readProp, reportLimits, conversationLimits, Js.assoc.
  destruct (String.eqb_spec t "free") as [->|_]; [exists 30; split; reflexivity|].
  destruct (String.eqb_spec t "starter") as [->|_]; [exists 300; split; reflexivity|].
  destruct (String.eqb_spec t "pro") as [->|_]; [congruence|].
  destruct (String.eqb_spec t "premium") as [->|_]; [congruence|].
  rewrite Hplain. exists 30. split; reflexivity.
Qed.

Lemma incrementUsageRoute_row w userId u :
  connected (db w) = true -> users (db w) !! userId = Some u ->
  exists u1,
    users (db (snd (incrementUsageRoute (mkRequest (Some userId) tt) w))) !! userId
      = Some u1
    /\ dailyUsageCount u1 = Storage.bump (dailyUsageCount u)
    /\ conversationCount u1 = conversationCount u
    /\ imageGenerationCount u1 = imageGenerationCount u
    /\ ttsUsageCount u1 = ttsUsageCount u.
Proof.
  intros Hc Hu.
  unfold incrementUsageRoute, Storage.updateUserSubscription, Storage.updateUsers,
    tryCatch, bind, Storage.getUser, json, ret, newDate.
  cbn [sessionUser]. rewrite Hc, Hu. cbn beta. rewrite Hc, Hu.
  cbn [snd fst db users setDb]. rewrite lookup_insert_eq.
  eexists. split; [reflexivity|]. destruct u; cbn. auto.
Qed.

Lemma incrementUsage_row w userId u type :
  connected (db w) = true -> users (db w) !! userId = Some u ->
  exists u2,
    users (db (snd (Storage.incrementUsage userId type w))) !! userId = Some u2
    /\ counterOf type u2 = Storage.bump (counterOf type u)
    /\ dailyUsageCount u2 = dailyUsageCount u.
Proof.
  intros Hc Hu.
  unfold Storage.incrementUsage, Storage.updateUsers, bind, Storage.getUser,
    ret, newDate.
  rewrite Hc, Hu. cbn beta. rewrite Hc, Hu.
  cbn [snd fst db users setDb]. rewrite lookup_insert_eq.
  eexists. split; [reflexivity|]. destruct u, type; cbn; auto.
Qed.

End ReportAndEnforcement.

(** C4 (as amended): POST /api/check-usage decides on [dailyUsageCount] with
  the limits 30, 300, 600 and 1200 (30 for any other tier whose name is
  not inherited) and knows no administrative identity: its answer is
  made of that counter, or of 0 when it has just reset it, and that limit
  for every user, where
  [checkUsageLimit] allows the administrative identity without a look at
  the counters and decides for the others on [conversationCount] with the
  limits 30, 300, 1000 and 5000. For a user without the administrative
  bypass, whose tier is neither pro nor premium nor an inherited name, for
  whom no reset is due and whose two counters hold the same number, the
  reported decision (counter, limit and boolean) is the enforced one.
  POST /api/increment-usage adds one to [dailyUsageCount] and leaves the
  three counters of [incrementUsage] as they are; [incrementUsage] adds
  one to the counter of its usage type and leaves [dailyUsageCount] as it
  is. *)
Theorem report_matches_enforcement :
  forall (w : World) (userId : string) (u : User),
    connected (db w) = true ->
    users (db w) !! userId = Some u ->
    map (fun tier => Routes.conversations (Routes.reportLimit (Some tier)))
        ["free"; "starter"; "pro"; "premium"; "gold"]
    = map Some [30; 300; 600; 1200; 30]
    /\ map (fun tier => Routes.limitOr Routes.conversationLimits tier 30)
           ["free"; "starter"; "pro"; "premium"; "gold"]
       = map Js.Own [30; 300; 1000; 5000; 30]
    /\ ((now w - Routes.lastResetAt u (now w)) / Routes.msPerDay < 30 ->
        fst (Routes.checkUsage (Routes.mkRequest (Some userId) tt) w)
        = Ok (Routes.mkResponse 200
                (Routes.BUsage
                   (Routes.below (Js.parseInt (Js.orStr (dailyUsageCount u) "0"))
                      (Routes.conversations (Routes.reportLimit (subscriptionTier u))))
                   (Js.parseInt (Js.orStr (dailyUsageCount u) "0"))
                   (Routes.conversations (Routes.reportLimit (subscriptionTier u)))
                   (subscriptionTier u)
                   (30 - (now w - Routes.lastResetAt u (now w)) / Routes.msPerDay))))
    /\ (30 <= (now w - Routes.lastResetAt u (now w)) / Routes.msPerDay ->
        fst (Routes.checkUsage (Routes.mkRequest (Some userId) tt) w)
        = Ok (Routes.mkResponse 200
                (Routes.BUsage
                   (Routes.below (Js.Num 0)
                      (Routes.conversations (Routes.reportLimit (subscriptionTier u))))
                   (Js.Num 0)
                   (Routes.conversations (Routes.reportLimit (subscriptionTier u)))
                   (subscriptionTier u)
                   (30 - (now w - Routes.lastResetAt u (now w)) / Routes.msPerDay))))
    /\ (Routes.hasAdminBypass u = true ->
        fst (Routes.checkUsageLimit userId w) = Ok Routes.unlimited)
    /\ (Routes.hasAdminBypass u = false ->
        fst (Routes.checkUsageLimit userId w)
        = Ok (Routes.mkUsageCheck
                (Js.ltEntry (Js.parseInt (Js.orStr (conversationCount u) "0"))
                   (Routes.limitOr Routes.conversationLimits
                      (Js.orStr (subscriptionTier u) "free") 30))
                (Js.parseInt (Js.orStr (conversationCount u) "0"))
                (Routes.limitOr Routes.conversationLimits
                   (Js.orStr (subscriptionTier u) "free") 30)))
    /\ (forall n : Z,
          Routes.hasAdminBypass u = false ->
          Metering.plainTier u ->
          subscriptionTier u <> Some "pro" ->
          subscriptionTier u <> Some "premium" ->
          (now w - Routes.lastResetAt u (now w)) / Routes.msPerDay < 30 ->
          Js.parseInt (Js.orStr (dailyUsageCount u) "0") = Js.Num n ->
          Js.parseInt (Js.orStr (conversationCount u) "0") = Js.Num n ->
          exists r l d,
            fst (Routes.checkUsageLimit userId w) = Ok r
            /\ Routes.limit r = Js.Own l
            /\ fst (Routes.checkUsage (Routes.mkRequest (Some userId) tt) w)
               = Ok (Routes.mkResponse 200
                       (Routes.BUsage (Routes.canUse r) (Routes.currentUsage r)
                          (Some l) (subscriptionTier u) d)))
    /\ (exists u1,
          users (db (snd (Routes.incrementUsageRoute
                            (Routes.mkRequest (Some userId) tt) w))) !! userId = Some u1
          /\ dailyUsageCount u1 = Storage.bump (dailyUsageCount u)
          /\ conversationCount u1 = conversationCount u
          /\ imageGenerationCount u1 = imageGenerationCount u
          /\ ttsUsageCount u1 = ttsUsageCount u)
    /\ (forall type, exists u2,
          users (db (snd (Storage.incrementUsage userId type w))) !! userId = Some u2
          /\ Routes.counterOf type u2 = Storage.bump (Routes.counterOf type u)
          /\ dailyUsageCount u2 = dailyUsageCount u).
Proof.
  intros w userId u Hc Hu.
  pose proof (checkUsageLimit_found w userId u Hc Hu) as Hconv.
  split; [reflexivity|]. split; [reflexivity|].
  split; [|split; [|split; [|split; [|split; [|split]]]]].
  - intros Hd. rewrite (checkUsage_no_reset w userId u Hc Hu Hd). reflexivity.
  - intros Hd. rewrite (checkUsage_reset w userId u Hc Hu Hd). reflexivity.
  - intros Ha. rewrite Ha in Hconv. exact Hconv.
  - intros Ha. rewrite Ha in Hconv. exact Hconv.
  - intros n Ha Hplain Hpro Hprem Hd Hdaily Hcount.
    rewrite Ha in Hconv. cbv zeta in Hconv.
    rewrite (checkUsage_no_reset w userId u Hc Hu Hd). cbn [fst].
    destruct (conversation_limits_agree _ Hpro Hprem Hplain) as (l & Hrep & Henf).
    rewrite Hconv, Hdaily, Hcount, Hrep, Henf.
    eexists _, l, _. split; [reflexivity|]. split; reflexivity.
  - apply incrementUsageRoute_row; assumption.
  - intros type. apply incrementUsage_row; assumption.
Qed.

Lemma report_matches_enforcement_witness :
  exists r l d,
    fst (Routes.checkUsageLimit "u1"
           (Samples.world (Samples.user "free" "30" "0" "0" "30" 0) Samples.day []))
    = Ok r
    /\ Routes.limit r = Js.Own l
    /\ fst (Routes.checkUsage (Routes.mkRequest (Some "u1") tt)
              (Samples.world (Samples.user "free" "30" "0" "0" "30" 0) Samples.day []))
       = Ok (Routes.mkResponse 200
               (Routes.BUsage (Routes.canUse r) (Routes.currentUsage r)
                  (Some l) (Some "free") d)).
Proof.
  destruct (report_matches_enforcement
              (Samples.world (Samples.user "free" "30" "0" "0" "30" 0) Samples.day [])
              "u1" (Samples.user "free" "30" "0" "0" "30" 0)
              ltac:(reflexivity) ltac:(vm_compute; reflexivity))
    as (_ & _ & _ & _ & _ & _ & H & _).
  apply (H 30); first [reflexivity | discriminate | vm_compute; reflexivity].
Defined.

(** C4 as stated fails. For a pro user with 700 on both counters the
  check-usage handler reports the quota as used up (limit 600) while
  [checkUsageLimit] allows the call (limit 1000); and after
  POST /api/increment-usage [conversationCount], the counter the metered
  endpoints charge, is what it was, while [incrementUsage] leaves
  [dailyUsageCount], the counter the report reads, as it was. *)
Lemma report_differs_from_enforcement :
  fst (Routes.checkUsage (Routes.mkRequest (Some "u1") tt) Samples.proWorld)
    = Ok (Routes.mkResponse 200
            (Routes.BUsage false (Js.Num 700) (Some 600) (Some "pro") 29))
  /\ fst (Routes.checkUsageLimit "u1" Samples.proWorld)
     = Ok (Routes.mkUsageCheck true (Js.Num 700) (Js.Own 1000))
  /\ (exists u1,
        users (db (snd (Routes.incrementUsageRoute (Routes.mkRequest (Some "u1") tt)
                          Samples.proWorld))) !! "u1" = Some u1
        /\ dailyUsageCount u1 = Some "701" /\ conversationCount u1 = Some "700")
  /\ (exists u2,
        users (db (snd (Storage.incrementUsage "u1" Storage.conversation
                          Samples.proWorld))) !! "u1" = Some u2
        /\ dailyUsageCount u2 = Some "700" /\ conversationCount u2 = Some "701").
Proof.
  split; [vm_compute; reflexivity|].
  split; [vm_compute; reflexivity|].
  split.
  - eexists. split; [vm_compute; reflexivity|]. split; reflexivity.
  - eexists. split; [vm_compute; reflexivity|]. split; reflexivity.
Qed.

(** ** Tiers stored under an inherited name *)

Section InheritedTiers.
Import Routes.

Lemma limitOr_inherited table tier fallback i :
  Js.inheritedOf tier = Some i -> Js.assoc tier table = None ->
  limitOr table tier fallback = Js.Inherited i.
Proof.
  intros Hi Hnone. unfold limitOr.
  rewrite (readProp_inherited tier table i Hi Hnone). reflexivity.
Qed.

(** None of the three tables of limits has a tier of its own under an
    inherited name. *)
Lemma limit_tables_plain tier i :
  Js.inheritedOf tier = Some i ->
  Js.assoc tier conversationLimits = None
  /\ Js.assoc tier imageLimits = None
  /\ Js.assoc tier reportLimits = None.
Proof.
  intros Hi. unfold conversationLimits, imageLimits, reportLimits. cbn [Js.assoc].
  repeat match goal with
         | |- context [String.eqb tier ?k] =>
             destruct (String.eqb_spec tier k) as [->|_]; [discriminate Hi|]
         end.
  repeat split.
Qed.

End InheritedTiers.

(** X30: a tier stored under a name that object literals inherit. For a
  user without the administrative bypass whose tier is such a name,
  constructor for instance, [limits[tier]] is what is inherited and no
  fallback applies: both quota checks deny whatever the counters hold,
  with that value as the limit, and POST /api/check-usage, when no reset
  is due, reports [canUse = false] and no limit. *)
Theorem inherited_tier_is_always_denied :
  forall (w : World) (userId : string) (u : User) (tier : string)
         (i : Js.inherited),
    connected (db w) = true ->
    users (db w) !! userId = Some u ->
    Routes.hasAdminBypass u = false ->
    subscriptionTier u = Some tier ->
    Js.inheritedOf tier = Some i ->
    fst (Routes.checkUsageLimit userId w)
    = Ok (Routes.mkUsageCheck false
            (Js.parseInt (Js.orStr (conversationCount u) "0")) (Js.Inherited i))
    /\ fst (Routes.checkImageUsageLimit userId w)
       = Ok (Routes.mkUsageCheck false
               (Js.parseInt (Js.orStr (imageGenerationCount u) "0")) (Js.Inherited i))
    /\ ((now w - Routes.lastResetAt u (now w)) / Routes.msPerDay < 30 ->
        exists d,
          fst (Routes.checkUsage (Routes.mkRequest (Some userId) tt) w)
          = Ok (Routes.mkResponse 200
                  (Routes.BUsage false
                     (Js.parseInt (Js.orStr (dailyUsageCount u) "0")) None
                     (Some tier) d))).
Proof.
  intros w userId u tier i Hc Hu Ha Ht Hi.
  assert (Hne : Js.orStr (Some tier) "free" = tier).
  { unfold Js.orStr. destruct (String.eqb_spec tier "") as [->|_];
      [discriminate Hi|reflexivity]. }
  destruct (limit_tables_plain tier i Hi) as (H1 & H2 & H3).
  split; [|split].
  - rewrite (checkUsageLimit_found w userId u Hc Hu), Ha, Ht, Hne. cbv zeta.
    rewrite (limitOr_inherited _ _ _ _ Hi H1). reflexivity.
  - rewrite (checkImageUsageLimit_found w userId u Hc Hu), Ha, Ht, Hne. cbv zeta.
    rewrite (limitOr_inherited _ _ _ _ Hi H2). reflexivity.
  - intros Hd. rewrite (checkUsage_no_reset w userId u Hc Hu Hd). cbn [fst].
    rewrite Ht. unfold Routes.reportLimit.
    rewrite (readProp_inherited tier Routes.reportLimits i Hi H3).
    eexists. reflexivity.
Qed.

Lemma inherited_tier_is_always_denied_witness :
  fst (Routes.checkUsageLimit "u1" Samples.inheritedTier)
  = Ok (Routes.mkUsageCheck false (Js.Num 0) (Js.Inherited (Js.Method "constructor"))).
Proof.
  destruct (inherited_tier_is_always_denied Samples.inheritedTier "u1"
              (Samples.user "constructor" "0" "0" "0" "0" 0) "constructor"
              (Js.Method "constructor")
              ltac:(reflexivity) ltac:(vm_compute; reflexivity) ltac:(reflexivity)
              ltac:(reflexivity) ltac:(reflexivity)) as [H _].
  exact H.
Defined.

(** ** Voice selection *)

Section VoiceSelection.
Import Tts.

Ltac case_key x :=
  match goal with
  | |- context [String.eqb x ?k] =>
      destruct (String.eqb_spec x k) as [->|?]; cbn; try reflexivity; try congruence
  end.

(** The role table of the source is the table of pairs read for the gender. *)
Lemma roleVoices_lookup role gender :
  Js.assoc role (roleVoices gender) =
  match Js.assoc role roleTable with
  | Some (f, m) => Some (if String.eqb gender "female" then f else m)
  | None => None
  end.
Proof.
  unfold roleVoices, roleTable, Js.assoc.
  repeat case_key role.
Qed.

(** The two switches of the source are the pair table followed by the
    default of the gender. *)
Lemma switches_lookup (style gender : string) :
  voiceOfStyle style gender
  = match pairLookup (Js.toLowerCase gender) (Js.toLowerCase style) pairTable with
    | Some v => v
    | None => genderDefault (Js.toLowerCase gender)
    end.
Proof.
  unfold voiceOfStyle, pairTable, pairLookup, genderDefault.
  generalize (Js.toLowerCase gender) as g, (Js.toLowerCase style) as s. intros g s.
  case_key g.
  - repeat case_key s.
  - case_key g. repeat case_key s.
Qed.

(** No role of the table bears an inherited name. *)
Lemma roleTable_plain role :
  Js.inheritedOf role <> None -> Js.assoc role roleTable = None.
Proof.
  unfold Js.inheritedOf, roleTable, Js.assoc.
  repeat match goal with
         | |- context [String.eqb role ?k] =>
             destruct (String.eqb_spec role k) as [->|?];
             [cbn; congruence|]
         end.
  reflexivity.
Qed.

Lemma selectVoice_refines style gender role :
  Js.inheritedOf role = None ->
  getOpenAIVoiceForCharacter style gender role
  = Js.Own (selectVoice_spec gender style role).
Proof.
  intros Hplain.
  unfold getOpenAIVoiceForCharacter, selectVoice_spec, roleLookup, Js.truthy.
  rewrite (readProp_plain _ _ Hplain), roleVoices_lookup, switches_lookup.
  destruct (String.eqb role ""); cbn [negb]; [reflexivity|].
  destruct (Js.assoc role roleTable) as [[f m]|]; reflexivity.
Qed.

Lemma selectVoice_inherited style gender role i :
  Js.inheritedOf role = Some i ->
  getOpenAIVoiceForCharacter style gender role = Js.Inherited i.
Proof.
  intros Hi.
  assert (Hne : String.eqb role "" = false).
  { destruct (String.eqb_spec role "") as [->|]; [discriminate Hi|reflexivity]. }
  unfold getOpenAIVoiceForCharacter, Js.truthy. rewrite Hne. cbn [negb].
  rewrite (readProp_inherited role (roleVoices gender) i Hi); [reflexivity|].
  rewrite roleVoices_lookup, roleTable_plain; [reflexivity|congruence].
Qed.

End VoiceSelection.

(** C5, evaluated where the code departs from it. For the role
  constructor, or toString, [getOpenAIVoiceForCharacter] does not return
  a voice: the role table has no such role, but [roleVoices[role]] finds
  the method that every object literal inherits under that name, takes
  it for a voice of the table and returns it. The lookup the
  specification describes finds no such role and falls through to the
  pair (female, cheerful): shimmer. *)
Theorem voice_selection_misses_inherited_roles :
  Js.assoc "constructor" (Tts.roleVoices "female") = None
  /\ Tts.getOpenAIVoiceForCharacter "cheerful" "female" "constructor"
     = Js.Inherited (Js.Method "constructor")
  /\ Tts.getOpenAIVoiceForCharacter "cheerful" "female" "toString"
     = Js.Inherited (Js.Method "toString")
  /\ (forall v : Tts.Voice,
        Tts.getOpenAIVoiceForCharacter "cheerful" "female" "constructor" <> Js.Own v)
  /\ Tts.selectVoice_spec "female" "cheerful" "constructor" = Tts.shimmer
  /\ Tts.getOpenAIVoiceForCharacter "cheerful" "female" "" = Js.Own Tts.shimmer.
Proof.
  split; [reflexivity|]. split; [reflexivity|]. split; [reflexivity|].
  split; [intros v; discriminate|]. split; reflexivity.
Qed.

(** X29: voice selection away from the inherited names. For every role
  that is not a name an object literal inherits,
  [getOpenAIVoiceForCharacter] returns a voice, the one of the lookup the
  specification describes: the role table first, then the table of
  (gender, style) pairs, then the default of the gender. A role of the
  role table decides the voice whatever the style, and for every gender;
  any other such role changes nothing. It returns a voice for those roles
  only. In particular the voices chosen for (female, cheerful) without a
  role and with the role Friendly Barista differ: shimmer and alloy. *)
Theorem voice_selection_order :
  (forall style gender role : string,
     Js.inheritedOf role = None ->
     Tts.getOpenAIVoiceForCharacter style gender role
     = Js.Own (Tts.selectVoice_spec gender style role))
  /\ (forall (role : string) (f m : Tts.Voice),
        role <> "" ->
        Js.assoc role Tts.roleTable = Some (f, m) ->
        forall style gender : string,
          Tts.getOpenAIVoiceForCharacter style gender role
          = Js.Own (if String.eqb gender "female" then f else m))
  /\ (forall style gender role : string,
        Js.inheritedOf role = None ->
        Js.assoc role Tts.roleTable = None ->
        Tts.getOpenAIVoiceForCharacter style gender role
        = Tts.getOpenAIVoiceForCharacter style gender "")
  /\ (forall style gender role : string,
        (exists v, Tts.getOpenAIVoiceForCharacter style gender role = Js.Own v)
        <-> Js.inheritedOf role = None)
  /\ Tts.getOpenAIVoiceForCharacter "cheerful" "female" "" = Js.Own Tts.shimmer
  /\ Tts.getOpenAIVoiceForCharacter "cheerful" "female" "Friendly Barista"
     = Js.Own Tts.alloy
  /\ Tts.getOpenAIVoiceForCharacter "cheerful" "female" ""
     <> Tts.getOpenAIVoiceForCharacter "cheerful" "female" "Friendly Barista".
Proof.
  split; [exact selectVoice_refines|].
  split; [|split; [|split]].
  - intros role f m Hne Hrole style gender.
    assert (Hplain : Js.inheritedOf role = None).
    { destruct (Js.inheritedOf role) eqn:E; [|reflexivity].
      rewrite roleTable_plain in Hrole by congruence. discriminate. }
    rewrite (selectVoice_refines _ _ _ Hplain).
    unfold Tts.selectVoice_spec, Tts.roleLookup.
    destruct (String.eqb_spec role "") as [->|_]; [congruence|].
    rewrite Hrole. reflexivity.
  - intros style gender role Hplain Hrole.
    rewrite (selectVoice_refines _ _ _ Hplain).
    rewrite (selectVoice_refines style gender "" eq_refl).
    unfold Tts.selectVoice_spec, Tts.roleLookup.
    rewrite Hrole. destruct (String.eqb role ""); reflexivity.
  - intros style gender role. split.
    + intros [v Hv]. destruct (Js.inheritedOf role) as [i|] eqn:E; [|reflexivity].
      rewrite (selectVoice_inherited _ _ _ _ E) in Hv. discriminate.
    + intros Hplain. eexists. apply selectVoice_refines. exact Hplain.
  - repeat split; try reflexivity. discriminate.
Qed.

Lemma voice_selection_order_witness :
  Tts.getOpenAIVoiceForCharacter "strict" "male" "Friendly Barista" = Js.Own Tts.fable.
Proof.
  destruct voice_selection_order as (_ & H & _).
  apply (H "Friendly Barista" Tts.alloy Tts.fable ltac:(discriminate)
           ltac:(reflexivity) "strict" "male").
Defined.

(** Called without a role, [getOpenAIVoiceForCharacter] gives the voice of
  the style and the gender, which is how POST /api/tts calls it. *)
Lemma voice_without_role (style gender : string) :
  Tts.getOpenAIVoiceForCharacter style gender ""
  = Js.Own (Tts.voiceOfStyle style gender).
Proof. reflexivity. Qed.

(** The Japanese branch of POST /api/tts does not go through
  [getOpenAIVoiceForCharacter]: its voice follows the gender alone. *)
Lemma japaneseVoices_by_gender (character : option Routes.TtsCharacter) :
  Routes.japaneseVoices character
  = if Routes.genderIs character "female" then Tts.nova else Tts.onyx.
Proof.
  unfold Routes.japaneseVoices.
  destruct (Routes.genderIs character "female");
    destruct (Routes.styleIs character "cheerful");
    destruct (Routes.styleIs character "calm");
    destruct (Routes.styleIs character "strict"); reflexivity.
Qed.

(** ** The context sent to the chat model *)

Section ConversationContext.

Lemma sliceLast_length {A} (n : nat) (a : list A) :
  (length (Js.sliceLast n a) <= n)%nat.
Proof. unfold Js.sliceLast. rewrite length_drop. lia. Qed.

Lemma sliceLast_idempotent {A} (n : nat) (a : list A) :
  Js.sliceLast n (Js.sliceLast n a) = Js.sliceLast n a.
Proof.
  unfold Js.sliceLast at 1.
  replace (length (Js.sliceLast n a) - n)%nat with 0%nat
    by (pose proof (sliceLast_length n a); lia).
  reflexivity.
Qed.

(** The service [generateConversationResponse] keeps the last six turns:
    its history text is that of the window, which holds at most six. *)
Lemma historyText_window (h : list Turn) :
  Speech.historyText h = Speech.historyText (Js.sliceLast 6 h)
  /\ (length (Js.sliceLast 6 h) <= 6)%nat.
Proof.
  split; [|apply sliceLast_length].
  unfold Speech.historyText. rewrite sliceLast_idempotent. reflexivity.
Qed.

(** The route forwards one message per turn of the history it receives. *)
Lemma conversationMessages_length (b : Routes.ConversationBody) :
  length (Routes.conversationMessages b)
  = (length (Routes.cb_conversationHistory b) + 2)%nat.
Proof.
  unfold Routes.conversationMessages.
  rewrite !length_app, length_map. cbn. lia.
Qed.

End ConversationContext.

(** C6, evaluated where the code departs from it. POST
  /api/conversation-response, the endpoint the scene page calls to
  evaluate a user turn, is given a history of seven turns: the request it
  sends to the chat model carries nine messages, the system prompt, all
  seven turns (the first one, which lies outside a window of six,
  included) and the user's input. The sibling service
  [generateConversationResponse] does cut the history to its last six
  turns, but the route does not call it. *)
Theorem conversation_route_sends_whole_history :
  (exists msgs,
     calls (snd (Routes.conversationResponse
                   (Routes.mkRequest (Some "u1") Samples.seventhTurn)
                   (Samples.fresh [Chat (Some "はい、どうぞ") None])))
       = [ChatCompletions msgs]
     /\ length msgs = 9%nat
     /\ In (mkMessage "assistant" "line 1") msgs)
  /\ Routes.status
       (match fst (Routes.conversationResponse
                     (Routes.mkRequest (Some "u1") Samples.seventhTurn)
                     (Samples.fresh [Chat (Some "はい、どうぞ") None])) with
        | Ok r => r
        | Throw _ => Routes.mkResponse 500 (Routes.BMessage "")
        end) = 200
  /\ Speech.historyText (Routes.cb_conversationHistory Samples.seventhTurn)
     = Speech.historyText (drop 1 (Routes.cb_conversationHistory Samples.seventhTurn)).
Proof.
  split.
  - exists (Routes.conversationMessages Samples.seventhTurn).
    split; [|split].
    + vm_compute. reflexivity.
    + vm_compute. reflexivity.
    + vm_compute. right. left. reflexivity.
  - split; vm_compute; reflexivity.
Qed.

(** ** Recordings too short to be speech *)

Section ShortAudio.

Lemma recognizeSpeech_short decode files request w :
  (length (decode (Speech.audioBlob request)) < Speech.minAudioBytes)%nat ->
  exists msg, Speech.recognizeSpeech decode files request w = (Throw msg, w).
Proof.
  intros Hshort. apply Nat.ltb_lt in Hshort.
  unfold Speech.recognizeSpeech.
  destruct (negb (Js.truthy (openaiApiKey w))).
  - eexists. reflexivity.
  - unfold tryCatch. rewrite Hshort. eexists. reflexivity.
Qed.

(** When the server refuses the recording, the request of the page throws
    and the page keeps its history and its progress. *)
Lemma processUserResponse_rejected audio p msg rest :
  Scene.responses p = Throw msg :: rest ->
  Scene.dialogueHistory (snd (Scene.processUserResponse audio p))
    = Scene.dialogueHistory p
  /\ Scene.sceneProgress (snd (Scene.processUserResponse audio p))
     = Scene.sceneProgress p.
Proof.
  intros Hreply.
  unfold Scene.processUserResponse, bind, Scene.setIsProcessing.
  destruct (length audio <? Scene.minBlobBytes)%nat; [cbn; auto|].
  unfold Scene.onloadend, tryCatch, bind, Scene.apiRequest.
  cbn [Scene.responses]. rewrite Hreply. cbn. auto.
Qed.

End ShortAudio.

(** C7: a recording whose decoded size is under the threshold of 1000
  bytes, 500 bytes for instance, is rejected by [recognizeSpeech] with an
  error: no transcription is requested and none is returned, and the
  endpoint answers with an error status and no text. A page whose request
  is refused that way appends no turn and keeps its progress; and a
  recording under the same threshold is dropped by the page before any
  request is sent: no turn is appended, and the progress, the retry flag
  and the end flag are what they were. *)
Theorem short_audio_is_rejected :
  forall (bufferFromBase64 : string -> list ascii) (files : Speech.TempFile)
         (audioBlob : string) (audio : list ascii) (w : World) (p : Scene.Page),
    (length (bufferFromBase64 audioBlob) < Speech.minAudioBytes)%nat ->
    (length audio < Scene.minBlobBytes)%nat ->
    (forall language, exists msg,
       Speech.recognizeSpeech bufferFromBase64 files
         (Speech.mkSpeechRequest audioBlob language) w = (Throw msg, w))
    /\ (forall user language, exists r,
          Routes.speechRecognition bufferFromBase64 files
            (Routes.mkRequest (Some user)
               (Routes.mkSpeechBody (Some audioBlob) language)) w = (Ok r, w)
          /\ 400 <= Routes.status r
          /\ (forall t c m, Routes.payload r <> Routes.BSpeech t c m))
    /\ (forall (recording : list ascii) (msg : string)
               (rest : list (outcome Scene.ApiReply)),
          Scene.responses p = Throw msg :: rest ->
          Scene.dialogueHistory (snd (Scene.processUserResponse recording p))
            = Scene.dialogueHistory p
          /\ Scene.sceneProgress (snd (Scene.processUserResponse recording p))
             = Scene.sceneProgress p)
    /\ (Scene.dialogueHistory (snd (Scene.processUserResponse audio p))
          = Scene.dialogueHistory p
        /\ Scene.sceneProgress (snd (Scene.processUserResponse audio p))
           = Scene.sceneProgress p
        /\ Scene.awaitingRetry (snd (Scene.processUserResponse audio p))
           = Scene.awaitingRetry p
        /\ Scene.conversationEnded (snd (Scene.processUserResponse audio p))
           = Scene.conversationEnded p
        /\ Scene.requests (snd (Scene.processUserResponse audio p))
           = Scene.requests p)
    /\ (500 < Speech.minAudioBytes)%nat
    /\ (500 < Scene.minBlobBytes)%nat.
Proof.
  intros decode files audioBlob audio w p Hserver Hclient.
  split; [|split; [|split; [|split]]].
  - intros language. apply recognizeSpeech_short. exact Hserver.
  - intros user language. unfold Routes.speechRecognition.
    cbn [Routes.sessionUser Routes.body Routes.sb_audioBlob Routes.sb_language].
    unfold Js.truthy, Js.orStr at 1.
    destruct (String.eqb audioBlob "") eqn:Hempty; cbn [negb].
    + eexists. split; [reflexivity|]. cbn. split; [lia|discriminate].
    + destruct (recognizeSpeech_short decode files
                  (Speech.mkSpeechRequest audioBlob (Js.orStr language "ja")) w Hserver)
        as [msg Hmsg].
      unfold tryCatch, bind. rewrite Hmsg.
      eexists. split; [reflexivity|]. cbn. split; [lia|discriminate].
  - intros recording msg rest Hreply.
    apply processUserResponse_rejected with msg rest. exact Hreply.
  - apply Nat.ltb_lt in Hclient.
    unfold Scene.processUserResponse, bind, Scene.setIsProcessing.
    rewrite Hclient. cbn. auto.
  - unfold Speech.minAudioBytes, Scene.minBlobBytes. lia.
Qed.

Lemma short_audio_is_rejected_witness :
  (exists msg,
     Speech.recognizeSpeech Js.base64Decode Samples.disk
       (Speech.mkSpeechRequest Samples.click "ja")
       (Samples.fresh [Transcription "コーヒーをください"])
     = (Throw msg, Samples.fresh [Transcription "コーヒーをください"]))
  /\ Scene.dialogueHistory
       (snd (Scene.processUserResponse (Js.base64Decode Samples.click)
               Samples.openedScene))
     = Scene.dialogueHistory Samples.openedScene.
Proof.
  destruct (short_audio_is_rejected Js.base64Decode Samples.disk Samples.click
              (Js.base64Decode Samples.click)
              (Samples.fresh [Transcription "コーヒーをください"])
              Samples.openedScene
              ltac:(vm_compute; lia) ltac:(vm_compute; lia))
    as (Hs & _ & _ & (Hh & _) & _).
  split; [apply Hs | exact Hh].
Defined.

(** ** The result of speech recognition *)

(** C10: whenever [recognizeSpeech] returns a result, its confidence is the
  constant 0.9, whatever the audio, the language and the transcription. *)
Theorem recognized_speech_confidence :
  forall (bufferFromBase64 : string -> list ascii) (files : Speech.TempFile)
         (request : Speech.SpeechRecognitionRequest) (w : World)
         (result : Speech.SpeechResult),
    fst (Speech.recognizeSpeech bufferFromBase64 files request w) = Ok result ->
    Speech.sr_confidence result = 0.9%Q.
Proof.
  intros decode files request w result.
  unfold Speech.recognizeSpeech, tryCatch, bind, create, fetch, throw, ret, lift.
  destruct (negb (Js.truthy (openaiApiKey w))); [discriminate|].
  destruct (length (decode (Speech.audioBlob request)) <? Speech.minAudioBytes)%nat;
    [discriminate|].
  destruct (Speech.written files) as [[]|e]; [|discriminate].
  destruct (replies w) as [|reply rest]; [discriminate|].
  destruct reply as [st|url|c pr|b|t]; try discriminate.
  destruct (Speech.removed files) as [[]|e]; [|discriminate].
  destruct (Speech.isHallucination (Js.trim t)); [discriminate|].
  cbn. intros [= <-]. reflexivity.
Qed.

Lemma recognized_speech_confidence_witness :
  fst (Speech.recognizeSpeech Js.base64Decode Samples.disk
         (Speech.mkSpeechRequest Samples.utterance "ja")
         (Samples.fresh [Transcription "コーヒーをください"]))
    = Ok (Speech.mkSpeechResult "コーヒーをください" 0.9%Q)
  /\ Speech.sr_confidence (Speech.mkSpeechResult "コーヒーをください" 0.9%Q) = 0.9%Q.
Proof.
  assert (H : fst (Speech.recognizeSpeech Js.base64Decode Samples.disk
                     (Speech.mkSpeechRequest Samples.utterance "ja")
                     (Samples.fresh [Transcription "コーヒーをください"]))
              = Ok (Speech.mkSpeechResult "コーヒーをください" 0.9%Q))
    by (vm_compute; reflexivity).
  split; [exact H|].
  exact (recognized_speech_confidence _ _ _ _ _ H).
Defined.

(** ** The shape of a generated dialogue *)

Section DialogueShape.
Import Dialogue.

Lemma validTriple_spec field items :
  validTriple field = Some items
  <-> field = Js.Value (Js.JArr items) /\ length items = 3%nat.
Proof.
  unfold validTriple. split.
  - destruct field as [v| |]; try discriminate.
    destruct v as [|b|n|s|l|ms]; cbn;
      try discriminate; try (destruct (negb _); discriminate).
    destruct (Nat.eqb_spec (length l) 3); [|discriminate].
    intros [= <-]. auto.
  - intros [-> Hlen]. cbn. rewrite Hlen. reflexivity.
Qed.

Lemma validTriple_none field :
  ~ wellFormedTriple field -> validTriple field = None.
Proof.
  intros Hbad. destruct (validTriple field) as [items|] eqn:E; [|reflexivity].
  exfalso. apply Hbad. exists items. apply validTriple_spec. exact E.
Qed.

Lemma validate_ok result r :
  validate result = Ok r ->
  Js.getProp result "lines" = Js.Value (Js.JArr (lines r))
  /\ length (lines r) = 3%nat
  /\ Js.getProp result "focus_phrases" = Js.Value (Js.JArr (focus_phrases r))
  /\ length (focus_phrases r) = 3%nat.
Proof.
  unfold validate.
  destruct (validTriple (Js.getProp result "lines")) as [ls|] eqn:El;
    [|destruct result; discriminate].
  destruct (validTriple (Js.getProp result "focus_phrases")) as [fs|] eqn:Ef;
    [|destruct result; discriminate].
  apply validTriple_spec in El, Ef. destruct El as [El1 El2], Ef as [Ef1 Ef2].
  destruct result; try discriminate; intros [= <-]; cbn; auto.
Qed.

Lemma validate_malformed result :
  ~ wellFormedTriple (Js.getProp result "lines")
  \/ ~ wellFormedTriple (Js.getProp result "focus_phrases") ->
  exists msg, validate result = Throw msg.
Proof.
  intros Hbad. unfold validate.
  destruct (validTriple (Js.getProp result "lines")) as [ls|] eqn:El.
  - destruct (validTriple (Js.getProp result "focus_phrases")) as [fs|] eqn:Ef.
    + exfalso. destruct Hbad as [H|H]; apply H; eexists;
        apply validTriple_spec; eassumption.
    + destruct result; eexists; reflexivity.
  - destruct result; eexists; reflexivity.
Qed.

Lemma validate_wellformed result ls fs :
  Js.getProp result "lines" = Js.Value (Js.JArr ls) -> length ls = 3%nat ->
  Js.getProp result "focus_phrases" = Js.Value (Js.JArr fs) -> length fs = 3%nat ->
  validate result = Ok (mkDialogueResult ls fs).
Proof.
  intros Hl Hll Hf Hfl. unfold validate.
  rewrite (proj2 (validTriple_spec _ ls) (conj Hl Hll)).
  rewrite (proj2 (validTriple_spec _ fs) (conj Hf Hfl)).
  destruct result; try reflexivity. discriminate.
Qed.

(** What [generateDialogue] returns comes out of [validate]. *)
Lemma generateDialogue_ok request w r :
  fst (generateDialogue request w) = Ok r ->
  exists content result rest,
    replies w = Chat content (Some result) :: rest /\ validate result = Ok r.
Proof.
  unfold generateDialogue.
  destruct (scenario request) as [sc|]; [|discriminate].
  destruct (character request) as [ch|]; [|discriminate].
  destruct (Js.readProp (audience request) audienceLevels); [|discriminate].
  unfold tryCatch, bind, create, fetch, throw, lift.
  destruct (replies w) as [|reply rest]; [discriminate|].
  destruct reply as [st|url|c pr|b|t]; try discriminate.
  destruct (negb (Js.truthy c)); [discriminate|].
  destruct pr as [result|]; [|discriminate].
  destruct (validate result) as [r'|msg] eqn:E; [|discriminate].
  cbn. intros [= <-]. eauto.
Qed.

Lemma generateDialogue_total request w :
  (exists r, fst (generateDialogue request w) = Ok r)
  \/ (exists msg, fst (generateDialogue request w) = Throw msg).
Proof. destruct (fst (generateDialogue request w)); eauto. Qed.

End DialogueShape.

(** C8: a result of [generateDialogue] holds exactly three lines and exactly
  three focus phrases, the two arrays of the provider's answer. An answer
  whose [lines] or [focus_phrases] is missing, is not an array or does
  not have three items makes the call fail with an error. An answer with
  both fields well formed passes the check. *)
Theorem dialogue_has_three_lines_and_phrases :
  (forall request w r,
     fst (Dialogue.generateDialogue request w) = Ok r ->
     length (Dialogue.lines r) = 3%nat /\ length (Dialogue.focus_phrases r) = 3%nat)
  /\ (forall request w content result rest,
        replies w = Chat content (Some result) :: rest ->
        ~ Dialogue.wellFormedTriple (Js.getProp result "lines")
        \/ ~ Dialogue.wellFormedTriple (Js.getProp result "focus_phrases") ->
        exists msg, fst (Dialogue.generateDialogue request w) = Throw msg)
  /\ (forall result ls fs,
        Js.getProp result "lines" = Js.Value (Js.JArr ls) -> length ls = 3%nat ->
        Js.getProp result "focus_phrases" = Js.Value (Js.JArr fs) ->
        length fs = 3%nat ->
        Dialogue.validate result = Ok (Dialogue.mkDialogueResult ls fs)).
Proof.
  split; [|split].
  - intros request w r Hr.
    destruct (generateDialogue_ok request w r Hr) as (c & result & rest & _ & Hv).
    apply validate_ok in Hv. tauto.
  - intros request w content result rest Hreply Hbad.
    destruct (generateDialogue_total request w) as [[r Hr]|H]; [|exact H].
    exfalso.
    destruct (generateDialogue_ok request w r Hr) as (c & result' & rest' & Hreply' & Hv).
    rewrite Hreply in Hreply'. injection Hreply' as _ <- _.
    destruct (validate_malformed result Hbad) as [msg Hmsg]. congruence.
  - exact validate_wellformed.
Qed.

Lemma dialogue_has_three_lines_and_phrases_witness :
  (exists msg,
     fst (Dialogue.generateDialogue Samples.dialogueRequest
            (Samples.fresh [Chat (Some "{...}") (Some Samples.twoLines)]))
     = Throw msg)
  /\ (exists r,
        fst (Dialogue.generateDialogue Samples.dialogueRequest
               (Samples.fresh [Chat (Some "{...}") (Some Samples.goodDialogue)]))
        = Ok r
        /\ length (Dialogue.lines r) = 3%nat
        /\ length (Dialogue.focus_phrases r) = 3%nat).
Proof.
  destruct dialogue_has_three_lines_and_phrases as (Hok & Hbad & _).
  split.
  - apply (Hbad Samples.dialogueRequest
             (Samples.fresh [Chat (Some "{...}") (Some Samples.twoLines)])
             (Some "{...}") Samples.twoLines [] ltac:(reflexivity)).
    left. intros (items & Heq & Hlen). vm_compute in Heq.
    injection Heq as <-. discriminate.
  - eexists. split; [vm_compute; reflexivity|].
    apply (Hok Samples.dialogueRequest
             (Samples.fresh [Chat (Some "{...}") (Some Samples.goodDialogue)])).
    vm_compute. reflexivity.
Defined.

(** ** Numbers written to and read from a counter column *)

Section CounterNumbers.
Import Metering.

Ltac digit_cases H :=
  let m := fresh "m" in
  let Hm := fresh "Hm" in
  let Hm' := fresh "Hm" in
  destruct H as (m & Hm & ->);
  assert (m = 0 \/ m = 1 \/ m = 2 \/ m = 3 \/ m = 4 \/ m = 5 \/ m = 6 \/ m = 7
          \/ m = 8 \/ m = 9)%N as Hm' by lia;
  clear Hm;
  repeat (destruct Hm' as [->|Hm']); try subst m.

Lemma digitVal_pretty (m : N) :
  (m < 10)%N -> Js.digitVal 10 (pretty_N_char m) = Some (Z.of_N m).
Proof.
  intros H.
  assert (m = 0 \/ m = 1 \/ m = 2 \/ m = 3 \/ m = 4 \/ m = 5 \/ m = 6 \/ m = 7
          \/ m = 8 \/ m = 9)%N as Hm by lia.
  repeat (destruct Hm as [->|Hm]; [reflexivity|]). subst. reflexivity.
Qed.

(** Reading the digits that [pretty_N_go] writes in front of [s]. *)
Lemma digits_pretty_go (x : N) : forall s,
  Js.digits 10 (pretty_N_go x s) None
  = Js.digits 10 s (if decide (x = 0)%N then None else Some (Z.of_N x)).
Proof.
  induction (N.lt_wf_0 x) as [x _ IH]. intros s.
  destruct (decide (x = 0)%N) as [->|Hx].
  - rewrite pretty_N_go_0. reflexivity.
  - rewrite pretty_N_go_step by lia.
    rewrite IH by (apply N.div_lt; lia).
    cbn [Js.digits]. rewrite digitVal_pretty by (apply N.mod_lt; lia).
    f_equal. f_equal.
    pose proof (N.div_mod x 10 ltac:(lia)) as Hdm.
    destruct (decide (x `div` 10 = 0)%N) as [Hq|Hq].
    + rewrite Hq in Hdm. lia.
    + lia.
Qed.

(** A numeral starts with a digit, followed by the end or by a digit. *)
Lemma pretty_go_shape (x : N) : forall s,
  (0 < x)%N ->
  exists c r, pretty_N_go x s = String c r /\ isDigit c
              /\ (r = s \/ exists c' r', r = String c' r' /\ isDigit c').
Proof.
  induction (N.lt_wf_0 x) as [x _ IH]. intros s Hx.
  rewrite pretty_N_go_step by exact Hx.
  assert (Hd : isDigit (pretty_N_char (x `mod` 10))).
  { eexists. split; [|reflexivity]. apply N.mod_lt. lia. }
  destruct (decide (x `div` 10 = 0)%N) as [Hq|Hq].
  - rewrite Hq, pretty_N_go_0.
    eexists _, s. split; [reflexivity|]. split; [exact Hd|left; reflexivity].
  - destruct (IH (x `div` 10)%N ltac:(apply N.div_lt; lia)
                (String (pretty_N_char (x `mod` 10)) s)
                ltac:(apply N.neq_0_lt_0; exact Hq))
      as (c & r & -> & Hc & Hr).
    exists c, r. split; [reflexivity|]. split; [exact Hc|]. right.
    destruct Hr as [->|Hr]; [|exact Hr]. eauto.
Qed.

Lemma trimStart_digit c r : isDigit c -> Js.trimStart (String c r) = String c r.
Proof.
  intros Hc. digit_cases Hc;
    (destruct r as [|c2 [|c3 r3]]; reflexivity).
Qed.

Lemma parseInt_unsigned c r :
  isDigit c -> (r = "" \/ exists c' r', r = String c' r' /\ isDigit c') ->
  Js.parseInt (String c r)
  = match Js.digits 10 (String c r) None with
    | Some n => Js.nearest n
    | None => Js.NaN
    end.
Proof.
  intros Hc Hr. unfold Js.parseInt. rewrite (trimStart_digit c r Hc).
  assert (Hmul : forall o : option Z,
            match o with Some n => Js.nearest (1 * n) | None => Js.NaN end
            = match o with Some n => Js.nearest n | None => Js.NaN end).
  { intros [n|]; [rewrite Z.mul_1_l|]; reflexivity. }
  destruct Hr as [->|(c' & r' & -> & Hc')].
  - digit_cases Hc;
      match goal with |- _ = match ?d with _ => _ end => exact (Hmul d) end.
  - digit_cases Hc; digit_cases Hc';
      match goal with |- _ = match ?d with _ => _ end => exact (Hmul d) end.
Qed.

Lemma parseInt_pretty_N (x : N) : Js.parseInt (pretty x) = Js.nearest (Z.of_N x).
Proof.
  unfold pretty, pretty_N. destruct (decide (x = 0)%N) as [->|Hx]; [reflexivity|].
  destruct (pretty_go_shape x "" ltac:(lia)) as (c & r & Heq & Hc & Hr).
  pose proof (digits_pretty_go x "") as Hd. rewrite Heq in *.
  rewrite parseInt_unsigned by assumption.
  rewrite Hd. destruct (decide (x = 0)%N); [contradiction|reflexivity].
Qed.

(** Reading a numeral gives the double nearest to the integer it spells. *)
Lemma parseInt_pretty (z : Z) : Js.parseInt (pretty z) = Js.nearest z.
Proof.
  destruct z as [|p|p]; [reflexivity| |].
  - change (pretty (Z.pos p)) with (pretty (N.pos p)). apply parseInt_pretty_N.
  - change (pretty (Z.neg p)) with (String "-" (pretty (N.pos p))).
    unfold pretty, pretty_N. destruct (decide (N.pos p = 0)%N); [discriminate|].
    destruct (pretty_go_shape (N.pos p) "" ltac:(lia)) as (c & r & Heq & Hc & Hr).
    pose proof (digits_pretty_go (N.pos p) "") as Hd. rewrite Heq in *.
    destruct (decide (N.pos p = 0)%N); [discriminate|].
    assert (Hneg : forall o : option Z, o = Some (Z.pos p) ->
              match o with Some n => Js.nearest (-1 * n) | None => Js.NaN end
              = Js.nearest (Z.neg p)).
    { intros o ->. reflexivity. }
    unfold Js.parseInt.
    destruct Hr as [->|(c' & r' & -> & Hc')].
    + digit_cases Hc; exact (Hneg _ Hd).
    + digit_cases Hc; digit_cases Hc';
        (destruct r' as [|c3 r3]; exact (Hneg _ Hd)).
Qed.

(** Up to 2^53 an integer is a double, written with all its digits. *)
Lemma nearest_exact (z : Z) : Z.abs z <= Js.maxExact -> Js.nearest z = Js.Num z.
Proof.
  intros H. apply Z.leb_le in H. unfold Js.nearest. cbv zeta. rewrite H. reflexivity.
Qed.

Lemma toString_exact (z : Z) :
  Z.abs z <= Js.maxExact -> Js.toString (Js.Num z) = pretty z.
Proof.
  intros H. apply Z.leb_le in H. unfold Js.toString. rewrite H. reflexivity.
Qed.

(** [parseInt(String(n))] is [n], for every integer up to 2^53. *)
Lemma parseInt_toString (z : Z) :
  Z.abs z <= Js.maxExact -> Js.parseInt (Js.toString (Js.Num z)) = Js.Num z.
Proof.
  intros H. rewrite (toString_exact z H), parseInt_pretty. apply nearest_exact. exact H.
Qed.

Lemma pretty_filled (z : Z) : pretty z <> "".
Proof.
  intros E. pose proof (parseInt_pretty z) as H. rewrite E in H.
  unfold Js.nearest in H. cbv zeta in H.
  destruct (Z.abs z <=? Js.maxExact); [discriminate H|].
  match type of H with
  | _ = (if ?b then _ else _) => destruct b; discriminate H
  end.
Qed.

(** The counter written by an increment reads as one more, up to 2^53. *)
Lemma reading_bump (c : option string) (n : Z) :
  reading c = Js.Num n -> Z.abs (n + 1) <= Js.maxExact ->
  reading (Storage.bump c) = Js.Num (n + 1).
Proof.
  unfold reading, Storage.bump. intros -> Hb. cbn [Js.add].
  rewrite (nearest_exact _ Hb).
  pose proof (parseInt_toString (n + 1) Hb) as H.
  unfold Js.orStr.
  destruct (String.eqb_spec (Js.toString (Js.Num (n + 1))) "") as [E|_]; [|exact H].
  rewrite E in H. discriminate H.
Qed.

(** What an increment writes, up to 2^53: the numeral of one more. *)
Lemma bump_exact (c : option string) (n : Z) :
  reading c = Js.Num n -> Z.abs (n + 1) <= Js.maxExact ->
  Storage.bump c = Some (pretty (n + 1)).
Proof.
  unfold reading, Storage.bump. intros -> Hb. cbn [Js.add].
  rewrite (nearest_exact _ Hb), (toString_exact _ Hb). reflexivity.
Qed.

End CounterNumbers.

(** ** What an increment writes *)

Section Increment.
Import Metering.

Lemma incrementUsage_world w userId u type :
  connected (db w) = true -> users (db w) !! userId = Some u ->
  Storage.incrementUsage userId type w
  = (Ok tt,
     setDb (mkDb (<[userId := charged type u (now w)]> (users (db w)))
                 (savedCharacters (db w)) true) w).
Proof.
  intros Hc Hu.
  unfold Storage.incrementUsage, Storage.updateUsers, bind, Storage.getUser,
    ret, newDate.
  rewrite Hc, Hu. cbn beta. rewrite Hc, Hu. destruct type; reflexivity.
Qed.

Lemma incrementUsage_missing w userId type :
  connected (db w) = true -> users (db w) !! userId = None ->
  Storage.incrementUsage userId type w = (Ok tt, w).
Proof.
  intros Hc Hu. unfold Storage.incrementUsage, bind, Storage.getUser, ret.
  rewrite Hc, Hu. reflexivity.
Qed.

Lemma incrementUsage_down w userId type :
  connected (db w) = false ->
  exists msg, Storage.incrementUsage userId type w = (Throw msg, w).
Proof.
  intros Hc. unfold Storage.incrementUsage, bind, Storage.getUser.
  rewrite Hc. eexists. reflexivity.
Qed.

Lemma charged_fields type u t :
  email (charged type u t) = email u
  /\ isAdmin (charged type u t) = isAdmin u
  /\ subscriptionTier (charged type u t) = subscriptionTier u
  /\ dailyUsageCount (charged type u t) = dailyUsageCount u
  /\ lastUsageReset (charged type u t) = lastUsageReset u
  /\ Routes.counterOf type (charged type u t) = Storage.bump (Routes.counterOf type u)
  /\ (forall other, other <> type ->
        Routes.counterOf other (charged type u t) = Routes.counterOf other u).
Proof.
  destruct u, type; cbn; repeat split; try reflexivity;
    intros [] H; try reflexivity; congruence.
Qed.

End Increment.

(** X1: [incrementUsage] adds one to one counter. For a user whose
    counter of the given usage type reads [n], the counter holds
    [String(n + 1)] afterwards: up to 2^53 that is the numeral of [n + 1],
    and the counter reads [n + 1]. The two other counters,
    [dailyUsageCount], the tier and the identity of the user are
    untouched, and so are the rows of all other users and the saved
    characters. For an id without a row nothing changes. At 2^53 the sum
    is no longer exact: a counter that holds 9007199254740992 holds the
    same numeral after the increment. *)
Theorem incrementUsage_adds_one :
  forall (w : World) (userId : string) (type : Storage.UsageType),
    connected (db w) = true ->
    (forall (u : User) (n : Z),
       users (db w) !! userId = Some u ->
       Metering.reading (Routes.counterOf type u) = Js.Num n ->
       exists u',
         users (db (snd (Storage.incrementUsage userId type w))) !! userId = Some u'
         /\ Routes.counterOf type u'
            = Some (Js.toString (Js.add (Js.Num n) (Js.Num 1)))
         /\ (Z.abs (n + 1) <= Js.maxExact ->
             Routes.counterOf type u' = Some (pretty (n + 1))
             /\ Metering.reading (Routes.counterOf type u') = Js.Num (n + 1))
         /\ (forall other, other <> type ->
               Routes.counterOf other u' = Routes.counterOf other u)
         /\ dailyUsageCount u' = dailyUsageCount u
         /\ subscriptionTier u' = subscriptionTier u
         /\ email u' = email u /\ isAdmin u' = isAdmin u
         /\ (forall id, id <> userId ->
               users (db (snd (Storage.incrementUsage userId type w))) !! id
               = users (db w) !! id)
         /\ savedCharacters (db (snd (Storage.incrementUsage userId type w)))
            = savedCharacters (db w))
    /\ (users (db w) !! userId = None ->
        Storage.incrementUsage userId type w = (Ok tt, w))
    /\ Storage.bump (Some "9007199254740992") = Some "9007199254740992".
Proof.
  intros w userId type Hc. split; [|split].
  - intros u n Hu Hn.
    rewrite (incrementUsage_world w userId u type Hc Hu). cbn [snd].
    destruct (charged_fields type u (now w)) as (He & Ha & Ht & Hd & _ & Hb & Ho).
    exists (Metering.charged type u (now w)).
    cbn [snd db users setDb savedCharacters].
    rewrite lookup_insert_eq. split; [reflexivity|].
    split.
    { rewrite Hb. unfold Storage.bump. unfold Metering.reading in Hn.
      rewrite Hn. reflexivity. }
    split.
    { intros Hbound. rewrite Hb. split.
      - apply bump_exact; assumption.
      - apply reading_bump; assumption. }
    split; [exact Ho|].
    repeat (split; [assumption|]).
    split; [|reflexivity].
    intros id Hid. apply lookup_insert_ne. congruence.
  - intros Hu. apply incrementUsage_missing; assumption.
  - vm_compute. reflexivity.
Qed.

(** ** The metered handlers, step by step *)

Section MeteredSteps.
Import Routes Metering.

Lemma checkUsageLimit_total userId w :
  exists r, checkUsageLimit userId w = (Ok r, w).
Proof.
  unfold checkUsageLimit, tryCatch, bind, Storage.getUser, ret.
  destruct (connected (db w)); [|eexists; reflexivity].
  destruct (users (db w) !! userId) as [u|]; [|eexists; reflexivity].
  destruct (hasAdminBypass u); eexists; reflexivity.
Qed.

Lemma checkImageUsageLimit_total userId w :
  exists r, checkImageUsageLimit userId w = (Ok r, w).
Proof.
  unfold checkImageUsageLimit, tryCatch, bind, Storage.getUser, ret.
  destruct (connected (db w)); [|eexists; reflexivity].
  destruct (users (db w) !! userId) as [u|]; [|eexists; reflexivity].
  destruct (hasAdminBypass u); eexists; reflexivity.
Qed.

(** Running the check at the head of a handler. *)
Lemma after_check {A} (check : M World UsageCheck) (k : UsageCheck -> M World A)
    (h : string -> M World A) (w : World) (r : UsageCheck) :
  check w = (Ok r, w) -> tryCatch (bind check k) h w = tryCatch (k r) h w.
Proof. unfold tryCatch, bind. intros ->. reflexivity. Qed.

(** An increment either succeeds or throws without a trace. *)
Lemma incrementUsage_cases userId type w :
  (exists w', Storage.incrementUsage userId type w = (Ok tt, w')
              /\ calls w' = calls w /\ replies w' = replies w)
  \/ (exists msg, Storage.incrementUsage userId type w = (Throw msg, w)).
Proof.
  destruct (connected (db w)) eqn:Hc.
  - left. destruct (users (db w) !! userId) as [u|] eqn:Hu.
    + rewrite (incrementUsage_world w userId u type Hc Hu). eexists.
      split; [reflexivity|]. split; reflexivity.
    + rewrite (incrementUsage_missing w userId type Hc Hu). eauto.
  - right. apply incrementUsage_down. exact Hc.
Qed.

(** A request to the provider leaves the database alone and adds one call. *)
Lemma fetch_frame c w :
  db (snd (fetch c w)) = db w /\ calls (snd (fetch c w)) = (calls w ++ [c])%list.
Proof. unfold create, fetch. destruct (replies w); split; reflexivity. Qed.

End MeteredSteps.

Section MeteredFrames.
Import Routes Metering.

Lemma conversationResponse_settles req w : settles (conversationResponse req w) w.
Proof.
  unfold settles, answer, conversationResponse.
  destruct (sessionUser req) as [userId|]; [|split; [eexists|right]; reflexivity].
  destruct (checkUsageLimit_total userId w) as [r Hr].
  rewrite (after_check _ _ _ w r Hr).
  destruct (canUse r); cbn [negb]; [|split; [eexists|right]; reflexivity].
  unfold tryCatch, bind, create, fetch, throw.
  destruct (replies w) as [|reply rest]; [split; [eexists|right]; reflexivity|].
  destruct reply as [st|url|c pr|b|t];
    try (split; [eexists|right]; reflexivity).
  match goal with
  | |- context [Storage.incrementUsage ?i ?t ?w1] =>
      destruct (incrementUsage_cases i t w1) as [(w' & -> & _)|(msg & ->)]
  end.
  - split; [eexists|left]; reflexivity.
  - split; [eexists|right]; reflexivity.
Qed.

Lemma ttsRoute_settles req w : settles (ttsRoute req w) w.
Proof.
  unfold settles, answer, ttsRoute.
  destruct (sessionUser req) as [userId|]; [|split; [eexists|right]; reflexivity].
  destruct (checkUsageLimit_total userId w) as [r Hr].
  rewrite (after_check _ _ _ w r Hr).
  destruct (canUse r); cbn [negb]; [|split; [eexists|right]; reflexivity].
  unfold tryCatch, bind, create, fetch, throw.
  destruct (replies w) as [|reply rest]; [split; [eexists|right]; reflexivity|].
  destruct reply as [st|url|c pr|b|t];
    try (split; [eexists|right]; reflexivity).
  match goal with
  | |- context [Storage.incrementUsage ?i ?t ?w1] =>
      destruct (incrementUsage_cases i t w1) as [(w' & -> & _)|(msg & ->)]
  end.
  - split; [eexists|left]; reflexivity.
  - split; [eexists|right]; reflexivity.
Qed.

Lemma generateImage_settles req w : settles (generateImage req w) w.
Proof.
  unfold settles, answer, generateImage.
  destruct (sessionUser req) as [userId|]; [|split; [eexists|right]; reflexivity].
  destruct (checkImageUsageLimit_total userId w) as [r Hr].
  rewrite (after_check _ _ _ w r Hr).
  destruct (canUse r); cbn [negb]; [|split; [eexists|right]; reflexivity].
  unfold tryCatch, bind, create, fetch, throw.
  destruct (replies w) as [|reply rest]; [split; [eexists|right]; reflexivity|].
  destruct reply as [st|url|c pr|b|t];
    try (split; [eexists|right]; reflexivity).
  match goal with
  | |- context [Storage.incrementUsage ?i ?t ?w1] =>
      destruct (incrementUsage_cases i t w1) as [(w' & -> & _)|(msg & ->)]
  end.
  - unfold Storage.saveCharacter, ret.
    destruct (connected (db w')); split; try (eexists; reflexivity); left; reflexivity.
  - split; [eexists|right]; reflexivity.
Qed.

(** [generateDialogue] leaves the database alone, and returns only when it
    was given a character. *)
Lemma generateDialogue_frame request w :
  db (snd (Dialogue.generateDialogue request w)) = db w
  /\ (forall r, fst (Dialogue.generateDialogue request w) = Ok r ->
        exists ch, Dialogue.character request = Some ch).
Proof.
  unfold Dialogue.generateDialogue.
  destruct (Dialogue.scenario request) as [sc|]; [|split; [reflexivity|discriminate]].
  destruct (Dialogue.character request) as [ch|]; [|split; [reflexivity|discriminate]].
  destruct (Js.readProp (Dialogue.audience request) Dialogue.audienceLevels);
    [|split; [reflexivity|discriminate]].
  split; [|eauto].
  unfold tryCatch, bind, create, fetch, throw, lift.
  destruct (replies w) as [|reply rest]; [reflexivity|].
  destruct reply as [st|url|c pr|b|t]; try reflexivity.
  destruct (negb (Js.truthy c)); [reflexivity|].
  destruct pr as [result|]; [|reflexivity].
  destruct (Dialogue.validate result); reflexivity.
Qed.

Lemma generateDialogueRoute_settles req w : settles (generateDialogueRoute req w) w.
Proof.
  unfold settles, answer, generateDialogueRoute.
  destruct (sessionUser req) as [userId|]; [|split; [eexists|right]; reflexivity].
  destruct (checkUsageLimit_total userId w) as [r Hr].
  rewrite (after_check _ _ _ w r Hr).
  destruct (canUse r); cbn [negb]; [|split; [eexists|right]; reflexivity].
  unfold tryCatch, bind.
  match goal with
  | |- context [Dialogue.generateDialogue ?q w] =>
      destruct (generateDialogue_frame q w) as [Hdb Hch];
      destruct (Dialogue.generateDialogue q w) as [[dr|msg] w1]
  end; cbn [fst snd] in *; [|split; [eexists; reflexivity|right; exact Hdb]].
  destruct (Hch dr eq_refl) as [ch Hsome]. cbn in Hsome.
  destruct (incrementUsage_cases userId Storage.conversation w1)
    as [(w' & -> & _)|(msg & ->)].
  - rewrite Hsome. split; [eexists|left]; reflexivity.
  - split; [eexists; reflexivity|right; exact Hdb].
Qed.

End MeteredFrames.

(** X2: the four metered endpoints always answer, and they write to the
    database only when they answer 200. Whatever the request, the session
    and the provider do, a response with any other status (401, 429, 500)
    leaves every row of the database as it was: no usage is charged for a
    request that was refused or that failed. *)
Theorem metered_endpoints_charge_only_on_200 :
  forall w : World,
    (forall req, Metering.settles (Routes.generateImage req w) w)
    /\ (forall req, Metering.settles (Routes.generateDialogueRoute req w) w)
    /\ (forall req, Metering.settles (Routes.ttsRoute req w) w)
    /\ (forall req, Metering.settles (Routes.conversationResponse req w) w).
Proof.
  intros w. split; [|split; [|split]]; intros req.
  - apply generateImage_settles.
  - apply generateDialogueRoute_settles.
  - apply ttsRoute_settles.
  - apply conversationResponse_settles.
Qed.

(** ** Requests that are served *)

Section Served.
Import Routes Metering.

Lemma checkUsageLimit_decides w userId u :
  connected (db w) = true -> users (db w) !! userId = Some u ->
  exists r, checkUsageLimit userId w = (Ok r, w) /\ canUse r = conversationAllowed u.
Proof.
  intros Hc Hu.
  unfold checkUsageLimit, tryCatch, bind, Storage.getUser, ret, conversationAllowed.
  rewrite Hc, Hu. destruct (hasAdminBypass u); eexists; split; reflexivity.
Qed.

Lemma checkImageUsageLimit_decides w userId u :
  connected (db w) = true -> users (db w) !! userId = Some u ->
  exists r, checkImageUsageLimit userId w = (Ok r, w) /\ canUse r = imageAllowed u.
Proof.
  intros Hc Hu.
  unfold checkImageUsageLimit, tryCatch, bind, Storage.getUser, ret, imageAllowed.
  rewrite Hc, Hu. destruct (hasAdminBypass u); eexists; split; reflexivity.
Qed.

Lemma conversationResponse_served w userId u b content parsed rest :
  connected (db w) = true -> users (db w) !! userId = Some u ->
  conversationAllowed u = true ->
  replies w = Chat content parsed :: rest ->
  conversationResponse (mkRequest (Some userId) b) w
  = (Ok (mkResponse 200
           (BConversation content (random20 w + 80) "대화가 생성되었습니다!")),
     mkWorld (mkDb (<[userId := charged Storage.conversation u (now w)]> (users (db w)))
                   (savedCharacters (db w)) true)
       (now w) (openaiApiKey w)
       (calls w ++ [ChatCompletions (conversationMessages b)]) rest (random20 w)).
Proof.
  intros Hc Hu Ha Hr.
  destruct (checkUsageLimit_decides w userId u Hc Hu) as (r & Hcheck & Hcan).
  unfold conversationResponse. cbn [sessionUser body].
  rewrite (after_check _ _ _ w r Hcheck), Hcan, Ha. cbn [negb].
  unfold tryCatch, bind, create, fetch. rewrite Hr.
  rewrite (incrementUsage_world _ userId u Storage.conversation); [reflexivity|..];
    assumption.
Qed.

Lemma ttsRoute_served w userId u b audio rest :
  connected (db w) = true -> users (db w) !! userId = Some u ->
  conversationAllowed u = true ->
  replies w = Audio audio :: rest ->
  exists voice speed message,
    ttsRoute (mkRequest (Some userId) b) w
    = (Ok (mkResponse 200 (BAudio ("data:audio/mp3;base64," ++ audio) message)),
       mkWorld (mkDb (<[userId := charged Storage.tts u (now w)]> (users (db w)))
                     (savedCharacters (db w)) true)
         (now w) (openaiApiKey w)
         (calls w ++ [AudioSpeech (tts_text b) voice speed]) rest (random20 w)).
Proof.
  intros Hc Hu Ha Hr.
  destruct (checkUsageLimit_decides w userId u Hc Hu) as (r & Hcheck & Hcan).
  unfold ttsRoute. cbn [sessionUser body].
  rewrite (after_check _ _ _ w r Hcheck), Hcan, Ha. cbn [negb].
  unfold tryCatch, bind, create, fetch. rewrite Hr.
  rewrite (incrementUsage_world _ userId u Storage.tts); [|assumption..].
  eexists _, _, _. reflexivity.
Qed.

Lemma conversationResponse_refused w userId u b :
  connected (db w) = true -> users (db w) !! userId = Some u ->
  conversationAllowed u = false ->
  status (answer (conversationResponse (mkRequest (Some userId) b) w)) = 429
  /\ snd (conversationResponse (mkRequest (Some userId) b) w) = w.
Proof.
  intros Hc Hu Ha.
  destruct (checkUsageLimit_decides w userId u Hc Hu) as (r & Hcheck & Hcan).
  unfold conversationResponse, answer. cbn [sessionUser body].
  rewrite (after_check _ _ _ w r Hcheck), Hcan, Ha. split; reflexivity.
Qed.

Lemma charged_conversation_allowed u t n :
  hasAdminBypass u = false -> reading (conversationCount u) = Js.Num n ->
  Z.abs (n + 1) <= Js.maxExact ->
  hasAdminBypass (charged Storage.conversation u t) = false
  /\ reading (conversationCount (charged Storage.conversation u t)) = Js.Num (n + 1)
  /\ conversationLimit (charged Storage.conversation u t) = conversationLimit u.
Proof.
  intros Ha Hn Hbound.
  destruct (charged_fields Storage.conversation u t) as (He & Hi & Ht & _ & _ & Hb & _).
  split; [|split].
  - unfold hasAdminBypass in *. rewrite He, Hi. exact Ha.
  - cbn [counterOf] in Hb. rewrite Hb. apply reading_bump; assumption.
  - unfold conversationLimit. rewrite Ht. reflexivity.
Qed.

(** The limits of the tables are small numbers. *)
Lemma conversationLimit_bound tier l :
  limitOr conversationLimits tier 30 = Js.Own l -> 0 < l <= 5000.
Proof.
  unfold limitOr, Js.readProp, conversationLimits, Js.assoc.
  repeat match goal with
         | |- context [String.eqb tier ?k] =>
             destruct (String.eqb tier k); [cbn; intros [= <-]; lia|]
         end.
  destruct (Js.inheritedOf tier); [discriminate|]. intros [= <-]. lia.
Qed.

Lemma imageLimit_bound tier l :
  limitOr imageLimits tier 1 = Js.Own l -> 0 < l <= 60.
Proof.
  unfold limitOr, Js.readProp, imageLimits, Js.assoc.
  repeat match goal with
         | |- context [String.eqb tier ?k] =>
             destruct (String.eqb tier k); [cbn; intros [= <-]; lia|]
         end.
  destruct (Js.inheritedOf tier); [discriminate|]. intros [= <-]. lia.
Qed.

Lemma small_is_exact (n : Z) : 0 <= n -> n <= 5000 -> Z.abs n <= Js.maxExact.
Proof. intros H1 H2. unfold Js.maxExact. cbn. lia. Qed.

Lemma charged_tts_allowed u t :
  conversationAllowed (charged Storage.tts u t) = conversationAllowed u.
Proof.
  destruct (charged_fields Storage.tts u t) as (He & Hi & Ht & _ & _ & _ & Ho).
  pose proof (Ho Storage.conversation ltac:(discriminate)) as Hconv.
  cbn [counterOf] in Hconv.
  unfold conversationAllowed, conversationLimit, hasAdminBypass.
  rewrite He, Hi, Ht, Hconv. reflexivity.
Qed.

End Served.

(** X3: the conversation quota is exactly the limit of the tier. A user
    without the administrative bypass, whose tier has a number [l] for its
    limit (every tier but the names the table inherits), and whose counter
    reads a number [n] that is not negative, sends a series of
    conversation requests that the provider answers; as long as the
    series fits under the limit every request is answered 200 and charged,
    so the counter reads [n] plus the number of requests afterwards. Once
    the counter has reached the limit the next request is answered 429 and
    changes nothing. *)
Theorem conversation_quota_is_the_limit :
  forall (bodies : list Routes.ConversationBody)
         (answers : list (option string * option Js.json))
         (w : World) (userId : string) (u : User) (n l : Z) (rest : list Reply),
    connected (db w) = true ->
    users (db w) !! userId = Some u ->
    Routes.hasAdminBypass u = false ->
    Metering.conversationLimit u = Js.Own l ->
    Metering.reading (conversationCount u) = Js.Num n ->
    0 <= n ->
    length answers = length bodies ->
    replies w = (map Metering.chat answers ++ rest)%list ->
    n + Z.of_nat (length bodies) <= l ->
    Forall (fun r => Routes.status r = 200)
      (fst (Metering.handleAll Routes.conversationResponse
              (map (Routes.mkRequest (Some userId)) bodies) w))
    /\ exists u',
         users (db (snd (Metering.handleAll Routes.conversationResponse
                           (map (Routes.mkRequest (Some userId)) bodies) w)))
           !! userId = Some u'
         /\ Metering.reading (conversationCount u')
            = Js.Num (n + Z.of_nat (length bodies))
         /\ (n + Z.of_nat (length bodies) = l ->
             forall b,
               Routes.status
                 (Metering.answer
                    (Routes.conversationResponse (Routes.mkRequest (Some userId) b)
                       (snd (Metering.handleAll Routes.conversationResponse
                               (map (Routes.mkRequest (Some userId)) bodies) w))))
               = 429
               /\ snd (Routes.conversationResponse (Routes.mkRequest (Some userId) b)
                         (snd (Metering.handleAll Routes.conversationResponse
                                 (map (Routes.mkRequest (Some userId)) bodies) w)))
                  = snd (Metering.handleAll Routes.conversationResponse
                           (map (Routes.mkRequest (Some userId)) bodies) w)).
Proof.
  induction bodies as [|b bodies IH];
    intros answers w userId u n l rest Hc Hu Ha Hl Hn Hpos Hlen Hr Hfit.
  - cbn. split; [constructor|]. exists u. split; [exact Hu|].
    rewrite Z.add_0_r. split; [exact Hn|]. intros Hfull b.
    apply (conversationResponse_refused w userId u b Hc Hu).
    unfold Metering.conversationAllowed. rewrite Ha, Hn, Hl. cbn.
    apply Z.ltb_ge. cbn in Hfull. lia.
  - destruct answers as [|[content parsed] answers]; [discriminate|].
    cbn [map app] in Hr. unfold Metering.chat at 1 in Hr. cbn [fst snd] in Hr.
    assert (Hallowed : Metering.conversationAllowed u = true).
    { unfold Metering.conversationAllowed. rewrite Ha, Hn, Hl. cbn.
      apply Z.ltb_lt. cbn [length] in Hfit. lia. }
    cbn [map Metering.handleAll].
    rewrite (conversationResponse_served w userId u b content parsed _ Hc Hu Hallowed Hr).
    cbn [fst snd Metering.answer].
    assert (Hbound : Z.abs (n + 1) <= Js.maxExact).
    { pose proof (conversationLimit_bound _ _ Hl) as Hlim.
      apply small_is_exact; cbn [length] in Hfit; lia. }
    destruct (charged_conversation_allowed u (now w) n Ha Hn Hbound)
      as (Ha' & Hn' & Hl').
    match goal with
    | |- context [Metering.handleAll _ _ ?w1] =>
        destruct (IH answers w1 userId
                    (Metering.charged Storage.conversation u (now w)) (n + 1) l rest)
          as (Hall & u' & Hu' & Hread & Hfull)
    end.
    + reflexivity.
    + cbn. apply lookup_insert_eq.
    + exact Ha'.
    + rewrite Hl'. exact Hl.
    + exact Hn'.
    + lia.
    + cbn [length] in Hlen. lia.
    + reflexivity.
    + cbn [length] in Hfit. lia.
    + split; [constructor; [reflexivity|exact Hall]|].
      exists u'. split; [exact Hu'|].
      replace (n + Z.of_nat (length (b :: bodies)))
        with (n + 1 + Z.of_nat (length bodies)) by (cbn [length]; lia).
      split; [exact Hread|]. exact Hfull.
Qed.

(** X4: the speech endpoint is never exhausted by its own use. Its check
    reads the conversation counter and a served request charges the tts
    counter, so a user the check allows is allowed again after any number
    of served tts requests: every request of a series the provider answers
    is answered 200, and the decision of the check is what it was. *)
Theorem tts_is_not_limited_by_its_own_use :
  forall (bodies : list Routes.TtsBody) (audios : list string)
         (w : World) (userId : string) (u : User) (rest : list Reply),
    connected (db w) = true ->
    users (db w) !! userId = Some u ->
    Metering.conversationAllowed u = true ->
    length audios = length bodies ->
    replies w = (map Audio audios ++ rest)%list ->
    Forall (fun r => Routes.status r = 200)
      (fst (Metering.handleAll Routes.ttsRoute
              (map (Routes.mkRequest (Some userId)) bodies) w))
    /\ exists u',
         users (db (snd (Metering.handleAll Routes.ttsRoute
                           (map (Routes.mkRequest (Some userId)) bodies) w)))
           !! userId = Some u'
         /\ Metering.conversationAllowed u' = true
         /\ conversationCount u' = conversationCount u.
Proof.
  induction bodies as [|b bodies IH];
    intros audios w userId u rest Hc Hu Ha Hlen Hr.
  - cbn. split; [constructor|]. exists u. auto.
  - destruct audios as [|audio audios]; [discriminate|].
    cbn [map app] in Hr.
    cbn [map Metering.handleAll].
    destruct (ttsRoute_served w userId u b audio _ Hc Hu Ha Hr)
      as (voice & speed & message & ->).
    cbn [fst snd Metering.answer].
    destruct (charged_fields Storage.tts u (now w)) as (_ & _ & _ & _ & _ & _ & Ho).
    pose proof (Ho Storage.conversation ltac:(discriminate)) as Hconv.
    cbn [Routes.counterOf] in Hconv.
    match goal with
    | |- context [Metering.handleAll _ _ ?w1] =>
        destruct (IH audios w1 userId (Metering.charged Storage.tts u (now w)) rest)
          as (Hall & u' & Hu' & Ha' & Hcount)
    end.
    + reflexivity.
    + cbn. apply lookup_insert_eq.
    + rewrite charged_tts_allowed. exact Ha.
    + cbn [length] in Hlen. lia.
    + reflexivity.
    + split; [constructor; [reflexivity|exact Hall]|].
      exists u'. split; [exact Hu'|]. split; [exact Ha'|]. congruence.
Qed.

(** ** Image generation, the administrator's reset and the daily counter *)

Section ImagesAndResets.
Import Routes Metering.

Lemma generateImage_served w userId u b url rest :
  connected (db w) = true -> users (db w) !! userId = Some u ->
  imageAllowed u = true ->
  replies w = Image url :: rest ->
  generateImage (mkRequest (Some userId) b) w
  = (Ok (mkResponse 200
           (BImage url (gi_name b) (gi_gender b) (gi_style b)
              "캐릭터 이미지가 생성되고 저장되었습니다!")),
     mkWorld
       (mkDb (<[userId := charged Storage.imageGeneration u (now w)]> (users (db w)))
             (savedCharacters (db w)
              ++ [mkSavedCharacter userId (gi_name b) (gi_gender b) (gi_style b) url
                    (gi_audience b)
                    (if Js.truthy (gi_scenario b) then gi_scenario b else None)
                    (gi_backgroundPrompt b)])
             true)
       (now w) (openaiApiKey w) (calls w ++ [ImagesGenerations b]) rest (random20 w)).
Proof.
  intros Hc Hu Ha Hr.
  destruct (checkImageUsageLimit_decides w userId u Hc Hu) as (r & Hcheck & Hcan).
  unfold generateImage. cbn [sessionUser body].
  rewrite (after_check _ _ _ w r Hcheck), Hcan, Ha. cbn [negb].
  unfold tryCatch, bind, create, fetch. rewrite Hr.
  rewrite (incrementUsage_world _ userId u Storage.imageGeneration); [reflexivity|..];
    assumption.
Qed.

Lemma generateImage_refused w userId u b :
  connected (db w) = true -> users (db w) !! userId = Some u ->
  imageAllowed u = false ->
  status (answer (generateImage (mkRequest (Some userId) b) w)) = 429
  /\ snd (generateImage (mkRequest (Some userId) b) w) = w.
Proof.
  intros Hc Hu Ha.
  destruct (checkImageUsageLimit_decides w userId u Hc Hu) as (r & Hcheck & Hcan).
  unfold generateImage, answer. cbn [sessionUser body].
  rewrite (after_check _ _ _ w r Hcheck), Hcan, Ha. split; reflexivity.
Qed.

Lemma adminResetUsage_world w id u :
  connected (db w) = true -> users (db w) !! id = Some u ->
  adminResetUsage id w
  = (Ok (mkResponse 200 (BUser (Some (resetAll u (now w))))),
     setDb (mkDb (<[id := resetAll u (now w)]> (users (db w)))
                 (savedCharacters (db w)) true) w).
Proof.
  intros Hc Hu.
  unfold adminResetUsage, Storage.resetUserUsage, Storage.updateUsers,
    tryCatch, bind, json, ret, newDate.
  rewrite Hc, Hu. reflexivity.
Qed.

Lemma incrementUsageRoute_world w userId u :
  connected (db w) = true -> users (db w) !! userId = Some u ->
  incrementUsageRoute (mkRequest (Some userId) tt) w
  = (Ok (mkResponse 200
           (BIncrement true (Js.add (reading (dailyUsageCount u)) (Js.Num 1)))),
     setDb (mkDb (<[userId := dailyCharged u (now w)]> (users (db w)))
                 (savedCharacters (db w)) true) w).
Proof.
  intros Hc Hu.
  unfold incrementUsageRoute, Storage.updateUserSubscription, Storage.updateUsers,
    tryCatch, bind, Storage.getUser, json, ret, newDate.
  cbn [sessionUser]. rewrite Hc, Hu. cbn beta. rewrite Hc, Hu. reflexivity.
Qed.

End ImagesAndResets.

(** X5: a served image request charges one image and saves the character.
    The user has no administrative bypass, a tier with a number [l] for
    its image limit (every tier but the names the table inherits) and an
    image counter that reads a number [n], not negative and below [l].
    When the provider returns an image, the endpoint answers 200 with the
    url, has sent one image request, the image counter reads one more,
    and one row is appended to the saved characters, with the user as
    owner, the fields of the request and the url. If that image used up
    the limit (a free user's first image), the next request is answered
    429 and changes nothing. *)
Theorem image_request_charges_and_saves :
  forall (w : World) (userId : string) (u : User) (b : GenerateImageBody)
         (url : string) (rest : list Reply) (n l : Z),
    connected (db w) = true ->
    users (db w) !! userId = Some u ->
    Routes.hasAdminBypass u = false ->
    Metering.imageLimit u = Js.Own l ->
    Metering.reading (imageGenerationCount u) = Js.Num n ->
    0 <= n ->
    n < l ->
    replies w = Image url :: rest ->
    exists (r : Routes.Response) (w' : World) (u' : User),
      Routes.generateImage (Routes.mkRequest (Some userId) b) w = (Ok r, w')
      /\ Routes.status r = 200
      /\ Routes.payload r
         = Routes.BImage url (gi_name b) (gi_gender b) (gi_style b)
             "캐릭터 이미지가 생성되고 저장되었습니다!"
      /\ calls w' = (calls w ++ [ImagesGenerations b])%list
      /\ users (db w') !! userId = Some u'
      /\ Metering.reading (imageGenerationCount u') = Js.Num (n + 1)
      /\ conversationCount u' = conversationCount u
      /\ ttsUsageCount u' = ttsUsageCount u
      /\ savedCharacters (db w')
         = (savedCharacters (db w)
            ++ [mkSavedCharacter userId (gi_name b) (gi_gender b) (gi_style b) url
                  (gi_audience b)
                  (if Js.truthy (gi_scenario b) then gi_scenario b else None)
                  (gi_backgroundPrompt b)])%list
      /\ (n + 1 = l ->
          forall b',
            Routes.status
              (Metering.answer
                 (Routes.generateImage (Routes.mkRequest (Some userId) b') w')) = 429
            /\ snd (Routes.generateImage (Routes.mkRequest (Some userId) b') w') = w').
Proof.
  intros w userId u b url rest n l Hc Hu Ha Hl Hn Hpos Hlt Hr.
  assert (Hallowed : Metering.imageAllowed u = true).
  { unfold Metering.imageAllowed. rewrite Ha, Hn, Hl. cbn. apply Z.ltb_lt. exact Hlt. }
  destruct (charged_fields Storage.imageGeneration u (now w))
    as (He & Hi & Ht & _ & _ & Hb & Ho).
  cbn [Routes.counterOf] in Hb.
  assert (Hbound : Z.abs (n + 1) <= Js.maxExact).
  { pose proof (imageLimit_bound _ _ Hl) as Hlim. apply small_is_exact; lia. }
  assert (Hread : Metering.reading
                    (imageGenerationCount
                       (Metering.charged Storage.imageGeneration u (now w)))
                  = Js.Num (n + 1)).
  { rewrite Hb. apply reading_bump; assumption. }
  eexists _, _, (Metering.charged Storage.imageGeneration u (now w)).
  split; [apply (generateImage_served w userId u b url rest Hc Hu Hallowed Hr)|].
  cbn [Routes.status Routes.payload calls db users savedCharacters].
  split; [reflexivity|]. split; [reflexivity|]. split; [reflexivity|].
  split; [apply lookup_insert_eq|]. split; [exact Hread|].
  split; [exact (Ho Storage.conversation ltac:(discriminate))|].
  split; [exact (Ho Storage.tts ltac:(discriminate))|].
  split; [reflexivity|].
  intros Hfull b'. apply (generateImage_refused _ userId
                            (Metering.charged Storage.imageGeneration u (now w)) b').
  - reflexivity.
  - cbn. apply lookup_insert_eq.
  - unfold Metering.imageAllowed, Metering.imageLimit, Routes.hasAdminBypass in *.
    rewrite He, Hi, Ht, Ha, Hread, Hl. cbn. apply Z.ltb_ge. lia.
Qed.

(** X6: the administrator's reset reopens both quotas. After
    [resetUserUsage] on a user that is found, the three counters and the
    daily counter hold 0, the time of the last reset is the time of the
    call, and both quota checks allow the user, whatever the tier as long
    as it is not a name the tables inherit: every such tier, known or
    not, has a positive limit. *)
Theorem admin_reset_reopens_quotas :
  forall (w : World) (id : string) (u : User),
    connected (db w) = true ->
    users (db w) !! id = Some u ->
    Metering.plainTier u ->
    exists (u' : User) (r ri : Routes.UsageCheck),
      users (db (snd (Routes.adminResetUsage id w))) !! id = Some u'
      /\ conversationCount u' = Some "0"
      /\ imageGenerationCount u' = Some "0"
      /\ ttsUsageCount u' = Some "0"
      /\ dailyUsageCount u' = Some "0"
      /\ lastUsageReset u' = Some (now w)
      /\ subscriptionTier u' = subscriptionTier u
      /\ fst (Routes.checkUsageLimit id (snd (Routes.adminResetUsage id w))) = Ok r
      /\ Routes.canUse r = true
      /\ fst (Routes.checkImageUsageLimit id (snd (Routes.adminResetUsage id w))) = Ok ri
      /\ Routes.canUse ri = true.
Proof.
  intros w id u Hc Hu Hplain.
  rewrite (adminResetUsage_world w id u Hc Hu). cbn [snd].
  set (w1 := setDb _ w).
  assert (Hc1 : connected (db w1) = true) by reflexivity.
  assert (Hu1 : users (db w1) !! id = Some (Metering.resetAll u (now w))).
  { subst w1. cbn. apply lookup_insert_eq. }
  destruct (checkUsageLimit_decides w1 id _ Hc1 Hu1) as (r & Hr & Hcan).
  destruct (checkImageUsageLimit_decides w1 id _ Hc1 Hu1) as (ri & Hri & Hcani).
  exists (Metering.resetAll u (now w)), r, ri.
  split; [exact Hu1|].
  destruct (resetAll_fields u (now w)) as (F1 & F2 & F3 & F4 & _ & F5 & _ & F6 & _).
  repeat (split; [assumption|]).
  split; [rewrite Hr; reflexivity|].
  destruct (limitOr_plain Routes.conversationLimits _ 30 Hplain) as [l Hl].
  destruct (limitOr_plain Routes.imageLimits _ 1 Hplain) as [li Hli].
  pose proof (conversationLimit_bound _ _ Hl) as Hpos.
  pose proof (imageLimit_bound _ _ Hli) as Hposi.
  split.
  - rewrite Hcan. unfold Metering.conversationAllowed, Metering.reading,
      Metering.conversationLimit.
    rewrite F1, F6, Hl. destruct (Routes.hasAdminBypass _); [reflexivity|].
    change (Js.parseInt (Js.orStr (Some "0") "0")) with (Js.Num 0).
    cbn [orb Js.ltEntry Js.lt]. apply Z.ltb_lt. lia.
  - split; [rewrite Hri; reflexivity|].
    rewrite Hcani. unfold Metering.imageAllowed, Metering.reading,
      Metering.imageLimit.
    rewrite F2, F6, Hli. destruct (Routes.hasAdminBypass _); [reflexivity|].
    change (Js.parseInt (Js.orStr (Some "0") "0")) with (Js.Num 0).
    cbn [orb Js.ltEntry Js.lt]. apply Z.ltb_lt. lia.
Qed.

(** X7: what POST /api/increment-usage reports is what POST /api/check-usage
    reads next. For a user whose daily counter reads [n], with [n + 1] no
    more than 2^53, the increment answers [newUsage = n + 1]; a
    check-usage call after it, at a time when no reset is due, reports
    [currentUsage = n + 1] against the limit of the tier as the handler
    reads it, which is a number unless the tier is a name the table
    inherits, and changes nothing. *)
Theorem daily_counter_round_trip :
  forall (w : World) (userId : string) (u : User) (n t : Z),
    connected (db w) = true ->
    users (db w) !! userId = Some u ->
    Metering.reading (dailyUsageCount u) = Js.Num n ->
    Z.abs (n + 1) <= Js.maxExact ->
    (t - Routes.lastResetAt u t) / Routes.msPerDay < 30 ->
    let limit := Routes.conversations (Routes.reportLimit (subscriptionTier u)) in
    fst (Routes.incrementUsageRoute (Routes.mkRequest (Some userId) tt) w)
      = Ok (Routes.mkResponse 200 (Routes.BIncrement true (Js.Num (n + 1))))
    /\ (exists d,
          Routes.checkUsage (Routes.mkRequest (Some userId) tt)
            (setNow t (snd (Routes.incrementUsageRoute
                              (Routes.mkRequest (Some userId) tt) w)))
          = (Ok (Routes.mkResponse 200
                   (Routes.BUsage (Routes.below (Js.Num (n + 1)) limit)
                      (Js.Num (n + 1)) limit (subscriptionTier u) d)),
             setNow t (snd (Routes.incrementUsageRoute
                              (Routes.mkRequest (Some userId) tt) w))))
    /\ (forall l, limit = Some l ->
                  Routes.below (Js.Num (n + 1)) limit = (n + 1 <? l))
    /\ (Js.inheritedOf (Js.orStr (subscriptionTier u) "free") = None ->
        exists l, limit = Some l).
Proof.
  intros w userId u n t Hc Hu Hn Hbound Hdue limit. subst limit.
  rewrite (incrementUsageRoute_world w userId u Hc Hu). cbn [fst snd].
  split; [rewrite Hn; cbn [Js.add]; rewrite (nearest_exact _ Hbound); reflexivity|].
  assert (Hrow : dailyUsageCount (Metering.dailyCharged u (now w))
                 = Storage.bump (dailyUsageCount u)
                 /\ lastUsageReset (Metering.dailyCharged u (now w)) = lastUsageReset u
                 /\ subscriptionTier (Metering.dailyCharged u (now w))
                    = subscriptionTier u).
  { destruct u; cbn. auto. }
  destruct Hrow as (Hd & Hl & Ht).
  split; [|split].
  - eexists.
    rewrite (checkUsage_no_reset _ userId (Metering.dailyCharged u (now w))).
    + rewrite Hd, Ht.
      change (Js.parseInt (Js.orStr (Storage.bump (dailyUsageCount u)) "0"))
        with (Metering.reading (Storage.bump (dailyUsageCount u))).
      rewrite (reading_bump _ n Hn Hbound). reflexivity.
    + reflexivity.
    + cbn. apply lookup_insert_eq.
    + unfold Routes.lastResetAt in *. rewrite Hl. exact Hdue.
  - intros l ->. reflexivity.
  - intros Hplain. unfold Routes.reportLimit.
    destruct (subscriptionTier u) as [tier|]; [|eexists; reflexivity].
    assert (Hkey : Js.inheritedOf tier = None).
    { unfold Js.orStr in Hplain.
      destruct (String.eqb_spec tier "") as [->|_]; [reflexivity|exact Hplain]. }
    rewrite (readProp_plain _ _ Hkey).
    destruct (Js.assoc tier Routes.reportLimits); eexists; reflexivity.
Qed.

Lemma incrementUsage_adds_one_witness :
  exists u',
    users (db (snd (Storage.incrementUsage "u1" Storage.conversation Samples.atLimit)))
      !! "u1" = Some u'
    /\ Metering.reading (conversationCount u') = Js.Num 31.
Proof.
  destruct (incrementUsage_adds_one Samples.atLimit "u1" Storage.conversation
              ltac:(reflexivity)) as [H _].
  destruct (H (Samples.user "free" "30" "0" "0" "0" 0) 30
              ltac:(vm_compute; reflexivity) ltac:(vm_compute; reflexivity))
    as (u' & Hu' & _ & Hread & _).
  exists u'. split; [exact Hu'|]. apply Hread. vm_compute. discriminate.
Defined.

Lemma conversation_quota_is_the_limit_witness :
  Forall (fun r => Routes.status r = 200)
    (fst (Metering.handleAll Routes.conversationResponse
            (map (Routes.mkRequest (Some "u1")) [Cases.hello "こんにちは"; Cases.hello "はい"])
            (Samples.fresh [Chat (Some "どうぞ") None; Chat (Some "ええ") None]))).
Proof.
  destruct (conversation_quota_is_the_limit
              [Cases.hello "こんにちは"; Cases.hello "はい"]
              [(Some "どうぞ", None); (Some "ええ", None)]
              (Samples.fresh [Chat (Some "どうぞ") None; Chat (Some "ええ") None])
              "u1" Cases.newcomer 0 30 []
              ltac:(reflexivity) ltac:(vm_compute; reflexivity) ltac:(reflexivity)
              ltac:(reflexivity) ltac:(vm_compute; reflexivity) ltac:(lia)
              ltac:(reflexivity) ltac:(reflexivity)
              ltac:(vm_compute; discriminate)) as [H _].
  exact H.
Defined.

Lemma tts_is_not_limited_by_its_own_use_witness :
  Forall (fun r => Routes.status r = 200)
    (fst (Metering.handleAll Routes.ttsRoute
            (map (Routes.mkRequest (Some "u1")) [Samples.line; Samples.line])
            (Samples.fresh [Audio "SUQz"; Audio "SUQz"]))).
Proof.
  destruct (tts_is_not_limited_by_its_own_use
              [Samples.line; Samples.line] ["SUQz"; "SUQz"]
              (Samples.fresh [Audio "SUQz"; Audio "SUQz"])
              "u1" Cases.newcomer []
              ltac:(reflexivity) ltac:(vm_compute; reflexivity)
              ltac:(vm_compute; reflexivity) ltac:(reflexivity) ltac:(reflexivity))
    as [H _].
  exact H.
Defined.

Lemma image_request_charges_and_saves_witness :
  exists r w',
    Routes.generateImage (Routes.mkRequest (Some "u1") Cases.portrait)
      (Samples.fresh [Image "https://images.example/yuki.png"]) = (Ok r, w')
    /\ Routes.status r = 200
    /\ Routes.status
         (Metering.answer
            (Routes.generateImage (Routes.mkRequest (Some "u1") Cases.portrait) w'))
       = 429.
Proof.
  destruct (image_request_charges_and_saves
              (Samples.fresh [Image "https://images.example/yuki.png"])
              "u1" Cases.newcomer Cases.portrait "https://images.example/yuki.png" [] 0 1
              ltac:(reflexivity) ltac:(vm_compute; reflexivity) ltac:(reflexivity)
              ltac:(reflexivity) ltac:(vm_compute; reflexivity) ltac:(lia) ltac:(lia)
              ltac:(reflexivity))
    as (r & w' & u' & Hrun & Hst & _ & _ & _ & _ & _ & _ & _ & Hfull).
  exists r, w'. split; [exact Hrun|]. split; [exact Hst|].
  apply (Hfull ltac:(reflexivity) Cases.portrait).
Defined.

Lemma admin_reset_reopens_quotas_witness :
  exists r,
    fst (Routes.checkUsageLimit "u1" (snd (Routes.adminResetUsage "u1" Samples.afterAMonth)))
      = Ok r
    /\ Routes.canUse r = true.
Proof.
  destruct (admin_reset_reopens_quotas Samples.afterAMonth "u1" Samples.exhausted
              ltac:(reflexivity) ltac:(vm_compute; reflexivity) ltac:(reflexivity))
    as (u' & r & ri & _ & _ & _ & _ & _ & _ & _ & Hr & Hcan & _).
  exists r. split; [exact Hr|exact Hcan].
Defined.

Lemma daily_counter_round_trip_witness :
  fst (Routes.incrementUsageRoute (Routes.mkRequest (Some "u1") tt) Samples.proWorld)
  = Ok (Routes.mkResponse 200 (Routes.BIncrement true (Js.Num 701))).
Proof.
  destruct (daily_counter_round_trip Samples.proWorld "u1" Samples.proUser 700
              (2 * Samples.day)
              ltac:(reflexivity) ltac:(vm_compute; reflexivity)
              ltac:(vm_compute; reflexivity) ltac:(vm_compute; discriminate)
              ltac:(vm_compute; reflexivity))
    as [H _].
  exact H.
Defined.

(** ** Prices *)

(** X8: the two price tables agree on which tiers can be bought. A tier
    has a Paddle price id exactly when its price is positive, which is the
    case exactly for starter, pro and premium; any other tier, free
    included, costs 0 and makes [getPaddlePriceId] throw. Different paid
    tiers have different price ids. *)
Theorem paid_tiers_have_a_price_and_an_id :
  forall tier : string,
    ((exists id, Billing.getPaddlePriceId tier = Ok id) <-> 0 < Billing.getTierPrice tier)
    /\ (0 < Billing.getTierPrice tier
        <-> tier = "starter" \/ tier = "pro" \/ tier = "premium")
    /\ (Billing.getTierPrice tier = 0
        -> Billing.getPaddlePriceId tier = Throw ("Invalid tier: " ++ tier))
    /\ (forall tier' id,
          Billing.getPaddlePriceId tier = Ok id ->
          Billing.getPaddlePriceId tier' = Ok id -> tier = tier').
Proof.
  intros tier. unfold Billing.getPaddlePriceId, Billing.getTierPrice.
  destruct (String.eqb_spec tier "starter") as [->|H1].
  { repeat split; try (intros; lia); eauto.
    intros tier' id [= <-].
    destruct (String.eqb_spec tier' "starter") as [->|_]; [reflexivity|].
    destruct (String.eqb tier' "pro"); [discriminate|].
    destruct (String.eqb tier' "premium"); discriminate. }
  destruct (String.eqb_spec tier "pro") as [->|H2].
  { repeat split; try (intros; lia); eauto.
    intros tier' id [= <-].
    destruct (String.eqb tier' "starter"); [discriminate|].
    destruct (String.eqb_spec tier' "pro") as [->|_]; [reflexivity|].
    destruct (String.eqb tier' "premium"); discriminate. }
  destruct (String.eqb_spec tier "premium") as [->|H3].
  { repeat split; try (intros; lia); eauto.
    intros tier' id [= <-].
    destruct (String.eqb tier' "starter"); [discriminate|].
    destruct (String.eqb tier' "pro"); [discriminate|].
    destruct (String.eqb_spec tier' "premium") as [->|_]; [reflexivity|discriminate]. }
  repeat split; try (intros; lia); try discriminate.
  - intros [id H]. discriminate.
  - intros [H|[H|H]]; congruence.
Qed.

Lemma paid_tiers_have_a_price_and_an_id_witness :
  Billing.getPaddlePriceId "free" = Throw "Invalid tier: free".
Proof.
  destruct (paid_tiers_have_a_price_and_an_id "free") as (_ & _ & H & _).
  apply H. reflexivity.
Defined.

(** ** The JSON middleware *)

Section JsonMiddleware.
Import Middleware.

Lemma boxed_starts stringify s : String.prefix "{" (boxed stringify s) = true.
Proof. reflexivity. Qed.

End JsonMiddleware.

(** X9: what [ensureJsonResponse] lets through. For a request whose path
    starts with /api, every string that reaches the original [send] starts
    with an opening brace or bracket: a string that does is passed on
    unchanged, any other string is boxed as the message of an object.
    Sending is idempotent, payloads that are not strings are never
    touched, and for any other path nothing is touched. *)
Theorem ensureJsonResponse_sends_json :
  forall (stringify : string -> string) (path : string) (data : Middleware.Payload),
    (path <> "" -> String.prefix "/api" path = true ->
       (forall s, Middleware.send stringify (Some path) data = Middleware.Text s ->
                  String.prefix "{" s = true \/ String.prefix "[" s = true)
       /\ (forall s, data = Middleware.Text s ->
                     String.prefix "{" s = true \/ String.prefix "[" s = true ->
                     Middleware.send stringify (Some path) data = data)
       /\ (forall s, data = Middleware.Text s ->
                     String.prefix "{" s = false -> String.prefix "[" s = false ->
                     Middleware.send stringify (Some path) data
                     = Middleware.Text (Middleware.boxed stringify s)))
    /\ Middleware.send stringify (Some path)
         (Middleware.send stringify (Some path) data)
       = Middleware.send stringify (Some path) data
    /\ (forall b, Middleware.send stringify (Some path) (Middleware.Binary b)
                  = Middleware.Binary b)
    /\ (String.prefix "/api" path = false ->
        Middleware.send stringify (Some path) data = data)
    /\ Middleware.send stringify None data = data.
Proof.
  intros stringify path data. unfold Middleware.send.
  split; [|split; [|split; [|split]]].
  - intros Hne Hapi. rewrite Hapi.
    destruct (String.eqb_spec path "") as [->|_]; [congruence|]. cbn [negb andb].
    split; [|split].
    + intros s. destruct data as [s0|b]; [|discriminate].
      destruct (String.prefix "{" s0) eqn:E1; cbn [negb andb].
      * intros [= <-]. left. exact E1.
      * destruct (String.prefix "[" s0) eqn:E2; cbn [negb].
        -- intros [= <-]. right. exact E2.
        -- intros [= <-]. left. apply boxed_starts.
    + intros s -> [H|H]; rewrite H; cbn; [reflexivity|].
      destruct (String.prefix "{" s); reflexivity.
    + intros s -> H1 H2. rewrite H1, H2. reflexivity.
  - destruct (negb (String.eqb path "") && String.prefix "/api" path); [|reflexivity].
    destruct data as [s|b]; [|reflexivity].
    destruct (String.prefix "{" s) eqn:E1; cbn [negb andb].
    + rewrite E1. reflexivity.
    + destruct (String.prefix "[" s) eqn:E2; cbn [negb].
      * rewrite E1, E2. reflexivity.
      * rewrite boxed_starts. reflexivity.
  - intros b. destruct (negb (String.eqb path "") && String.prefix "/api" path);
      reflexivity.
  - intros H. rewrite H. rewrite andb_false_r. reflexivity.
  - reflexivity.
Qed.

Lemma ensureJsonResponse_sends_json_witness :
  Middleware.send (fun t => Middleware.quote ++ t ++ Middleware.quote)
    (Some "/api/login") (Middleware.Text "Unauthorized")
  = Middleware.Text
      (Middleware.boxed (fun t => Middleware.quote ++ t ++ Middleware.quote)
         "Unauthorized").
Proof.
  destruct (ensureJsonResponse_sends_json
              (fun t => Middleware.quote ++ t ++ Middleware.quote)
              "/api/login" (Middleware.Text "Unauthorized")) as [H _].
  destruct (H ltac:(discriminate) ltac:(reflexivity)) as (_ & _ & H3).
  apply (H3 "Unauthorized"); reflexivity.
Defined.

(** ** The speech service *)

Section SpeechService.
Import Speech.

Lemma existsb_includes (text : string) (l : list string) :
  existsb (fun hall => Js.includes text hall) l = false ->
  forall h, In h l -> Js.includes text h = false.
Proof.
  induction l as [|x l IH]; intros H h Hin; [destruct Hin|].
  cbn in H. apply orb_false_iff in H as [Hx Hl].
  destruct Hin as [<-|Hin]; [exact Hx|apply IH; assumption].
Qed.

Lemma isHallucination_false text :
  isHallucination text = false ->
  text <> ""
  /\ (2 <= Js.utf16Length text)%nat
  /\ (forall h, In h commonHallucinations -> Js.includes text h = false)
  /\ Js.matchesClassPlus fillerClass text = false.
Proof.
  unfold isHallucination. intros H.
  apply orb_false_iff in H as [H Hclass].
  apply orb_false_iff in H as [H Hphrase].
  apply orb_false_iff in H as [Hempty Hlen].
  split; [|split; [|split]].
  - intros ->. discriminate.
  - apply Nat.ltb_ge in Hlen. exact Hlen.
  - apply existsb_includes. exact Hphrase.
  - exact Hclass.
Qed.

Lemma isHallucination_phrase text h :
  In h commonHallucinations -> Js.includes text h = true -> isHallucination text = true.
Proof.
  intros Hin Hinc. unfold isHallucination.
  assert (E : existsb (fun hall => Js.includes text hall) commonHallucinations = true).
  { apply existsb_exists. exists h. split; assumption. }
  rewrite E. rewrite orb_true_r. reflexivity.
Qed.

(** What [recognizeSpeech] returns comes from the transcription on the tape
    and has passed the filter. *)
Lemma recognizeSpeech_ok decode files request w r :
  fst (recognizeSpeech decode files request w) = Ok r ->
  exists text rest,
    replies w = Transcription text :: rest
    /\ sr_text r = Js.trim text
    /\ isHallucination (Js.trim text) = false.
Proof.
  unfold recognizeSpeech, tryCatch, bind, create, fetch, throw, ret, lift.
  destruct (negb (Js.truthy (openaiApiKey w))); [discriminate|].
  destruct (length (decode (audioBlob request)) <? minAudioBytes)%nat; [discriminate|].
  destruct (written files) as [[]|e]; [|discriminate].
  destruct (replies w) as [|reply rest]; [discriminate|].
  destruct reply as [st|url|c pr|b|t]; try discriminate.
  destruct (removed files) as [[]|e]; [|discriminate].
  destruct (isHallucination (Js.trim t)) eqn:E; [discriminate|].
  cbn. intros [= <-]. eauto.
Qed.

Lemma prefix_app (p e : string) : String.prefix p (p ++ e) = true.
Proof.
  induction p as [|a p IH]; [destruct e; reflexivity|].
  change (String a p ++ e) with (String a (p ++ e)).
  cbn [String.prefix].
  destruct (ascii_dec a a) as [_|H]; [exact IH|congruence].
Qed.

End SpeechService.

(** X10: what the transcription filter lets through. A text returned by
    [recognizeSpeech] is the trimmed transcription; it is not empty, has at
    least two UTF-16 code units, contains none of the fourteen listed
    phrases and is not made of filler kana only. The list holds the single
    kana of the syllables n, a, e, u and o: a transcription in which one of
    them occurs anywhere is rejected with an error. *)
Theorem transcription_filter :
  forall (bufferFromBase64 : string -> list ascii) (files : Speech.TempFile)
         (request : Speech.SpeechRecognitionRequest) (w : World),
    (forall r,
       fst (Speech.recognizeSpeech bufferFromBase64 files request w) = Ok r ->
       (exists text rest,
          replies w = Transcription text :: rest /\ Speech.sr_text r = Js.trim text)
       /\ Speech.sr_text r <> ""
       /\ (2 <= Js.utf16Length (Speech.sr_text r))%nat
       /\ (forall h, In h Speech.commonHallucinations ->
                     Js.includes (Speech.sr_text r) h = false)
       /\ Js.matchesClassPlus Speech.fillerClass (Speech.sr_text r) = false)
    /\ (forall text rest kana,
          replies w = Transcription text :: rest ->
          In kana ["ん"; "あ"; "え"; "う"; "お"] ->
          Js.includes (Js.trim text) kana = true ->
          exists msg,
            fst (Speech.recognizeSpeech bufferFromBase64 files request w) = Throw msg).
Proof.
  intros decode files request w. split.
  - intros r Hr.
    destruct (recognizeSpeech_ok decode files request w r Hr)
      as (text & rest & Hrep & Htext & Hf).
    rewrite Htext.
    destruct (isHallucination_false _ Hf) as (H1 & H2 & H3 & H4).
    split; [eauto|]. auto.
  - intros text rest kana Hrep Hkana Hinc.
    destruct (fst (Speech.recognizeSpeech decode files request w)) as [r|msg] eqn:E;
      [|eauto].
    exfalso.
    destruct (recognizeSpeech_ok decode files request w r E)
      as (text' & rest' & Hrep' & _ & Hf).
    rewrite Hrep in Hrep'. injection Hrep' as <- _.
    assert (Hin : In kana Speech.commonHallucinations).
    { cbn in Hkana. unfold Speech.commonHallucinations. cbn.
      destruct Hkana as [<-|[<-|[<-|[<-|[<-|[]]]]]]; auto 10. }
    rewrite (isHallucination_phrase _ kana Hin Hinc) in Hf. discriminate.
Qed.

Lemma transcription_filter_witness :
  exists msg,
    fst (Speech.recognizeSpeech Js.base64Decode Samples.disk
           (Speech.mkSpeechRequest Samples.utterance "ja")
           (Samples.fresh [Transcription "すみません"])) = Throw msg.
Proof.
  destruct (transcription_filter Js.base64Decode Samples.disk
              (Speech.mkSpeechRequest Samples.utterance "ja")
              (Samples.fresh [Transcription "すみません"])) as [_ H].
  apply (H "すみません" [] "ん" ltac:(reflexivity)).
  - left. reflexivity.
  - vm_compute. reflexivity.
Defined.

Section SpeechRequests.
Import Speech.

Lemma whisperLanguage_cases language :
  In (whisperLanguage language) ["ja"; "en"; "ko"].
Proof.
  unfold whisperLanguage.
  destruct (String.eqb language "ja"); [left; reflexivity|].
  destruct (String.eqb language "en"); [right; left; reflexivity|].
  right; right; left; reflexivity.
Qed.

End SpeechRequests.

(** X11: when [recognizeSpeech] asks the provider. It makes one call
    of the provider's client library for a transcription exactly when the
    API key is configured, the decoded audio holds at least 1000 bytes and
    the temporary file has been written; the call carries the decoded
    audio and one of the languages ja, en and ko (ko for anything that is
    neither ja nor en). In every other case no call is made and the world
    is left as it was: without a key the error is the bare message, and a
    recording that is too short or a temporary file that cannot be
    written fails with the prefix of the service, as does every later
    failure, among them a temporary file that cannot be removed once the
    transcription has come. The database is never touched. *)
Theorem transcription_request :
  forall (bufferFromBase64 : string -> list ascii) (files : Speech.TempFile)
         (request : Speech.SpeechRecognitionRequest) (w : World),
    let audio := bufferFromBase64 (Speech.audioBlob request) in
    let run := Speech.recognizeSpeech bufferFromBase64 files request w in
    In (Speech.whisperLanguage (Speech.language request)) ["ja"; "en"; "ko"]
    /\ db (snd run) = db w
    /\ (Js.truthy (openaiApiKey w) = true -> (1000 <= length audio)%nat ->
        Speech.written files = Ok tt ->
        calls (snd run)
        = (calls w ++ [AudioTranscriptions audio
                          (Speech.whisperLanguage (Speech.language request))])%list
        /\ replies (snd run) = tl (replies w))
    /\ (Js.truthy (openaiApiKey w) = false ->
        run = (Throw "OpenAI API key not configured", w))
    /\ (Js.truthy (openaiApiKey w) = true -> (length audio < 1000)%nat ->
        run = (Throw "Speech recognition failed: Audio too short or silent", w))
    /\ (Js.truthy (openaiApiKey w) = true -> (1000 <= length audio)%nat ->
        forall e, Speech.written files = Throw e ->
                  run = (Throw ("Speech recognition failed: " ++ e), w))
    /\ (Js.truthy (openaiApiKey w) = true -> (1000 <= length audio)%nat ->
        Speech.written files = Ok tt ->
        forall text rest e,
          replies w = Transcription text :: rest ->
          Speech.removed files = Throw e ->
          fst run = Throw ("Speech recognition failed: " ++ e))
    /\ (Js.truthy (openaiApiKey w) = true ->
        forall msg, fst run = Throw msg ->
                    String.prefix "Speech recognition failed: " msg = true).
Proof.
  intros decode files request w audio run. subst audio run.
  split; [apply whisperLanguage_cases|].
  unfold Speech.recognizeSpeech, tryCatch, bind, create, fetch, throw, ret, lift,
    Speech.minAudioBytes.
  destruct (Js.truthy (openaiApiKey w)); cbn [negb].
  2:{ split; [reflexivity|]. split; [discriminate|]. split; [reflexivity|].
      repeat (split; [discriminate|]). discriminate. }
  destruct (Nat.ltb_spec (length (decode (Speech.audioBlob request))) 1000) as [Hs|Hl].
  { split; [reflexivity|]. split; [intros _ H; lia|].
    split; [discriminate|]. split; [reflexivity|].
    split; [intros _ H; lia|]. split; [intros _ H; lia|].
    intros _ msg [= <-]. reflexivity. }
  destruct (Speech.written files) as [[]|e0].
  2:{ split; [reflexivity|]. split; [discriminate|].
      split; [discriminate|]. split; [intros _ H; lia|].
      split; [intros _ _ e [= <-]; reflexivity|].
      split; [discriminate|].
      intros _ msg [= <-]. apply prefix_app. }
  destruct (replies w) as [|reply rest].
  { split; [reflexivity|]. split; [intros _ _ _; split; reflexivity|].
    split; [discriminate|]. split; [intros _ H; lia|].
    split; [discriminate|]. split; [discriminate|].
    intros _ msg [= <-]. reflexivity. }
  destruct reply as [st|url|c pr|b|t];
    try (split; [reflexivity|]; split; [intros _ _ _; split; reflexivity|];
         split; [discriminate|]; split; [intros _ H; lia|];
         split; [discriminate|]; split; [discriminate|];
         intros _ msg [= <-]; first [reflexivity | apply prefix_app]).
  destruct (Speech.removed files) as [[]|e1].
  2:{ split; [reflexivity|]. split; [intros _ _ _; split; reflexivity|].
      split; [discriminate|]. split; [intros _ H; lia|].
      split; [discriminate|].
      split; [intros _ _ _ text rest' e _ [= <-]; reflexivity|].
      intros _ msg [= <-]. apply prefix_app. }
  destruct (Speech.isHallucination (Js.trim t)).
  - split; [reflexivity|]. split; [intros _ _ _; split; reflexivity|].
    split; [discriminate|]. split; [intros _ H; lia|].
    split; [discriminate|]. split; [discriminate|].
    intros _ msg [= <-]. reflexivity.
  - split; [reflexivity|]. split; [intros _ _ _; split; reflexivity|].
    split; [discriminate|]. split; [intros _ H; lia|].
    split; [discriminate|]. split; [discriminate|].
    intros _ msg H. discriminate.
Qed.

Lemma transcription_request_witness :
  Speech.recognizeSpeech Js.base64Decode Samples.fullDisk
    (Speech.mkSpeechRequest Samples.utterance "ja")
    (Samples.fresh [Transcription "コーヒーをください"])
  = (Throw "Speech recognition failed: ENOSPC: no space left on device, write",
     Samples.fresh [Transcription "コーヒーをください"]).
Proof.
  destruct (transcription_request Js.base64Decode Samples.fullDisk
              (Speech.mkSpeechRequest Samples.utterance "ja")
              (Samples.fresh [Transcription "コーヒーをください"]))
    as (_ & _ & _ & _ & _ & H & _).
  apply (H ltac:(reflexivity) ltac:(vm_compute; lia)
           "ENOSPC: no space left on device, write" ltac:(reflexivity)).
Defined.

(** ** The conversation service *)

Section ConversationService.
Import Speech.



End ConversationService.

(** X12: [generateConversationResponse] reads the history through a window.
    Two histories with the same last six turns, both shorter than ten
    turns or both not, give the same run: the same call to the
    provider, the same result and the same world. Whatever lies before the
    last six turns only counts through the length of the history reaching
    ten. *)
Theorem conversation_service_window :
  forall (userInput : string) (h1 h2 : list Turn)
         (character : Speech.ConversationCharacter) (topic : string) (w : World),
    Js.sliceLast 6 h1 = Js.sliceLast 6 h2 ->
    (10 <=? length h1)%nat = (10 <=? length h2)%nat ->
    Speech.generateConversationResponse userInput h1 character topic w
    = Speech.generateConversationResponse userInput h2 character topic w.
Proof.
  intros userInput h1 h2 character topic w Hwin Hlen.
  unfold Speech.generateConversationResponse, Speech.historyText.
  rewrite Hwin, Hlen. reflexivity.
Qed.

Lemma conversation_service_window_witness :
  Speech.generateConversationResponse "はい" (Samples.turns 8) Samples.yuki "cafe"
    (Samples.fresh [])
  = Speech.generateConversationResponse "はい" (Js.sliceLast 6 (Samples.turns 8))
      Samples.yuki "cafe" (Samples.fresh []).
Proof.
  apply conversation_service_window; reflexivity.
Defined.



(** ** The dialogue service *)

Section DialogueService.
Import Dialogue.

(** The audiences for which [audienceConfig[audience]] is undefined: those
    the table neither has nor inherits. *)
Lemma audience_missing (audience : string) :
  Js.readProp audience audienceLevels = None
  <-> ~ In audience ["student"; "general"; "business"]
      /\ Js.inheritedOf audience = None.
Proof.
  unfold Js.readProp, audienceLevels. cbn [Js.assoc].
  destruct (String.eqb_spec audience "student") as [->|H1];
    [split; [discriminate|intros [H _]; exfalso; apply H; left; reflexivity]|].
  destruct (String.eqb_spec audience "general") as [->|H2];
    [split; [discriminate|intros [H _]; exfalso; apply H; right; left; reflexivity]|].
  destruct (String.eqb_spec audience "business") as [->|H3];
    [split; [discriminate
            |intros [H _]; exfalso; apply H; right; right; left; reflexivity]|].
  destruct (Js.inheritedOf audience) as [i|].
  - split; [discriminate|intros [_ H]; discriminate].
  - split; [|reflexivity]. intros _. split; [|reflexivity].
    intros [H|[H|[H|[]]]]; congruence.
Qed.

End DialogueService.

(** X14: when [generateDialogue] asks the provider, and for what. Without
    a scenario, without a character or with an audience that
    [audienceConfig] neither has nor inherits it throws before any call
    and leaves the world as it was. Otherwise, which is for the audiences
    student, general and business and also for a name that every object
    literal inherits, it makes exactly one call of the provider's client
    library, for the audience and the character's name and style, and a
    scenario text that is the free text when that is not empty, else the
    preset key when that is not empty, else the words general
    conversation. The database is not touched, and every failure from
    there on carries the prefix of the service. *)
Theorem dialogue_request :
  forall (request : Dialogue.GenerateDialogueRequest) (w : World),
    let run := Dialogue.generateDialogue request w in
    ((Dialogue.scenario request = None \/ Dialogue.character request = None
      \/ (~ In (Dialogue.audience request) ["student"; "general"; "business"]
          /\ Js.inheritedOf (Dialogue.audience request) = None)) ->
     exists msg, run = (Throw msg, w))
    /\ (forall sc ch,
          Dialogue.scenario request = Some sc ->
          Dialogue.character request = Some ch ->
          (In (Dialogue.audience request) ["student"; "general"; "business"]
           \/ Js.inheritedOf (Dialogue.audience request) <> None) ->
          calls (snd run)
          = (calls w
             ++ [ChatDialogue (Dialogue.audience request) (Dialogue.dc_name ch)
                   (Dialogue.dc_style ch)
                   (match Dialogue.freeText sc, Dialogue.presetKey sc with
                    | Some f, Some p =>
                        if negb (String.eqb f "") then f
                        else if negb (String.eqb p "") then p
                        else "general conversation"
                    | Some f, None =>
                        if negb (String.eqb f "") then f else "general conversation"
                    | None, Some p =>
                        if negb (String.eqb p "") then p else "general conversation"
                    | None, None => "general conversation"
                    end)])%list
          /\ db (snd run) = db w
          /\ (forall msg, fst run = Throw msg ->
                          String.prefix "Dialogue generation failed: " msg = true)).
Proof.
  intros request w run. subst run. unfold Dialogue.generateDialogue. split.
  - intros H.
    destruct (Dialogue.scenario request) as [sc|]; [|eexists; reflexivity].
    destruct (Dialogue.character request) as [ch|]; [|eexists; reflexivity].
    destruct H as [H|[H|H]]; try discriminate.
    apply audience_missing in H. rewrite H. eexists. reflexivity.
  - intros sc ch -> -> Hin.
    assert (E : exists found,
               Js.readProp (Dialogue.audience request) Dialogue.audienceLevels
               = Some found).
    { destruct (Js.readProp (Dialogue.audience request) Dialogue.audienceLevels)
        as [found|] eqn:E; [eauto|].
      apply audience_missing in E. destruct E as [E1 E2].
      destruct Hin as [Hin|Hin]; contradiction. }
    destruct E as [found ->].
    assert (Htext :
      (if Js.truthy (Dialogue.freeText sc) then Js.orStr (Dialogue.freeText sc) ""
       else Js.orStr (Dialogue.presetKey sc) "general conversation")
      = match Dialogue.freeText sc, Dialogue.presetKey sc with
        | Some f, Some p =>
            if negb (String.eqb f "") then f
            else if negb (String.eqb p "") then p
            else "general conversation"
        | Some f, None =>
            if negb (String.eqb f "") then f else "general conversation"
        | None, Some p =>
            if negb (String.eqb p "") then p else "general conversation"
        | None, None => "general conversation"
        end).
    { destruct (Dialogue.freeText sc) as [f|], (Dialogue.presetKey sc) as [p|];
        unfold Js.truthy, Js.orStr;
        repeat match goal with
               | |- context [String.eqb ?a ""] => destruct (String.eqb a "")
               end; reflexivity. }
    rewrite Htext.
    unfold tryCatch, bind, create, fetch, throw, ret, lift.
    destruct (replies w) as [|reply rest].
    { split; [reflexivity|]. split; [reflexivity|]. intros msg [= <-]. reflexivity. }
    destruct reply as [st|url|c pr|b|t];
      try (split; [reflexivity|]; split; [reflexivity|];
           intros msg [= <-]; first [reflexivity | apply prefix_app]).
    destruct (negb (Js.truthy c)).
    { split; [reflexivity|]. split; [reflexivity|]. intros msg [= <-]. reflexivity. }
    destruct pr as [result|].
    2:{ split; [reflexivity|]. split; [reflexivity|]. intros msg [= <-]. reflexivity. }
    destruct (Dialogue.validate result) as [d|e].
    + split; [reflexivity|]. split; [reflexivity|]. intros msg H. discriminate.
    + split; [reflexivity|]. split; [reflexivity|]. intros msg [= <-].
      apply prefix_app.
Qed.

Lemma dialogue_request_witness :
  calls (snd (Dialogue.generateDialogue
                (Dialogue.mkDialogueRequest "toString"
                   (Some (Dialogue.mkDialogueCharacter "Yuki" (Some "female") "cheerful"))
                   (Some (Dialogue.mkDialogueScenario (Some "cafeteria") None)))
                (Samples.fresh [])))
  = [ChatDialogue "toString" "Yuki" "cheerful" "cafeteria"].
Proof.
  destruct (dialogue_request
              (Dialogue.mkDialogueRequest "toString"
                 (Some (Dialogue.mkDialogueCharacter "Yuki" (Some "female") "cheerful"))
                 (Some (Dialogue.mkDialogueScenario (Some "cafeteria") None)))
              (Samples.fresh [])) as [_ H].
  destruct (H (Dialogue.mkDialogueScenario (Some "cafeteria") None)
              (Dialogue.mkDialogueCharacter "Yuki" (Some "female") "cheerful")
              ltac:(reflexivity) ltac:(reflexivity)
              ltac:(right; discriminate)) as [Hcalls _].
  exact Hcalls.
Defined.

(** ** The speech service of openai-tts.ts *)

Section EmotionalSpeech.
Import TtsService.

Lemma adjustedSpeed_listed emotion speed :
  In emotion emotions ->
  exists s,
    adjustedSpeed emotion speed = Js.Own s
    /\ adjustedSpeed emotion 1.0%Q = Js.Own s
    /\ (0.85 <= s)%Q /\ (s <= 1.1)%Q.
Proof.
  unfold emotions. intros [<-|[<-|[<-|[<-|[<-|[<-|[]]]]]]];
    (eexists; split; [reflexivity|]; split; [reflexivity|]);
    split; vm_compute; discriminate.
Qed.

Lemma adjustedSpeed_other emotion speed :
  ~ In emotion emotions -> Js.inheritedOf emotion = None ->
  adjustedSpeed emotion speed = Js.Own speed.
Proof.
  intros H Hplain. unfold adjustedSpeed, Js.readProp, emotionSpeeds. cbn [Js.assoc].
  repeat match goal with
         | |- context [String.eqb emotion ?k] =>
             destruct (String.eqb_spec emotion k) as [->|_];
               [exfalso; apply H; unfold emotions; cbn; tauto|]
         end.
  rewrite Hplain. reflexivity.
Qed.

Lemma adjustedSpeed_inherited emotion speed i :
  Js.inheritedOf emotion = Some i -> adjustedSpeed emotion speed = Js.Inherited i.
Proof.
  intros Hi. unfold adjustedSpeed, Js.readProp, emotionSpeeds. cbn [Js.assoc].
  repeat match goal with
         | |- context [String.eqb emotion ?k] =>
             destruct (String.eqb_spec emotion k) as [->|_]; [discriminate Hi|]
         end.
  rewrite Hi. reflexivity.
Qed.

Lemma addEmotionalContext_suffix text emotion :
  Js.inheritedOf emotion = None ->
  exists direction,
    addEmotionalContext text emotion = Js.Own (direction ++ text)
    /\ (direction = "" <->
        ~ In emotion ["happy"; "concerned"; "professional"; "excited"; "calm"]).
Proof.
  intros Hplain.
  unfold addEmotionalContext, Js.readProp, emotionalPrefixes. cbn [Js.assoc].
  repeat match goal with
         | |- context [String.eqb emotion ?k] =>
             destruct (String.eqb_spec emotion k) as [->|?]
         end;
    try (eexists; split; [reflexivity|];
         split; [discriminate|intros H; exfalso; apply H; cbn; tauto]).
  - exists "". split.
    + cbn. destruct (String.eqb text ""); reflexivity.
    + split; [intros _ H; cbn in H; intuition discriminate|reflexivity].
  - exists "". rewrite Hplain. split; [reflexivity|].
    split; [intros _ H; cbn in H; intuition congruence|reflexivity].
Qed.

Lemma addEmotionalContext_inherited text emotion i :
  Js.inheritedOf emotion = Some i ->
  addEmotionalContext text emotion = Js.Inherited i.
Proof.
  intros Hi.
  unfold addEmotionalContext, Js.readProp, emotionalPrefixes. cbn [Js.assoc].
  repeat match goal with
         | |- context [String.eqb emotion ?k] =>
             destruct (String.eqb_spec emotion k) as [->|_]; [discriminate Hi|]
         end.
  rewrite Hi. reflexivity.
Qed.

End EmotionalSpeech.

(** X16: what [generateOpenAITTS] sends. It makes exactly one call of the
    provider's client library for speech and never touches the database;
    the input of the call is what [addEmotionalContext] returns and its
    speed is [emotionSpeeds[emotion] || speed]. For an emotion that is
    not a name an object literal inherits, both are what the signature
    promises. For each of the six emotions of the signature the speed is
    the one of the emotion, between 0.85 and 1.1, whatever speed the
    caller passes; the speed argument only counts for an emotion outside
    the six. The input ends with the caller's text; it is the caller's
    text itself for neutral, and for happy, concerned, professional,
    excited and calm a stage direction that is not empty comes before it.
    For an inherited name, input and speed are what the tables inherit
    under it. A result is a data URL of type audio/mp3, and every failure
    carries the prefix of the service. *)
Theorem emotional_speech_request :
  forall (text : string) (voice emotion : option string) (speed : option Q)
         (w : World),
    let run := TtsService.generateOpenAITTS text voice emotion speed w in
    let e := TtsService.orDefault emotion "neutral" in
    let input := TtsService.addEmotionalContext text e in
    let sent := TtsService.adjustedSpeed e (TtsService.orDefault speed 1.0%Q) in
    calls (snd run)
    = (calls w ++ [AudioSpeechCreate input (TtsService.orDefault voice "nova") sent])%list
    /\ db (snd run) = db w
    /\ (Js.inheritedOf e = None ->
        exists direction s,
          input = Js.Own (direction ++ text)
          /\ sent = Js.Own s
          /\ (direction = "" <->
              ~ In e ["happy"; "concerned"; "professional"; "excited"; "calm"])
          /\ (In e TtsService.emotions ->
              TtsService.adjustedSpeed e 1.0%Q = Js.Own s
              /\ (0.85 <= s)%Q /\ (s <= 1.1)%Q)
          /\ (~ In e TtsService.emotions -> s = TtsService.orDefault speed 1.0%Q))
    /\ (forall i, Js.inheritedOf e = Some i ->
                  input = Js.Inherited i /\ sent = Js.Inherited i)
    /\ (forall url, fst run = Ok url ->
                    String.prefix "data:audio/mp3;base64," url = true)
    /\ (forall msg, fst run = Throw msg ->
                    String.prefix "OpenAI TTS generation failed: " msg = true).
Proof.
  intros text voice emotion speed w run e input sent. subst run e input sent.
  set (e := TtsService.orDefault emotion "neutral").
  set (sp := TtsService.orDefault speed 1.0%Q).
  assert (Hplain :
    Js.inheritedOf e = None ->
    exists direction s,
      TtsService.addEmotionalContext text e = Js.Own (direction ++ text)
      /\ TtsService.adjustedSpeed e sp = Js.Own s
      /\ (direction = "" <->
          ~ In e ["happy"; "concerned"; "professional"; "excited"; "calm"])
      /\ (In e TtsService.emotions ->
          TtsService.adjustedSpeed e 1.0%Q = Js.Own s
          /\ (0.85 <= s)%Q /\ (s <= 1.1)%Q)
      /\ (~ In e TtsService.emotions -> s = sp)).
  { intros Hp.
    destruct (addEmotionalContext_suffix text e Hp) as (direction & Htext & Hdir).
    exists direction.
    destruct (in_dec string_dec e TtsService.emotions) as [Hin|Hout].
    - destruct (adjustedSpeed_listed e sp Hin) as (s & Hs & Hone & Hlo & Hhi).
      exists s. split; [exact Htext|]. split; [exact Hs|]. split; [exact Hdir|].
      split; [intros _; auto|]. intros H. contradiction.
    - exists sp. split; [exact Htext|].
      split; [apply adjustedSpeed_other; assumption|]. split; [exact Hdir|].
      split; [intros H; contradiction|reflexivity]. }
  assert (Hinh : forall i, Js.inheritedOf e = Some i ->
            TtsService.addEmotionalContext text e = Js.Inherited i
            /\ TtsService.adjustedSpeed e sp = Js.Inherited i).
  { intros i Hi. split;
      [apply addEmotionalContext_inherited|apply adjustedSpeed_inherited]; exact Hi. }
  unfold TtsService.generateOpenAITTS. fold e. fold sp.
  unfold tryCatch, bind, create, fetch, throw, ret.
  destruct (replies w) as [|reply rest].
  { split; [reflexivity|]. split; [reflexivity|]. split; [exact Hplain|].
    split; [exact Hinh|].
    split; [discriminate|]. intros msg [= <-]. reflexivity. }
  destruct reply as [st|url|c pr|b|t];
    try (split; [reflexivity|]; split; [reflexivity|]; split; [exact Hplain|];
         split; [exact Hinh|];
         split; [discriminate|]; intros msg [= <-];
         first [reflexivity | apply prefix_app]).
  split; [reflexivity|]. split; [reflexivity|]. split; [exact Hplain|].
  split; [exact Hinh|].
  split; [|discriminate]. intros url [= <-]. apply prefix_app.
Qed.

Lemma emotional_speech_request_witness :
  exists direction s,
    TtsService.addEmotionalContext "こんにちは" "calm" = Js.Own (direction ++ "こんにちは")
    /\ TtsService.adjustedSpeed "calm" 2.0%Q = Js.Own s
    /\ (0.85 <= s)%Q /\ (s <= 1.1)%Q.
Proof.
  destruct (emotional_speech_request "こんにちは" None (Some "calm") (Some 2.0%Q)
              (Samples.fresh [])) as (_ & _ & H & _).
  destruct (H ltac:(reflexivity)) as (direction & s & Hin & Hs & _ & Hb & _).
  exists direction, s. split; [exact Hin|]. split; [exact Hs|].
  apply Hb. cbn. tauto.
Defined.

(** ** Voices: the page, the catalogue and the route *)

Section Voices.

Lemma isJapanese_ascii (text : string) :
  Forall (fun c => (nat_of_ascii c < 128)%nat) (list_ascii_of_string text) ->
  Routes.isJapanese text = false.
Proof.
  induction text as [|c r IH]; [reflexivity|].
  cbn [list_ascii_of_string]. intros H. inversion H as [|? ? Hc Hr]; subst.
  cbn [Routes.isJapanese]. rewrite (IH Hr). rewrite orb_false_r.
  destruct r as [|c2 [|c3 r3]]; try reflexivity.
  unfold Routes.japaneseCodePoint.
  destruct (Z.leb_spec 224 (Z.of_nat (nat_of_ascii c))) as [Hge|_]; [lia|reflexivity].
Qed.

Lemma isJapanese_found (before after : string) (c1 c2 c3 : ascii) :
  Routes.japaneseCodePoint c1 c2 c3 = true ->
  Routes.isJapanese (before ++ String c1 (String c2 (String c3 after))) = true.
Proof.
  intros H. induction before as [|c r IH].
  - change ("" ++ String c1 (String c2 (String c3 after)))
      with (String c1 (String c2 (String c3 after))).
    cbn [Routes.isJapanese]. rewrite H. reflexivity.
  - change (String c r ++ String c1 (String c2 (String c3 after)))
      with (String c (r ++ String c1 (String c2 (String c3 after)))).
    cbn [Routes.isJapanese]. rewrite IH. apply orb_true_r.
Qed.

End Voices.

(** X17: for Japanese text the style of the character has no influence on
    POST /api/tts. Two requests with the same text, holding a kana or a
    kanji, and characters that are both female or both not, run alike:
    same request to the provider, same answer, same world. The voice is
    nova for a character whose gender is female and onyx for any other,
    at speed 0.8. A text of ASCII characters only is never taken for
    Japanese, and a text in which a character of one of the three ranges
    occurs always is. *)
Theorem japanese_speech_ignores_style :
  forall (userId text : string) (c1 c2 : option Routes.TtsCharacter) (w : World),
    (Routes.isJapanese text = true ->
     Routes.genderIs c1 "female" = Routes.genderIs c2 "female" ->
     Routes.ttsRoute (Routes.mkRequest (Some userId) (Routes.mkTtsBody text c1)) w
     = Routes.ttsRoute (Routes.mkRequest (Some userId) (Routes.mkTtsBody text c2)) w)
    /\ (Routes.isJapanese text = true ->
        forall call,
          calls (snd (Routes.ttsRoute
                        (Routes.mkRequest (Some userId) (Routes.mkTtsBody text c1)) w))
          = (calls w ++ [call])%list ->
          call = AudioSpeech text
                   (if Routes.genderIs c1 "female" then "nova" else "onyx") 0.8%Q)
    /\ (Forall (fun c => (nat_of_ascii c < 128)%nat) (list_ascii_of_string text) ->
        Routes.isJapanese text = false)
    /\ (forall before after k1 k2 k3,
          Routes.japaneseCodePoint k1 k2 k3 = true ->
          text = before ++ String k1 (String k2 (String k3 after)) ->
          Routes.isJapanese text = true).
Proof.
  intros userId text c1 c2 w. split; [|split; [|split]].
  - intros HJ Hg. unfold Routes.ttsRoute.
    cbn [Routes.sessionUser Routes.body Routes.tts_text Routes.tts_character].
    rewrite HJ. rewrite !japaneseVoices_by_gender, Hg. reflexivity.
  - intros HJ call. unfold Routes.ttsRoute.
    cbn [Routes.sessionUser Routes.body Routes.tts_text Routes.tts_character].
    rewrite HJ, japaneseVoices_by_gender.
    destruct (checkUsageLimit_total userId w) as [r Hr].
    rewrite (after_check _ _ _ w r Hr).
    destruct (Routes.canUse r); cbn [negb].
    + unfold tryCatch, bind, create, fetch, throw.
      assert (Hv : Tts.voiceName
                     (if Routes.genderIs c1 "female" then Tts.nova else Tts.onyx)
                   = if Routes.genderIs c1 "female" then "nova" else "onyx")
        by (destruct (Routes.genderIs c1 "female"); reflexivity).
      rewrite Hv.
      destruct (replies w) as [|reply rest].
      { cbn [snd calls]. intros H. apply app_inv_head in H. congruence. }
      destruct reply as [st|url|c pr|b|t];
        try (cbn [snd calls]; intros H; apply app_inv_head in H; congruence).
      match goal with
      | |- context [Storage.incrementUsage ?i ?t ?w1] =>
          destruct (incrementUsage_cases i t w1) as [(w' & -> & Hcalls & _)|(msg & ->)]
      end.
      * cbn [snd Routes.json]. unfold Routes.json, ret. cbn [snd]. rewrite Hcalls.
        cbn [calls]. intros H. apply app_inv_head in H. congruence.
      * cbn [snd calls]. intros H. apply app_inv_head in H. congruence.
    + unfold tryCatch, ret. cbn [snd]. intros H.
      exfalso. apply (f_equal (@length Call)) in H.
      rewrite length_app in H. cbn in H. lia.
  - apply isJapanese_ascii.
  - intros before after k1 k2 k3 Hk ->. apply isJapanese_found. exact Hk.
Qed.

Lemma japanese_speech_ignores_style_witness :
  Routes.ttsRoute
    (Routes.mkRequest (Some "u1")
       (Routes.mkTtsBody "こんにちは"
          (Some (Routes.mkTtsCharacter (Some "cheerful") (Some "female")))))
    (Samples.fresh [Audio "QUJD"])
  = Routes.ttsRoute
      (Routes.mkRequest (Some "u1")
         (Routes.mkTtsBody "こんにちは"
            (Some (Routes.mkTtsCharacter (Some "strict") (Some "female")))))
      (Samples.fresh [Audio "QUJD"]).
Proof.
  destruct (japanese_speech_ignores_style "u1" "こんにちは"
              (Some (Routes.mkTtsCharacter (Some "cheerful") (Some "female")))
              (Some (Routes.mkTtsCharacter (Some "strict") (Some "female")))
              (Samples.fresh [Audio "QUJD"])) as [H _].
  apply H; reflexivity.
Defined.

(** X18: the voice the page computes and the voice the server uses. For a
    character that is female or male with one of the styles cheerful, calm
    and strict, the page's [getVoiceForCharacter] and the catalogue's
    [getOpenAIVoiceForCharacter] without a role name the same voice, which
    is the one POST /api/tts uses for a text that is not Japanese. For a
    Japanese text the route's voice is the page's exactly when the style
    is strict. *)
Theorem page_and_server_voices :
  forall gender style : string,
    In gender ["female"; "male"] ->
    In style ["cheerful"; "calm"; "strict"] ->
    let character :=
      Some (Routes.mkTtsCharacter (Some style) (Some gender)) in
    (exists voice,
       Tts.getOpenAIVoiceForCharacter style gender "" = Js.Own voice
       /\ Tts.voiceName voice = Scene.getVoiceForCharacter gender style)
    /\ Tts.voiceName (Routes.englishVoice character)
       = Scene.getVoiceForCharacter gender style
    /\ (Tts.voiceName (Routes.japaneseVoices character)
        = Scene.getVoiceForCharacter gender style
        <-> style = "strict").
Proof.
  intros gender style Hg Hs character. subst character.
  destruct Hg as [<-|[<-|[]]]; destruct Hs as [<-|[<-|[<-|[]]]];
    (split; [eexists; split; reflexivity|]); (split; [reflexivity|]);
    split; first [reflexivity|discriminate|intros _; reflexivity].
Qed.

Lemma page_and_server_voices_witness :
  exists voice,
    Tts.getOpenAIVoiceForCharacter "calm" "male" "" = Js.Own voice
    /\ Tts.voiceName voice = Scene.getVoiceForCharacter "male" "calm".
Proof.
  apply (page_and_server_voices "male" "calm"); cbn; tauto.
Defined.

(** ** The page: one recording, and a session of recordings *)

Section Recordings.
Import Scene Session.

Lemma bind_run {S A B} (m : M S A) (k : A -> M S B) (s : S) :
  bind m k s
  = match m s with
    | (Ok a, s') => k a s'
    | (Throw e, s') => (Throw e, s')
    end.
Proof. reflexivity. Qed.

Lemma apiRequest_core c p : core (snd (apiRequest c p)) = core p.
Proof. unfold apiRequest. destruct (responses p); reflexivity. Qed.

Lemma generateContextualResponse_core history userInput p :
  exists c q,
    generateContextualResponse history userInput p = (Ok c, q) /\ core q = core p.
Proof.
  unfold generateContextualResponse, tryCatch. rewrite bind_run.
  pose proof (apiRequest_core
                (PostConversationResponse userInput
                   (map (fun turn => mkTurn (dt_speaker turn) (dt_text turn)) history))
                p) as Hc.
  destruct (apiRequest _ p) as [[reply|msg] q]; cbn [snd] in Hc.
  - destruct reply; eexists _, _; (split; [reflexivity|exact Hc]).
  - eexists _, _. split; [reflexivity|exact Hc].
Qed.

(** The request for the translation and the reading never fails the
    handler: a failure gives the fixed texts. *)
Lemma annotation_core (text : string) p :
  exists note q,
    tryCatch
      (let* translationResponse := apiRequest (PostTranslatePronunciation text) in
       match translationResponse with
       | TranslationReply k pr =>
           ret (orElse k "❌ 대화 API에서 빈 번역", orElse pr "❌ 대화 API에서 빈 발음")
       | _ => ret ("❌ 대화 API에서 빈 번역", "❌ 대화 API에서 빈 발음")
       end)
      (fun _ => ret ("❌ 번역 실패", "❌ 발음 실패")) p
    = (Ok note, q)
    /\ core q = core p.
Proof.
  unfold tryCatch. rewrite bind_run.
  pose proof (apiRequest_core (PostTranslatePronunciation text) p) as Hc.
  destruct (apiRequest _ p) as [[reply|msg] q]; cbn [snd] in Hc.
  - destruct reply; eexists _, _; (split; [reflexivity|exact Hc]).
  - eexists _, _. split; [reflexivity|exact Hc].
Qed.

Lemma core_fields p q :
  core q = core p ->
  characterName q = characterName p /\ characterGender q = characterGender p
  /\ characterStyle q = characterStyle p /\ dialogueHistory q = dialogueHistory p
  /\ sceneProgress q = sceneProgress p /\ isProcessing q = isProcessing p
  /\ awaitingRetry q = awaitingRetry p /\ conversationEnded q = conversationEnded p.
Proof. unfold core. intros [= -> -> -> -> -> -> -> ->]. repeat split. Qed.

End Recordings.

Section Handler.
Import Scene Session.

Ltac fields H :=
  apply core_fields in H;
  cbn [characterName characterGender characterStyle dialogueHistory sceneProgress
       isProcessing awaitingRetry conversationEnded setHistory] in H;
  destruct H as (? & ? & ? & ? & ? & ? & ? & ?).

Ltac settle :=
  unfold core;
  cbn [co_name co_gender co_style co_history co_progress co_busy co_retry
       co_ended characterName characterGender characterStyle dialogueHistory
       sceneProgress isProcessing awaitingRetry conversationEnded setHistory
       recordedConversation toasts requests responses];
  repeat match goal with
         | E : @eq _ (_ ?q) _ |- _ => rewrite ?E; clear E
         end.

Ltac flat :=
  cbn [setHistory characterName characterGender characterStyle dialogueHistory
       sceneProgress isProcessing awaitingRetry conversationEnded
       recordedConversation toasts requests responses fst snd].

Ltac flat_in H :=
  cbn [setHistory characterName characterGender characterStyle dialogueHistory
       sceneProgress isProcessing awaitingRetry conversationEnded
       recordedConversation toasts requests responses fst snd] in H.

Ltac unanswered Hne :=
  settle; do 3 (split; [reflexivity|]); (split; [auto|]);
  match goal with
  | |- Heard _ (mkCore _ _ _ (_ ++ [?u]) _ _ _ _) =>
      apply (Unanswered _ _ (dt_text u)); [exact Hne|reflexivity|reflexivity]
  end.

Ltac answered Hne :=
  settle; do 3 (split; [reflexivity|]); (split; [auto|]);
  match goal with
  | |- Heard _ (mkCore _ _ _ ((_ ++ [?u]) ++ [?a]) _ _ _ _) =>
      apply (Answered _ _ (dt_text u) a);
        [exact Hne|reflexivity|cbn [co_history]; rewrite <- app_assoc; reflexivity
        |reflexivity|reflexivity]
  end.

(** The handler of a loaded recording. *)
Lemma onloadend_heard history audio p :
  exists q,
    onloadend history audio p = (Ok tt, q)
    /\ characterName q = characterName p
    /\ characterGender q = characterGender p
    /\ characterStyle q = characterStyle p
    /\ (isProcessing p = false -> isProcessing q = false)
    /\ Heard (core p) (core q).
Proof.
  unfold onloadend, tryCatch. rewrite bind_run.
  pose proof (apiRequest_core (PostSpeechRecognition audio "ja") p) as Hcore1.
  destruct (apiRequest _ p) as [[speechResponse|msg] q1]; cbn [snd] in Hcore1; fields Hcore1.
  2:{ unfold toast. eexists. split; [reflexivity|]. settle.
      do 3 (split; [reflexivity|]). split; [auto|].
      apply Nothing; reflexivity. }
  match goal with
  | |- context [String.eqb ?t ""] => destruct (String.eqb_spec t "") as [He|Hne]
  end.
  { unfold toast, setIsProcessing, bind. eexists. split; [reflexivity|]. settle.
    do 3 (split; [reflexivity|]). split; [auto|].
    apply Nothing; reflexivity. }
  unfold appendTurn, record, bind. flat.
  match goal with
  | |- context [generateContextualResponse ?h ?t ?q] =>
      destruct (generateContextualResponse_core h t q) as (c & q2 & -> & Hcore2)
  end.
  fields Hcore2.
  destruct (needsCorrection (cx_feedback c)).
  { unfold setAwaitingRetry, toast, setIsProcessing. flat.
    eexists. split; [reflexivity|]. unanswered Hne. }
  destruct (cx_shouldEndConversation c);
    unfold setConversationEnded, toast, ret; flat;
    match goal with
    | |- context [apiRequest ?c ?q] =>
        let H := fresh "H" in
        pose proof (apiRequest_core c q) as H;
        destruct (apiRequest c q) as [[ttsResponse|msg] q3]; cbn [snd] in H; fields H
    end;
    [|flat; eexists; (split; [reflexivity|]); unanswered Hne
     | |flat; eexists; (split; [reflexivity|]); unanswered Hne];
    match goal with
    | |- context [apiRequest ?c ?q] =>
        let H := fresh "H" in
        pose proof (apiRequest_core c q) as H;
        destruct (apiRequest c q) as [[[| | |k pr]|msg] q4]; cbn [snd] in H; fields H
    end;
    unfold setSceneProgress, setAwaitingRetry, setHistory; flat;
    destruct (Js.truthy (betterExpression (cx_feedback c)));
    try destruct (90 <=? accuracy (cx_feedback c));
    flat; eexists; (split; [reflexivity|]); answered Hne.
Qed.

(** [processUserResponse]: the page is busy while the recording is looked
    at and never after. *)
Lemma processUserResponse_heard audio p :
  exists q,
    processUserResponse audio p = (Ok tt, q)
    /\ characterName q = characterName p
    /\ characterGender q = characterGender p
    /\ characterStyle q = characterStyle p
    /\ isProcessing q = false
    /\ Heard (core p) (core q)
    /\ ((length audio < minBlobBytes)%nat ->
        requests q = requests p /\ dialogueHistory q = dialogueHistory p
        /\ sceneProgress q = sceneProgress p /\ awaitingRetry q = awaitingRetry p
        /\ toasts q = toasts p).
Proof.
  unfold processUserResponse, setIsProcessing, bind.
  destruct (Nat.ltb_spec (length audio) minBlobBytes) as [Hs|Hl].
  - eexists. split; [reflexivity|]. flat. do 4 (split; [reflexivity|]).
    split; [apply Nothing; reflexivity|]. intros _. repeat split.
  - match goal with
    | |- context [onloadend ?h ?a ?q0] =>
        destruct (onloadend_heard h a q0) as (q & -> & Hn & Hg & Hs & Hb & Hh)
    end.
    exists q. split; [reflexivity|]. flat_in Hn. flat_in Hg. flat_in Hs.
    do 3 (split; [assumption|]). split; [apply Hb; reflexivity|].
    split; [|intros H; lia].
    destruct Hh as [H1 H2 H3|t Ht H1 H2|t a Ht Ha H1 H2 H3].
    + apply Nothing; assumption.
    + apply (Unanswered _ _ t); assumption.
    + apply (Answered _ _ t a); assumption.
Qed.

Lemma characterTurns_app (a b : list DialogueTurn) :
  characterTurns (a ++ b) = (characterTurns a + characterTurns b)%nat.
Proof. unfold characterTurns. rewrite List.filter_app, List.length_app. reflexivity. Qed.

(** What a session of recordings makes of the scene. *)
Lemma session_grows recordings :
  forall p,
    exists added,
      dialogueHistory (session recordings p) = (dialogueHistory p ++ added)%list
      /\ Forall (fun turn => dt_speaker turn = "user" \/ dt_speaker turn = "character")
           added
      /\ (length added <= 2 * length recordings)%nat
      /\ (characterTurns added <= length recordings)%nat
      /\ (characterTurns added = 0%nat ->
          sceneProgress (session recordings p) = sceneProgress p)
      /\ (sceneProgress p <= 100 ->
          sceneProgress (session recordings p)
          = Z.min (sceneProgress p + 15 * Z.of_nat (characterTurns added)) 100)
      /\ characterName (session recordings p) = characterName p
      /\ characterGender (session recordings p) = characterGender p
      /\ characterStyle (session recordings p) = characterStyle p.
Proof.
  induction recordings as [|audio rest IH]; intros p.
  - exists []. cbn [session]. rewrite app_nil_r.
    split; [reflexivity|]. split; [constructor|]. split; [cbn; lia|].
    split; [cbn; lia|]. split; [reflexivity|].
    split; [intros H; cbn; lia|]. repeat split.
  - cbn [session].
    destruct (processUserResponse_heard audio p)
      as (q & -> & Hn & Hg & Hs & _ & Hh & _).
    cbn [snd].
    destruct (IH q) as (more & H1 & H2 & H3 & H4 & H5 & H6 & H7 & H8 & H9).
    rewrite H1, H7, H8, H9, Hn, Hg, Hs. cbn [length].
    unfold core in Hh.
    destruct Hh as [E1 E2 _|t Ht E1 E2|t a Ht Ha E1 E2 _];
      cbn [co_history co_progress co_retry co_ended] in *.
    + exists more. rewrite E1. split; [reflexivity|]. split; [exact H2|].
      split; [lia|]. split; [lia|].
      split; [intros Hz; rewrite (H5 Hz); exact E2|].
      split; [|repeat split]. intros Hp. rewrite H6, E2; [reflexivity|lia].
    + exists (userTurn t :: more). rewrite E1, <- app_assoc.
      split; [reflexivity|].
      split; [constructor; [left; reflexivity|exact H2]|].
      change (characterTurns (userTurn t :: more)) with (characterTurns more).
      split; [cbn [length]; lia|]. split; [lia|].
      split; [intros Hz; rewrite (H5 Hz); exact E2|].
      split; [|repeat split]. intros Hp. rewrite H6, E2; [reflexivity|lia].
    + exists (userTurn t :: a :: more). rewrite E1, <- app_assoc.
      split; [reflexivity|].
      split; [constructor; [left; reflexivity|constructor; [right; exact Ha|exact H2]]|].
      assert (Hc : characterTurns (userTurn t :: a :: more)
                   = S (characterTurns more)).
      { assert (Hs' : spokenBy "character" a = true)
          by (unfold spokenBy; rewrite Ha; reflexivity).
        unfold characterTurns. cbn [List.filter].
        change (spokenBy "character" (userTurn t)) with false.
        rewrite Hs'. reflexivity. }
      rewrite Hc.
      split; [cbn [length]; lia|]. split; [lia|].
      split; [intros Hz; discriminate|].
      split; [|repeat split]. intros Hp. rewrite H6, E2; lia.
Qed.

End Handler.

(** X19: one recording. [processUserResponse] lets no error escape and
    leaves the page not busy and the character as it was. The history
    gains nothing, or the user's turn with a text that is not empty, or
    that turn followed by one turn of the character; the progress moves
    only in the last case, by 15 up to 100, and the page then no longer
    waits for a retry. *)
Theorem recording_adds_at_most_two_turns :
  forall (audio : list ascii) (p : Scene.Page),
    let q := snd (Scene.processUserResponse audio p) in
    fst (Scene.processUserResponse audio p) = Ok tt
    /\ Scene.isProcessing q = false
    /\ Scene.characterName q = Scene.characterName p
    /\ Scene.characterGender q = Scene.characterGender p
    /\ Scene.characterStyle q = Scene.characterStyle p
    /\ ((Scene.dialogueHistory q = Scene.dialogueHistory p
         /\ Scene.sceneProgress q = Scene.sceneProgress p)
        \/ (exists userText,
              userText <> ""
              /\ Scene.dialogueHistory q
                 = (Scene.dialogueHistory p ++ [Session.userTurn userText])%list
              /\ Scene.sceneProgress q = Scene.sceneProgress p)
        \/ (exists userText answer,
              userText <> "" /\ Scene.dt_speaker answer = "character"
              /\ Scene.dialogueHistory q
                 = (Scene.dialogueHistory p ++ [Session.userTurn userText; answer])%list
              /\ Scene.sceneProgress q = Z.min (Scene.sceneProgress p + 15) 100
              /\ Scene.awaitingRetry q = false)).
Proof.
  intros audio p q. subst q.
  destruct (processUserResponse_heard audio p)
    as (q & -> & Hn & Hg & Hs & Hb & Hh & _).
  cbn [fst snd]. split; [reflexivity|]. do 4 (split; [assumption|]).
  unfold Session.core in Hh.
  destruct Hh as [E1 E2 _|t Ht E1 E2|t a Ht Ha E1 E2 E3];
    cbn [Session.co_history Session.co_progress Session.co_retry] in *.
  - left. split; assumption.
  - right. left. exists t. repeat split; assumption.
  - right. right. exists t, a. repeat split; assumption.
Qed.

(** X20: a session of recordings. Whatever the server answers, the
    history only grows, by turns of the user and of the character, at most
    two for each recording and at most one of the character; the character
    stays the same; and from a progress of at most 100 the progress is 15
    for each turn the character has added, capped at 100. *)
Theorem session_progress_counts_answers :
  forall (recordings : list (list ascii)) (p : Scene.Page),
    Scene.sceneProgress p <= 100 ->
    exists added,
      Scene.dialogueHistory (Session.session recordings p)
      = (Scene.dialogueHistory p ++ added)%list
      /\ Forall (fun turn => Scene.dt_speaker turn = "user"
                             \/ Scene.dt_speaker turn = "character") added
      /\ (length added <= 2 * length recordings)%nat
      /\ (Session.characterTurns added <= length recordings)%nat
      /\ Scene.sceneProgress (Session.session recordings p)
         = Z.min (Scene.sceneProgress p
                  + 15 * Z.of_nat (Session.characterTurns added)) 100
      /\ Scene.sceneProgress (Session.session recordings p) <= 100
      /\ Scene.sceneProgress p <= Scene.sceneProgress (Session.session recordings p)
      /\ Scene.characterName (Session.session recordings p) = Scene.characterName p
      /\ Scene.characterGender (Session.session recordings p) = Scene.characterGender p
      /\ Scene.characterStyle (Session.session recordings p) = Scene.characterStyle p.
Proof.
  intros recordings p Hp.
  destruct (session_grows recordings p)
    as (added & H1 & H2 & H3 & H4 & _ & H6 & H7 & H8 & H9).
  exists added. specialize (H6 Hp).
  repeat (split; [assumption|]).
  split; [lia|]. split; [lia|]. repeat split; assumption.
Qed.

Lemma session_progress_counts_answers_witness :
  exists added,
    Scene.dialogueHistory (Session.session [[]] Samples.openedScene)
    = (Scene.dialogueHistory Samples.openedScene ++ added)%list.
Proof.
  destruct (session_progress_counts_answers [[]] Samples.openedScene)
    as (added & H & _).
  - vm_compute. discriminate.
  - exists added. exact H.
Defined.

(** ** Setting the scene *)

Section SettingTheScene.
Import Opening.

Lemma assoc_in {A} (k : string) (l : list (string * A)) (v : A) :
  Js.assoc k l = Some v -> In (k, v) l.
Proof.
  induction l as [|[k' v'] l IH]; [discriminate|].
  cbn [Js.assoc]. destruct (String.eqb_spec k k') as [->|_].
  - intros [= ->]. left. reflexivity.
  - intros H. right. apply IH. exact H.
Qed.

Lemma orStr_filled (x : option string) (d : string) : d <> "" -> Js.orStr x d <> "".
Proof.
  intros Hd. unfold Js.orStr. destruct x as [s|]; [|exact Hd].
  destruct (String.eqb_spec s "") as [_|Hs]; assumption.
Qed.

Lemma truthy_orStr (x : option string) (d : string) :
  Js.truthy x = true -> Js.orStr x d <> "" /\ x = Some (Js.orStr x d).
Proof.
  unfold Js.truthy, Js.orStr. destruct x as [s|]; [|discriminate].
  destruct (String.eqb_spec s "") as [_|Hs]; [discriminate|].
  intros _. split; [exact Hs|reflexivity].
Qed.

Lemma catalogue_filled :
  Forall (fun entry => situation (snd entry) <> "" /\ userRole (snd entry) <> ""
                       /\ characterRole (snd entry) <> "")
         SCENARIOS.
Proof. unfold SCENARIOS. repeat constructor; discriminate. Qed.

(** The catalogue has no scenario under an inherited name. *)
Lemma scenarios_plain key i :
  Js.inheritedOf key = Some i -> Js.assoc key SCENARIOS = None.
Proof.
  intros Hi. unfold SCENARIOS. cbn [Js.assoc].
  repeat match goal with
         | |- context [String.eqb key ?k] =>
             destruct (String.eqb_spec key k) as [->|_]; [discriminate Hi|]
         end.
  reflexivity.
Qed.

Lemma unset_filled freeText :
  let config :=
    if Js.truthy (trimmed freeText)
    then customScenario (Js.orStr (trimmed freeText) "")
    else fallbackScenario in
  situation config <> "" /\ userRole config <> "" /\ characterRole config <> "".
Proof.
  cbv zeta. destruct (Js.truthy (trimmed freeText)) eqn:T.
  - cbn [customScenario situation userRole characterRole].
    split; [apply (truthy_orStr _ _ T)|]. split; discriminate.
  - repeat split; discriminate.
Qed.

(** Under a preset key that is not an inherited name, the scenario of a
    scene is a scenario, and it says where the user is and who plays
    what. *)
Lemma scenarioConfigOf_filled scenario :
  plainKey scenario ->
  exists config,
    scenarioConfigOf scenario = Js.Own config
    /\ situation config <> "" /\ userRole config <> "" /\ characterRole config <> "".
Proof.
  intros Hplain. unfold scenarioConfigOf, plainKey in *.
  rewrite (readProp_plain _ _ Hplain).
  destruct (Js.truthy (Dialogue.presetKey scenario)).
  - destruct (Js.assoc (Js.orStr (Dialogue.presetKey scenario) "") SCENARIOS)
      as [config|] eqn:E.
    + exists config. split; [reflexivity|]. apply assoc_in in E.
      exact (proj1 (List.Forall_forall _ _) catalogue_filled _ E).
    + eexists. split; [reflexivity|]. apply unset_filled.
  - eexists. split; [reflexivity|]. apply unset_filled.
Qed.

(** Under an inherited name, it is what the catalogue inherits. *)
Lemma scenarioConfigOf_inherited scenario key i :
  Dialogue.presetKey scenario = Some key -> Js.inheritedOf key = Some i ->
  scenarioConfigOf scenario = Js.Inherited i.
Proof.
  intros Hk Hi. unfold scenarioConfigOf. rewrite Hk.
  assert (Hne : String.eqb key "" = false).
  { destruct (String.eqb_spec key "") as [->|]; [discriminate Hi|reflexivity]. }
  unfold Js.truthy, Js.orStr. rewrite Hne. cbn [negb].
  rewrite (readProp_inherited key SCENARIOS i Hi (scenarios_plain key i Hi)).
  reflexivity.
Qed.

Lemma orStr_self (x d : string) : x <> "" -> Js.orStr (Some x) d = x.
Proof.
  intros H. unfold Js.orStr. destruct (String.eqb_spec x ""); [contradiction|reflexivity].
Qed.

Ltac level :=
  cbn [characterName characterGender characterStyle scenario currentScenario
       dialogueHistory sceneProgress toasts requests responses fst snd].

Ltac asked :=
  match goal with
  | |- context [apiRequest ?c ?q] =>
      let o := fresh "o" in
      let pending := fresh "pending" in
      let H := fresh "H" in
      assert (H : exists o pending,
                apiRequest c q
                = (o, mkStage (characterName q) (characterGender q) (characterStyle q)
                        (scenario q) (currentScenario q) (dialogueHistory q)
                        (sceneProgress q) (toasts q) (requests q ++ [c]) pending))
        by (unfold apiRequest; destruct (responses q); eauto);
      destruct H as (o & pending & ->); level
  end.

(** [startScenario] for a scenario: the scene opens whatever the server
    answers. *)
Lemma startScenario_opens config s :
  exists q opening more,
    startScenario config s = (Ok tt, q)
    /\ dialogueHistory q = [systemTurn (characterName s) config; opening]
    /\ Scene.dt_speaker opening = "character"
    /\ Scene.dt_text opening <> ""
    /\ sceneProgress q = 10
    /\ currentScenario q = currentScenario s
    /\ characterName q = characterName s
    /\ characterGender q = characterGender s
    /\ characterStyle q = characterStyle s
    /\ scenario q = scenario s
    /\ requests q
       = (requests s ++ PostGenerateDialogue (dialogueRequest s config) :: more)%list
    /\ (length more <= 2)%nat
    /\ (toasts q = toasts s
        \/ (toasts q = (toasts s ++ ["Scene Setup Error"])%list
            /\ opening = Scene.mkDialogueTurn "character" fallbackOpeningLine
                           None None None None (Some "professional"))).
Proof.
  destruct s as [name gender style store current history progress shown sent pending0].
  unfold startScenario, tryCatch, bind. level.
  asked.
  destruct o as [dialogueResponse|msg].
  2:{ unfold toast, setDialogueHistory, setSceneProgress. level.
      eexists _, _, []. split; [reflexivity|]. level.
      split; [reflexivity|]. split; [reflexivity|]. split; [discriminate|].
      do 7 (split; [reflexivity|]). split; [cbn; lia|].
      right. split; reflexivity. }
  asked.
  destruct o as [ttsResponse|msg].
  2:{ unfold toast, setDialogueHistory, setSceneProgress. level.
      eexists _, _, [_]. split; [reflexivity|]. level.
      split; [reflexivity|]. split; [reflexivity|]. split; [discriminate|].
      do 6 (split; [reflexivity|]).
      split; [rewrite <- app_assoc; reflexivity|]. split; [cbn; lia|].
      right. split; reflexivity. }
  asked.
  assert (Hline :
    match dialogueResponse with
    | DialogueReply firstLine => Js.orStr firstLine fallbackOpeningLine
    | _ => fallbackOpeningLine
    end <> "").
  { destruct dialogueResponse; try discriminate.
    apply orStr_filled. discriminate. }
  destruct o as [[| |k pr]|msg];
    unfold ret, setDialogueHistory, setSceneProgress; level;
    (eexists _, _, [_; _]; split; [reflexivity|]; level;
     split; [reflexivity|]; split; [reflexivity|]; split; [exact Hline|];
     do 6 (split; [reflexivity|]);
     split; [rewrite <- !app_assoc; reflexivity|]; split; [cbn; lia|];
     left; reflexivity).
Qed.

(** [initializeScene] leaves a history of two turns. *)
Lemma scene_opened s :
  exists q,
    initializeScene s = (Ok tt, q) /\ length (dialogueHistory q) = 2%nat.
Proof.
  unfold initializeScene, setCurrentScenario, bind.
  match goal with
  | |- context [startScenario ?c ?s1] =>
      destruct (startScenario_opens c s1) as (q & opening & more & -> & Hh & _)
  end.
  exists q. split; [reflexivity|]. rewrite Hh. reflexivity.
Qed.

End SettingTheScene.



(** X22: what the dialogue service makes of the page's request. Under a
    preset key that is not a name the catalogue inherits, the request of
    [startScenario] always carries a free text that is not empty: the
    free text of the store, or else the situation of the scenario the
    page has settled on. [generateDialogue] on the server therefore
    always takes that text for the scenario, never the preset key and
    never the words general conversation: its one call of the provider's
    client library is for the audience general, the character's name and
    style, and that text. Under an inherited name and without a free text
    in the store the request carries no free text, and the call is for
    the preset key. *)
Theorem opening_request_reaches_the_provider :
  forall (s : Opening.Stage) (w : World),
    (Opening.plainKey (Opening.scenario s) ->
     exists config : Opening.ScenarioConfig,
       Opening.scenarioConfigOf (Opening.scenario s) = Js.Own config
       /\ let text :=
            Js.orStr (Dialogue.freeText (Opening.scenario s))
              (Opening.situation config) in
          text <> ""
          /\ (Js.truthy (Dialogue.freeText (Opening.scenario s)) = true ->
              Dialogue.freeText (Opening.scenario s) = Some text)
          /\ (Js.truthy (Dialogue.freeText (Opening.scenario s)) = false ->
              text = Opening.situation config)
          /\ calls (snd (Dialogue.generateDialogue
                           (Opening.dialogueRequest s (Js.Own config)) w))
             = (calls w
                ++ [ChatDialogue "general" (Opening.characterName s)
                      (Opening.characterStyle s) text])%list)
    /\ (forall key i,
          Dialogue.presetKey (Opening.scenario s) = Some key ->
          Js.inheritedOf key = Some i ->
          Js.truthy (Dialogue.freeText (Opening.scenario s)) = false ->
          Opening.scenarioConfigOf (Opening.scenario s) = Js.Inherited i
          /\ Dialogue.scenario (Opening.dialogueRequest s (Js.Inherited i))
             = Some (Dialogue.mkDialogueScenario (Some key) None)
          /\ calls (snd (Dialogue.generateDialogue
                           (Opening.dialogueRequest s (Js.Inherited i)) w))
             = (calls w
                ++ [ChatDialogue "general" (Opening.characterName s)
                      (Opening.characterStyle s) key])%list).
Proof.
  intros s w.
  assert (Hrun : forall preset text,
            text <> "" ->
            calls (snd (Dialogue.generateDialogue
                          (Dialogue.mkDialogueRequest "general"
                             (Some (Dialogue.mkDialogueCharacter (Opening.characterName s)
                                      (Some (Opening.characterGender s))
                                      (Opening.characterStyle s)))
                             (Some (Dialogue.mkDialogueScenario preset (Some text)))) w))
            = (calls w
               ++ [ChatDialogue "general" (Opening.characterName s)
                     (Opening.characterStyle s) text])%list).
  { intros preset text Hne. unfold Dialogue.generateDialogue.
    cbn [Dialogue.scenario Dialogue.character Dialogue.audience Dialogue.freeText
         Dialogue.presetKey Dialogue.dc_name Dialogue.dc_style].
    change (Js.readProp "general" Dialogue.audienceLevels) with (Some (Js.Own "N4-N3")).
    cbv iota.
    assert (Ht : Js.truthy (Some text) = true).
    { unfold Js.truthy. destruct (String.eqb_spec text ""); [contradiction|reflexivity]. }
    rewrite Ht, (orStr_self _ _ Hne).
    unfold tryCatch, bind, create.
    match goal with
    | |- context [fetch ?c w] =>
        pose proof (proj2 (fetch_frame c w)) as Hf;
        destruct (fetch c w) as [[reply|msg] w1]; cbn [snd] in Hf
    end.
    + destruct reply as [st|url|c pr|b|t]; try exact Hf.
      destruct (negb (Js.truthy c)); [exact Hf|].
      destruct pr as [result|]; [|exact Hf].
      unfold lift. destruct (Dialogue.validate result); exact Hf.
    + exact Hf. }
  split.
  - intros Hplain.
    destruct (scenarioConfigOf_filled _ Hplain) as (config & Hconfig & Hsit & _ & _).
    exists config. split; [exact Hconfig|]. cbv zeta.
    assert (Hne : Js.orStr (Dialogue.freeText (Opening.scenario s))
                    (Opening.situation config) <> "")
      by (apply orStr_filled; exact Hsit).
    split; [exact Hne|]. split; [|split].
    + intros H. apply (truthy_orStr _ _ H).
    + unfold Js.truthy, Js.orStr.
      destruct (Dialogue.freeText (Opening.scenario s)) as [f|]; [|reflexivity].
      destruct (String.eqb f ""); [reflexivity|discriminate].
    + unfold Opening.dialogueRequest, Opening.orElse. cbn [Opening.field].
      destruct (Js.truthy (Dialogue.freeText (Opening.scenario s))) eqn:T.
      * destruct (truthy_orStr _ (Opening.situation config) T) as [_ E].
        rewrite E at 1. apply Hrun. exact Hne.
      * assert (E : Js.orStr (Dialogue.freeText (Opening.scenario s))
                      (Opening.situation config) = Opening.situation config).
        { unfold Js.truthy in T. unfold Js.orStr.
          destruct (Dialogue.freeText (Opening.scenario s)) as [f|]; [|reflexivity].
          destruct (String.eqb f ""); [reflexivity|discriminate]. }
        rewrite E. apply Hrun. exact Hsit.
  - intros key i Hk Hi Hfree.
    assert (Hne : key <> "") by (intros ->; discriminate Hi).
    split; [apply (scenarioConfigOf_inherited _ key i Hk Hi)|].
    assert (Hreq : Dialogue.scenario (Opening.dialogueRequest s (Js.Inherited i))
                   = Some (Dialogue.mkDialogueScenario (Some key) None)).
    { unfold Opening.dialogueRequest, Opening.orElse.
      cbn [Dialogue.scenario Opening.field]. rewrite Hfree, Hk. reflexivity. }
    split; [exact Hreq|].
    unfold Dialogue.generateDialogue. rewrite Hreq.
    unfold Opening.dialogueRequest.
    cbn [Dialogue.scenario Dialogue.character Dialogue.audience Dialogue.freeText
         Dialogue.presetKey Dialogue.dc_name Dialogue.dc_style].
    change (Js.readProp "general" Dialogue.audienceLevels) with (Some (Js.Own "N4-N3")).
    cbv iota.
    change (Js.truthy None) with false. cbv iota.
    rewrite (orStr_self _ _ Hne).
    unfold tryCatch, bind, create.
    match goal with
    | |- context [fetch ?c w] =>
        pose proof (proj2 (fetch_frame c w)) as Hf;
        destruct (fetch c w) as [[reply|msg] w1]; cbn [snd] in Hf
    end.
    + destruct reply as [st|url|c pr|b|t]; try exact Hf.
      destruct (negb (Js.truthy c)); [exact Hf|].
      destruct pr as [result|]; [|exact Hf].
      unfold lift. destruct (Dialogue.validate result); exact Hf.
    + exact Hf.
Qed.

Lemma opening_request_reaches_the_provider_witness :
  exists config : Opening.ScenarioConfig,
    Opening.scenarioConfigOf (Dialogue.mkDialogueScenario None (Some "駅で道を聞く"))
    = Js.Own config
    /\ Js.orStr (Some "駅で道を聞く") (Opening.situation config) <> "".
Proof.
  destruct (opening_request_reaches_the_provider
              (Opening.mkStage "Yuki" "female" "cheerful"
                 (Dialogue.mkDialogueScenario None (Some "駅で道を聞く"))
                 None [] 0 [] [] [])
              (Samples.fresh [])) as [H _].
  destruct (H ltac:(reflexivity)) as (config & Hconfig & Hne & _).
  exists config. split; [exact Hconfig|exact Hne].
Defined.

(** X23: which scenario a scene gets. A preset key of the catalogue wins
    over any free text, and so does a preset key that is a name the
    catalogue inherits: the scene then runs on what is inherited, which
    is no scenario. Otherwise a free text that is not blank gives the
    custom scenario with the trimmed text as its situation; otherwise the
    generic scenario is used. Of the eighteen preset keys the page offers,
    only cafeteria and club are in the catalogue: with any of the other
    sixteen and no free text the scene runs on the generic scenario, whose
    situation does not name the preset. *)
Theorem scenario_of_the_scene :
  forall scenario : Dialogue.DialogueScenario,
    let config := Opening.scenarioConfigOf scenario in
    (forall key entry,
       Dialogue.presetKey scenario = Some key ->
       Js.assoc key Opening.SCENARIOS = Some entry -> config = Js.Own entry)
    /\ (forall key i,
          Dialogue.presetKey scenario = Some key ->
          Js.inheritedOf key = Some i -> config = Js.Inherited i)
    /\ ((forall key, Dialogue.presetKey scenario = Some key ->
                     Js.readProp key Opening.SCENARIOS = None) ->
        forall text, Dialogue.freeText scenario = Some text -> Js.trim text <> "" ->
                     config = Js.Own (Opening.customScenario (Js.trim text)))
    /\ ((forall key, Dialogue.presetKey scenario = Some key ->
                     Js.readProp key Opening.SCENARIOS = None) ->
        (forall text, Dialogue.freeText scenario = Some text -> Js.trim text = "") ->
        config = Js.Own Opening.fallbackScenario)
    /\ (forall key,
          In key Opening.presetKeys ->
          (exists entry, Js.assoc key Opening.SCENARIOS = Some entry)
          <-> key = "cafeteria" \/ key = "club")
    /\ (forall key,
          In key Opening.presetKeys -> key <> "cafeteria" -> key <> "club" ->
          Opening.scenarioConfigOf (Dialogue.mkDialogueScenario (Some key) None)
          = Js.Own Opening.fallbackScenario).
Proof.
  intros scenario config. subst config.
  split; [|split; [|split; [|split; [|split]]]].
  - intros key entry Hk He. unfold Opening.scenarioConfigOf. rewrite Hk.
    assert (Hne : key <> "") by (intros ->; discriminate).
    unfold Js.truthy, Js.orStr, Js.readProp.
    destruct (String.eqb_spec key "") as [|_]; [contradiction|].
    cbn [negb]. rewrite He. reflexivity.
  - intros key i Hk Hi. apply (scenarioConfigOf_inherited _ key i Hk Hi).
  - intros Hnone text Ht Hne. unfold Opening.scenarioConfigOf.
    assert (E : (if Js.truthy (Dialogue.presetKey scenario)
                 then Js.readProp (Js.orStr (Dialogue.presetKey scenario) "")
                        Opening.SCENARIOS
                 else None) = None).
    { destruct (Dialogue.presetKey scenario) as [key|]; [|reflexivity].
      unfold Js.truthy, Js.orStr. destruct (String.eqb key ""); [reflexivity|].
      cbn [negb]. apply Hnone. reflexivity. }
    rewrite E, Ht. unfold Opening.trimmed, Js.truthy, Js.orStr.
    destruct (String.eqb_spec (Js.trim text) ""); [contradiction|reflexivity].
  - intros Hnone Hblank. unfold Opening.scenarioConfigOf.
    assert (E : (if Js.truthy (Dialogue.presetKey scenario)
                 then Js.readProp (Js.orStr (Dialogue.presetKey scenario) "")
                        Opening.SCENARIOS
                 else None) = None).
    { destruct (Dialogue.presetKey scenario) as [key|]; [|reflexivity].
      unfold Js.truthy, Js.orStr. destruct (String.eqb key ""); [reflexivity|].
      cbn [negb]. apply Hnone. reflexivity. }
    rewrite E. destruct (Dialogue.freeText scenario) as [text|]; [|reflexivity].
    unfold Opening.trimmed, Js.truthy. rewrite (Hblank text eq_refl). reflexivity.
  - intros key Hin. unfold Opening.presetKeys in Hin. cbn in Hin.
    repeat (destruct Hin as [<-|Hin];
            [split; [intros [entry H]; first [discriminate H|tauto]
                    |intros [H|H]; first [discriminate H|eexists; reflexivity]]|]).
    destruct Hin.
  - intros key Hin H1 H2. unfold Opening.presetKeys in Hin. cbn in Hin.
    repeat (destruct Hin as [<-|Hin]; [first [contradiction|reflexivity]|]).
    destruct Hin.
Qed.

Lemma scenario_of_the_scene_witness :
  Opening.scenarioConfigOf (Dialogue.mkDialogueScenario (Some "toString") (Some "駅"))
  = Js.Inherited (Js.Method "toString")
  /\ Opening.scenarioConfigOf (Dialogue.mkDialogueScenario (Some "homework") None)
     = Js.Own Opening.fallbackScenario.
Proof.
  destruct (scenario_of_the_scene
              (Dialogue.mkDialogueScenario (Some "toString") (Some "駅")))
    as (_ & Hi & _ & _ & _ & H).
  split.
  - apply (Hi "toString" (Js.Method "toString")); reflexivity.
  - apply H; [cbn; tauto|discriminate|discriminate].
Defined.

(** ** Endpoints that are not metered *)

Section Unmetered.

Lemma recognizeSpeech_db decode files request w :
  db (snd (Speech.recognizeSpeech decode files request w)) = db w.
Proof.
  unfold Speech.recognizeSpeech, tryCatch, bind, create, fetch, throw, ret, lift.
  destruct (negb (Js.truthy (openaiApiKey w))); [reflexivity|].
  destruct (length (decode (Speech.audioBlob request)) <? Speech.minAudioBytes)%nat;
    [reflexivity|].
  destruct (Speech.written files) as [[]|e]; [|reflexivity].
  destruct (replies w) as [|reply rest]; [reflexivity|].
  destruct reply as [st|url|c pr|b|t]; try reflexivity.
  destruct (Speech.removed files) as [[]|e]; [|reflexivity].
  destruct (Speech.isHallucination (Js.trim t)); reflexivity.
Qed.

End Unmetered.

(** X15: what POST /api/speech-recognition answers. The endpoint is not
    metered: it checks no quota and never writes to the database, whoever
    asks. It answers 401 exactly without a session and 400 exactly with a
    session and no audio, in both cases without a request to the provider;
    otherwise it answers 200 or 500. A 200 carries the trimmed
    transcription, which is not empty, with confidence 0.9; silence, noise
    and a recording that is too short are answered with 500, like a
    failure of the provider. *)
Theorem speech_route_answers :
  forall (bufferFromBase64 : string -> list ascii) (files : Speech.TempFile)
         (req : Routes.Request Routes.SpeechBody) (w : World),
    let run := Routes.speechRecognition bufferFromBase64 files req w in
    exists r,
      fst run = Ok r
      /\ db (snd run) = db w
      /\ In (Routes.status r) [200; 400; 401; 500]
      /\ (Routes.status r = 401 <-> Routes.sessionUser req = None)
      /\ (Routes.status r = 400 <->
          Routes.sessionUser req <> None
          /\ Js.truthy (Routes.sb_audioBlob (Routes.body req)) = false)
      /\ (Routes.status r = 401 \/ Routes.status r = 400 -> snd run = w)
      /\ (Routes.status r = 200 ->
          exists text rest,
            replies w = Transcription text :: rest
            /\ Js.trim text <> ""
            /\ Speech.isHallucination (Js.trim text) = false
            /\ Routes.payload r
               = Routes.BSpeech (Js.trim text) 0.9%Q "음성 인식이 완료되었습니다!").
Proof.
  intros decode files req w run. subst run. unfold Routes.speechRecognition.
  destruct (Routes.sessionUser req) as [user|].
  2:{ eexists. split; [reflexivity|]. cbn.
      split; [reflexivity|]. split; [tauto|].
      split; [tauto|]. split; [split; [discriminate|intros [H _]; congruence]|].
      split; [reflexivity|discriminate]. }
  unfold tryCatch.
  destruct (Js.truthy (Routes.sb_audioBlob (Routes.body req))) eqn:Ha; cbn [negb].
  2:{ eexists. split; [reflexivity|]. cbn.
      split; [reflexivity|]. split; [tauto|].
      split; [split; discriminate|]. split; [split; [split; [discriminate|reflexivity]|reflexivity]|].
      split; [reflexivity|discriminate]. }
  unfold bind, Speech.recognizeSpeech, tryCatch, bind, create, fetch, throw, ret, lift.
  assert (H500 : forall (e : string) (w1 : World),
            db w1 = db w ->
            exists r,
              fst (Ok (Routes.mkResponse 500
                         (Routes.BError "음성 인식 중 오류가 발생했습니다." e)), w1) = Ok r
              /\ db (snd (Ok (Routes.mkResponse 500
                                (Routes.BError "음성 인식 중 오류가 발생했습니다." e)), w1))
                 = db w
              /\ In (Routes.status r) [200; 400; 401; 500]
              /\ (Routes.status r = 401 <-> Some user = None)
              /\ (Routes.status r = 400 <-> Some user <> None /\ true = false)
              /\ (Routes.status r = 401 \/ Routes.status r = 400 ->
                  snd (Ok (Routes.mkResponse 500
                             (Routes.BError "음성 인식 중 오류가 발생했습니다." e)), w1) = w)
              /\ (Routes.status r = 200 ->
                  exists text rest,
                    replies w = Transcription text :: rest
                    /\ Js.trim text <> ""
                    /\ Speech.isHallucination (Js.trim text) = false
                    /\ Routes.payload r
                       = Routes.BSpeech (Js.trim text) 0.9%Q "음성 인식이 완료되었습니다!")).
  { intros e w1 Hw. eexists. split; [reflexivity|]. cbn.
    split; [exact Hw|]. split; [tauto|]. split; [split; discriminate|].
    split; [split; [discriminate|intros [_ H]; discriminate]|].
    split; [intros [H|H]; discriminate|discriminate]. }
  destruct (negb (Js.truthy (openaiApiKey w))); [apply H500; reflexivity|].
  destruct (length _ <? Speech.minAudioBytes)%nat; [apply H500; reflexivity|].
  destruct (Speech.written files) as [[]|e0]; [|apply H500; reflexivity].
  destruct (replies w) as [|reply rest]; [apply H500; reflexivity|].
  destruct reply as [st|url|c pr|b|t]; try (apply H500; reflexivity).
  destruct (Speech.removed files) as [[]|e1]; [|apply H500; reflexivity].
  destruct (Speech.isHallucination (Js.trim t)) eqn:Hf; [apply H500; reflexivity|].
  unfold Routes.json, ret. eexists. split; [reflexivity|]. cbn.
  split; [reflexivity|]. split; [tauto|]. split; [split; discriminate|].
  split; [split; [discriminate|intros [_ H]; discriminate]|].
  split; [intros [H|H]; discriminate|].
  intros _. exists t, rest. split; [reflexivity|].
  split; [intros He; rewrite He in Hf; discriminate|]. split; [exact Hf|reflexivity].
Qed.

Lemma speech_route_answers_witness :
  exists r,
    fst (Routes.speechRecognition Js.base64Decode Samples.disk
           (Routes.mkRequest (Some "u1") (Routes.mkSpeechBody None (Some "ja")))
           Samples.atLimit) = Ok r
    /\ Routes.status r = 400.
Proof.
  destruct (speech_route_answers Js.base64Decode Samples.disk
              (Routes.mkRequest (Some "u1") (Routes.mkSpeechBody None (Some "ja")))
              Samples.atLimit) as (r & Hr & _ & _ & _ & H400 & _).
  exists r. split; [exact Hr|]. apply H400. split; [discriminate|reflexivity].
Defined.

Section Translating.
Import Translation.


End Translating.



(** ** The effect that opens the scene *)

(** X24: the scene is opened once. The effect of the page runs
    [initializeScene] only for a character with a name, a scenario with a
    preset key or a free text that is not blank, and an empty history
    (without one of the three it leaves the page as it is); it
    lets no error escape; and run again on the page it has left, it does
    nothing: the history it leaves is not empty, so the scene is not
    opened a second time. *)
Theorem scene_effect_opens_once :
  forall s : Opening.Stage,
    let q := snd (Opening.sceneEffect s) in
    fst (Opening.sceneEffect s) = Ok tt
    /\ Opening.sceneEffect q = (Ok tt, q)
    /\ (Opening.dialogueHistory s <> [] -> q = s)
    /\ (Opening.characterName s = "" -> q = s)
    /\ (Js.truthy (Dialogue.presetKey (Opening.scenario s)) = false ->
        Js.truthy (Opening.trimmed (Dialogue.freeText (Opening.scenario s))) = false ->
        q = s)
    /\ (Opening.dialogueHistory s = [] ->
        Opening.characterName s <> "" ->
        (Js.truthy (Dialogue.presetKey (Opening.scenario s)) = true
         \/ Js.truthy (Opening.trimmed (Dialogue.freeText (Opening.scenario s))) = true) ->
        Opening.sceneEffect s = Opening.initializeScene s
        /\ length (Opening.dialogueHistory q) = 2%nat).
Proof.
  intros s q. subst q.
  destruct (scene_opened s) as (q & Hrun & Hlen).
  unfold Opening.sceneEffect.
  destruct (Js.truthy (Some (Opening.characterName s))
            && (Js.truthy (Dialogue.presetKey (Opening.scenario s))
                || Js.truthy (Opening.trimmed (Dialogue.freeText (Opening.scenario s))))
            && (length (Opening.dialogueHistory s) =? 0)%nat) eqn:E.
  - rewrite Hrun. cbn [fst snd]. split; [reflexivity|].
    split.
    { destruct (Opening.dialogueHistory q) as [|a [|b [|c l]]] eqn:Hq;
        try discriminate Hlen.
      cbn [length Nat.eqb]. rewrite andb_false_r. reflexivity. }
    apply andb_prop in E as [E E3]. apply andb_prop in E as [E1 E2].
    split.
    { intros H. destruct (Opening.dialogueHistory s); [congruence|discriminate E3]. }
    split.
    { intros H. rewrite H in E1. discriminate. }
    split.
    { intros H1 H2. rewrite H1, H2 in E2. discriminate. }
    intros _ _ _. split; [reflexivity|exact Hlen].
  - cbn [fst snd]. split; [reflexivity|]. rewrite E.
    split; [reflexivity|]. split; [reflexivity|]. split; [reflexivity|].
    split; [reflexivity|].
    intros Hh Hn Hs. exfalso.
    rewrite Hh in E. cbn [length Nat.eqb] in E. rewrite andb_true_r in E.
    assert (H1 : Js.truthy (Some (Opening.characterName s)) = true).
    { unfold Js.truthy.
      destruct (String.eqb_spec (Opening.characterName s) ""); [contradiction|reflexivity]. }
    rewrite H1 in E. cbn [andb] in E.
    destruct Hs as [Hs|Hs]; rewrite Hs in E; [|rewrite orb_true_r in E]; discriminate.
Qed.

Lemma scene_effect_opens_once_witness :
  Opening.sceneEffect
    (Opening.mkStage "" "female" "cheerful"
       (Dialogue.mkDialogueScenario (Some "cafeteria") None) None [] 0 [] [] [])
  = (Ok tt,
     Opening.mkStage "" "female" "cheerful"
       (Dialogue.mkDialogueScenario (Some "cafeteria") None) None [] 0 [] [] []).
Proof.
  destruct (scene_effect_opens_once
              (Opening.mkStage "" "female" "cheerful"
                 (Dialogue.mkDialogueScenario (Some "cafeteria") None)
                 None [] 0 [] [] [])) as (_ & _ & _ & H & _).
  rewrite <- (H eq_refl) at 2. reflexivity.
Defined.

(** ** The client's requests *)

Section ClientRequests.
Import QueryClient.

Lemma throwIfResNotOk_ok display res :
  throwIfResNotOk display res = Ok tt <-> ok res = true.
Proof.
  unfold throwIfResNotOk. destruct (ok res); cbn [negb]; [tauto|].
  split; [|discriminate].
  destruct (bodyJson res) as [errorData|e];
    [|destruct (bodyText res); discriminate].
  destruct errorData; try discriminate;
    destruct (Js.getProp _ "message") as [m| |]; try discriminate;
    destruct (Js.truthyJson m); discriminate.
Qed.

Lemma rethrow_errorPage : rethrow errorPage = errorPage.
Proof. vm_compute. reflexivity. Qed.

Lemma rethrow_unreadable : rethrow unreadable = unprocessable.
Proof. vm_compute. reflexivity. Qed.

Lemma includes_prefix (p x : string) : Js.includes (p ++ x) p = true.
Proof.
  destruct p as [|a p].
  - destruct x; reflexivity.
  - change (String a p ++ x) with (String a (p ++ x)).
    cbn [Js.includes]. fold (String a p ++ x)%string.
    change (String a (p ++ x)) with (String a p ++ x).
    rewrite prefix_app. reflexivity.
Qed.

Lemma rethrow_unexpectedFormat contentType :
  rethrow (unexpectedFormat contentType) = unexpectedFormat contentType.
Proof.
  unfold rethrow.
  assert (Hne : Js.orStr (Some (unexpectedFormat contentType)) "알 수 없는 오류"
                = unexpectedFormat contentType) by reflexivity.
  rewrite Hne.
  assert (Hin : Js.includes (unexpectedFormat contentType) "서버에서" = true).
  { unfold unexpectedFormat.
    change ("서버에서 예상하지 못한 응답 형식을 받았습니다: " ++ Js.orStr contentType "unknown")
      with ("서버에서" ++ (" 예상하지 못한 응답 형식을 받았습니다: "
                           ++ Js.orStr contentType "unknown")).
    apply includes_prefix. }
  rewrite Hin, orb_true_r. reflexivity.
Qed.

End ClientRequests.

(** X26: what [apiRequest] hands to its caller. It returns a response only
    when [fetch] has settled with one that is ok, and then that very
    response; a rejected [fetch] is passed on. For a response that is not
    ok it throws: with a body that is not JSON the message is the status,
    a colon and the body text, or the status text when the body is empty,
    and when the body text cannot be read either, the rejection of
    [text()] is passed on; with a JSON object that has a message that is
    a string and not empty, as the server's refusals have, the message is
    the status, a colon and that message. The query function told to
    return null answers a 401 with null whatever the body; any other
    result it gives is the parsed body of a response that is ok. *)
Theorem apiRequest_returns_ok_responses :
  forall (display : Js.json -> string)
         (settled : outcome QueryClient.FetchResponse),
    (forall res,
       QueryClient.apiRequest display settled = Ok res <->
       settled = Ok res /\ QueryClient.ok res = true)
    /\ (forall e, settled = Throw e -> QueryClient.apiRequest display settled = Throw e)
    /\ (forall res e body,
          settled = Ok res -> QueryClient.ok res = false ->
          QueryClient.bodyJson res = Throw e ->
          QueryClient.bodyText res = Ok body ->
          QueryClient.apiRequest display settled
          = Throw ((pretty (QueryClient.status res) ++ ": ")
                   ++ (if String.eqb body ""
                       then QueryClient.statusText res
                       else body)))
    /\ (forall res e e',
          settled = Ok res -> QueryClient.ok res = false ->
          QueryClient.bodyJson res = Throw e ->
          QueryClient.bodyText res = Throw e' ->
          QueryClient.apiRequest display settled = Throw e')
    /\ (forall res members m,
          settled = Ok res -> QueryClient.ok res = false ->
          QueryClient.bodyJson res = Ok (Js.JObj members) ->
          Js.assoc "message" members = Some (Js.JStr m) -> m <> "" ->
          QueryClient.apiRequest display settled
          = Throw ((pretty (QueryClient.status res) ++ ": ") ++ m))
    /\ (forall res,
          settled = Ok res -> QueryClient.status res = 401 ->
          QueryClient.getQueryFn display true settled = Ok None)
    /\ (forall returnNull v,
          QueryClient.getQueryFn display returnNull settled = Ok (Some v) ->
          exists res,
            settled = Ok res /\ QueryClient.ok res = true
            /\ QueryClient.bodyJson res = Ok v).
Proof.
  intros display settled. split; [|split; [|split; [|split; [|split; [|split]]]]].
  - intros res. unfold QueryClient.apiRequest.
    destruct settled as [res0|e]; [|split; [discriminate|intros [H _]; discriminate]].
    pose proof (throwIfResNotOk_ok display res0) as Hok.
    destruct (QueryClient.throwIfResNotOk display res0) as [[]|e].
    + split.
      * intros [= <-]. split; [reflexivity|]. apply Hok. reflexivity.
      * intros [[= <-] _]. reflexivity.
    + split; [discriminate|]. intros [[= <-] H]. apply Hok in H. discriminate.
  - intros e ->. reflexivity.
  - intros res e body -> Hok He Hb.
    unfold QueryClient.apiRequest, QueryClient.throwIfResNotOk.
    rewrite Hok, He, Hb. cbn [negb]. unfold Js.orStr. reflexivity.
  - intros res e e' -> Hok He Hb.
    unfold QueryClient.apiRequest, QueryClient.throwIfResNotOk.
    rewrite Hok, He, Hb. reflexivity.
  - intros res members m -> Hok Hb Hm Hne.
    unfold QueryClient.apiRequest, QueryClient.throwIfResNotOk.
    rewrite Hok, Hb. cbn [negb Js.getProp]. rewrite Hm.
    cbn [Js.truthyJson QueryClient.shown].
    destruct (String.eqb_spec m "") as [|_]; [contradiction|reflexivity].
  - intros res -> H401. unfold QueryClient.getQueryFn. rewrite H401. reflexivity.
  - intros returnNull v. unfold QueryClient.getQueryFn.
    destruct settled as [res|e]; [|discriminate].
    destruct (returnNull && (QueryClient.status res =? 401)); [discriminate|].
    pose proof (throwIfResNotOk_ok display res) as Hok.
    destruct (QueryClient.throwIfResNotOk display res) as [[]|e]; [|discriminate].
    destruct (QueryClient.bodyJson res) as [v'|e] eqn:Hb; [|discriminate].
    intros [= <-]. exists res. split; [reflexivity|]. split; [|exact Hb].
    apply Hok. reflexivity.
Qed.

Lemma apiRequest_returns_ok_responses_witness :
  QueryClient.apiRequest (fun _ => "")
    (Ok (QueryClient.mkFetchResponse false 429 "Too Many Requests"
           (Some "application/json; charset=utf-8") (Ok "")
           (Ok (Js.JObj [("message", Js.JStr "limit reached");
                         ("currentUsage", Js.JNum 30); ("limit", Js.JNum 30)]))))
  = Throw "429: limit reached".
Proof.
  destruct (apiRequest_returns_ok_responses (fun _ => "")
              (Ok (QueryClient.mkFetchResponse false 429 "Too Many Requests"
                     (Some "application/json; charset=utf-8") (Ok "")
                     (Ok (Js.JObj [("message", Js.JStr "limit reached");
                                   ("currentUsage", Js.JNum 30);
                                   ("limit", Js.JNum 30)])))))
    as (_ & _ & _ & _ & H & _).
  apply (H _ _ "limit reached" eq_refl eq_refl eq_refl eq_refl). discriminate.
Defined.

(** X27: what [safeJsonParse] gives. It returns a value only for a
    response whose content type is not empty and names application/json,
    and then the parsed body. For any other content type it throws: when
    the body can be read, one of two messages, which its own [catch] lets
    through unchanged, the one for an error page when the body holds a
    doctype or an html tag, else the one that names the content type; when
    the body cannot be read, the fixed message about the network, which
    its [catch] puts in the place of the message about reading. For a JSON
    content type and a body that does not parse, the parser's message is
    replaced by the message about the network as well, unless it happens
    to contain the words already used or the Korean word the two messages
    start with. *)
Theorem safeJsonParse_errors :
  forall response : QueryClient.FetchResponse,
    (forall v,
       QueryClient.safeJsonParse response = Ok v <->
       QueryClient.isJsonType (QueryClient.contentType response) = true
       /\ QueryClient.bodyJson response = Ok v)
    /\ (forall body,
          QueryClient.isJsonType (QueryClient.contentType response) = false ->
          QueryClient.bodyText response = Ok body ->
          QueryClient.safeJsonParse response
          = Throw (if Js.includes body "<!DOCTYPE" || Js.includes body "<html"
                   then QueryClient.errorPage
                   else QueryClient.unexpectedFormat (QueryClient.contentType response)))
    /\ (forall e,
          QueryClient.isJsonType (QueryClient.contentType response) = false ->
          QueryClient.bodyText response = Throw e ->
          QueryClient.safeJsonParse response = Throw QueryClient.unprocessable)
    /\ (forall e,
          QueryClient.isJsonType (QueryClient.contentType response) = true ->
          QueryClient.bodyJson response = Throw e ->
          Js.includes e "already used" = false -> Js.includes e "서버에서" = false ->
          QueryClient.safeJsonParse response = Throw QueryClient.unprocessable)
    /\ (forall msg,
          QueryClient.safeJsonParse response = Throw msg ->
          msg = QueryClient.errorPage
          \/ msg = QueryClient.unexpectedFormat (QueryClient.contentType response)
          \/ msg = QueryClient.unprocessable
          \/ QueryClient.bodyJson response = Throw msg).
Proof.
  intros response. unfold QueryClient.safeJsonParse.
  destruct (QueryClient.isJsonType (QueryClient.contentType response)) eqn:Ht;
    cbn [negb].
  - split; [|split; [discriminate|split; [discriminate|split]]].
    + intros v. destruct (QueryClient.bodyJson response) as [v'|e].
      * split; [intros [= <-]; split; reflexivity|intros [_ [= <-]]; reflexivity].
      * split; [discriminate|intros [_ H]; discriminate].
    + intros e _ -> H1 H2. unfold QueryClient.rethrow.
      destruct e as [|a e'].
      * reflexivity.
      * change (Js.orStr (Some (String a e')) "알 수 없는 오류") with (String a e').
        rewrite H1, H2. reflexivity.
    + intros msg. destruct (QueryClient.bodyJson response) as [v|e]; [discriminate|].
      intros [= <-]. unfold QueryClient.rethrow.
      destruct (Js.includes (Js.orStr (Some e) "알 수 없는 오류") "already used"
                || Js.includes (Js.orStr (Some e) "알 수 없는 오류") "서버에서");
        [right; right; right; reflexivity|right; right; left; reflexivity].
  - destruct (QueryClient.bodyText response) as [body|e0].
    + split; [|split; [|split; [discriminate|split]]].
      * intros v.
        destruct (Js.includes body "<!DOCTYPE" || Js.includes body "<html");
          (split; [discriminate|intros [H _]; discriminate]).
      * intros body' _ [= <-].
        destruct (Js.includes body "<!DOCTYPE" || Js.includes body "<html").
        -- rewrite rethrow_errorPage. reflexivity.
        -- rewrite rethrow_unexpectedFormat. reflexivity.
      * intros e H. discriminate.
      * intros msg.
        destruct (Js.includes body "<!DOCTYPE" || Js.includes body "<html").
        -- rewrite rethrow_errorPage. intros [= <-]. left. reflexivity.
        -- rewrite rethrow_unexpectedFormat. intros [= <-]. right. left. reflexivity.
    + rewrite rethrow_unreadable.
      split; [intros v; split; [discriminate|intros [H _]; discriminate]|].
      split; [discriminate|]. split; [reflexivity|].
      split; [intros e H; discriminate|].
      intros msg [= <-]. right. right. left. reflexivity.
Qed.

Lemma safeJsonParse_errors_witness :
  QueryClient.safeJsonParse
    (QueryClient.mkFetchResponse true 200 "OK" (Some "text/html")
       (Throw "The network connection was lost.") (Throw "Unexpected token <"))
  = Throw QueryClient.unprocessable.
Proof.
  destruct (safeJsonParse_errors
              (QueryClient.mkFetchResponse true 200 "OK" (Some "text/html")
                 (Throw "The network connection was lost.")
                 (Throw "Unexpected token <")))
    as (_ & _ & H & _).
  apply (H "The network connection was lost."); reflexivity.
Defined.
